(** * The AWS ElastiCache Redis provider of cloud-resource-operator

    A shallow embedding of [pkg/providers/aws/provider_redis.go] and
    [pkg/resources/custom_metrics.go], and the properties of the create,
    delete, tagging, drift-detection and metric paths.

    Go values are modelled as follows.
    - A Go pointer [*T] is [ptr T] (an [option]); dereferencing [nil] panics.
    - A Go [error] interface value is [option error]; [None] is [nil].
    - [int64] is [Z], [float64] is the primitive [float], [string] is [string].
    - [map[string]string] is [gmap string string].
    - A function that may panic returns an [outcome]; a function with side
      effects is a state transformer over [World] (the monad [M]).
    - Remote collaborators (the ElastiCache API, STS, the Kubernetes client)
      are interfaces in Go.  Here each method is an oracle that answers from
      the history of calls made so far; every call is appended, with its
      answer, to [history].
    Logging calls are not modelled. *)

From Stdlib Require Import ZArith String Ascii List Lia PrimFloat Uint63 DecimalString.
From stdpp Require Import base gmap strings list.

Set Default Proof Using "Type".

(** ** Go runtime values *)

Definition ptr (A : Type) : Type := option A.

(** The dynamic types of [error] values that the provider can tell apart:
    [awserr.Error] (has a [Code()]), the Kubernetes [StatusError] (has a
    reason), a plain [errors.New] string, and the wrapper built by
    [github.com/pkg/errors.Wrap]. *)
Inductive error : Type :=
| AwsError (code message : string)
| StatusError (reason message : string)
| ErrorString (message : string)
| WithMessage (cause : error) (message : string).

(** [err.Error()] *)
Fixpoint Error (e : error) : string :=
  match e with
  | AwsError code message => code +:+ ": " +:+ message
  | StatusError _ message => message
  | ErrorString message => message
  | WithMessage cause message => message +:+ ": " +:+ Error cause
  end.

(** [errorUtil.Wrap(err, msg)]: a [nil] error stays [nil]. The provider also
    calls [Wrapf(err, msg)] with no further arguments, which is modelled the
    same way.  [Wrapf] renders [msg] as a format: a message without a percent
    sign is rendered as itself, which covers every constant message of the
    provider.  On the delete path two messages embed the text of the cause;
    when that text holds a percent sign the message of the wrapped error
    differs from [msg], which is not modelled.  The status message, which
    error is returned and the calls made are not affected. *)
Definition Wrap (err : option error) (message : string) : option error :=
  match err with
  | None => None
  | Some e => Some (WithMessage e message)
  end.

(** [err.(awserr.Error)] followed by [.Code()]. *)
Definition awsErrorCode (e : error) : option string :=
  match e with
  | AwsError code _ => Some code
  | _ => None
  end.

(** [kerrors.IsAlreadyExists(err)] *)
Definition IsAlreadyExists (e : error) : bool :=
  match e with
  | StatusError reason _ => String.eqb reason "AlreadyExists"
  | _ => false
  end.

Definition ErrCodeReplicationGroupNotFoundFault : string := "ReplicationGroupNotFoundFault".
Definition ErrWaitTimeout : error := ErrorString "timed out waiting for the condition".

Inductive outcome (A : Type) : Type :=
| Normal (a : A)
| Panicked (reason : string).
Arguments Normal {A} a.
Arguments Panicked {A} reason.

Definition nilDereference : string := "invalid memory address or nil pointer dereference".
Definition indexOutOfRange : string := "index out of range".
Definition sliceOutOfRange : string := "slice bounds out of range".

(** [strconv.FormatInt(z, 10)] and [strconv.FormatBool(b)] *)
Definition FormatInt (z : Z) : string := NilZero.string_of_int (Z.to_int z).
Definition FormatBool (b : bool) : string := if b then "true" else "false".

(** [float64(z)] for an [int64] [z]. *)
Definition float64_of_int64 (z : Z) : float :=
  if (z =? - 2 ^ 63)%Z then
    PrimFloat.opp (PrimFloat.mul (PrimFloat.of_uint63 (Uint63.of_Z (2 ^ 62))) 2%float)
  else if (z <? 0)%Z then PrimFloat.opp (PrimFloat.of_uint63 (Uint63.of_Z (- z)))
  else PrimFloat.of_uint63 (Uint63.of_Z z).

(** ** Types of the AWS SDK, the Kubernetes API and the operator's CRD

    Only the fields the provider reads or writes are listed, together with a
    few it never mentions (to state that they are left alone). *)

Module elasticache.

Record Endpoint := { Address : ptr string; Port : ptr Z }.

Record NodeGroupMember := {
  CacheClusterId : ptr string;
  PreferredAvailabilityZone : ptr string }.

Record NodeGroup := {
  NodeGroupStatus : ptr string;
  NodeGroupMembers : list (ptr NodeGroupMember);
  PrimaryEndpoint : ptr Endpoint }.

Record ReplicationGroup := {
  ReplicationGroupId : ptr string;
  Status : ptr string;
  CacheNodeType : ptr string;
  SnapshotRetentionLimit : ptr Z;
  NodeGroups : list (ptr NodeGroup) }.

Record CacheCluster := { CacheClusterStatus : ptr string }.

Record Snapshot := { SnapshotName : ptr string }.

Record ServiceUpdate := {
  AutoUpdateAfterRecommendedApplyByDate : ptr bool;
  Engine : ptr string;
  EstimatedUpdateTime : ptr string;
  ServiceUpdateDescription : ptr string;
  ServiceUpdateEndDate : ptr Z;  (* a [*time.Time], as its [Unix()] seconds *)
  ServiceUpdateName : ptr string;
  ServiceUpdateRecommendedApplyByDate : ptr Z;
  ServiceUpdateReleaseDate : ptr Z;
  ServiceUpdateSeverity : ptr string;
  ServiceUpdateStatus : ptr string;
  ServiceUpdateType : ptr string }.

Record Tag := { Key : ptr string; Value : ptr string }.

End elasticache.

Module CreateReplicationGroupInput.
Record t := {
  AutomaticFailoverEnabled : ptr bool;
  Engine : ptr string;
  CacheNodeType : ptr string;
  ReplicationGroupDescription : ptr string;
  EngineVersion : ptr string;
  NumCacheClusters : ptr Z;
  SnapshotRetentionLimit : ptr Z;
  ReplicationGroupId : ptr string;
  (* never mentioned by the provider *)
  CacheSubnetGroupName : ptr string;
  PreferredMaintenanceWindow : ptr string;
  SnapshotWindow : ptr string;
  Port : ptr Z;
  AtRestEncryptionEnabled : ptr bool }.
End CreateReplicationGroupInput.

Module ModifyReplicationGroupInput.
Record t := {
  ReplicationGroupId : ptr string;
  CacheNodeType : ptr string;
  SnapshotRetentionLimit : ptr Z;
  (* never mentioned by the provider *)
  ApplyImmediately : ptr bool;
  AutomaticFailoverEnabled : ptr bool;
  EngineVersion : ptr string;
  PreferredMaintenanceWindow : ptr string;
  ReplicationGroupDescription : ptr string;
  SnapshotWindow : ptr string }.

(** [&elasticache.ModifyReplicationGroupInput{}] *)
Definition empty : t :=
  {| ReplicationGroupId := None; CacheNodeType := None; SnapshotRetentionLimit := None;
     ApplyImmediately := None; AutomaticFailoverEnabled := None; EngineVersion := None;
     PreferredMaintenanceWindow := None; ReplicationGroupDescription := None;
     SnapshotWindow := None |}.
End ModifyReplicationGroupInput.

Module DeleteReplicationGroupInput.
Record t := {
  ReplicationGroupId : ptr string;
  RetainPrimaryCluster : ptr bool;
  FinalSnapshotIdentifier : ptr string }.
End DeleteReplicationGroupInput.

(** [prometheusv1.PrometheusRule] and [intstr.IntOrString] *)
Inductive IntOrString := IntVal (i : Z) | StrVal (s : string).

Record Rule := { Alert : string; Expr : IntOrString }.
Record RuleGroup := { GroupName : string; Rules : list Rule }.
Record PrometheusRule := {
  RuleName : string;
  RuleNamespace : string;
  RuleLabels : gmap string string;
  Groups : list RuleGroup }.

Definition emptyPrometheusRule : PrometheusRule :=
  {| RuleName := ""; RuleNamespace := ""; RuleLabels := ∅; Groups := [] |}.

(** [v1alpha1.Redis]: the desired resource. *)
Record ObjectMeta := {
  Name : string;
  Namespace : string;
  Labels : gmap string string;
  Finalizers : list string }.

Record Redis := {
  Meta : ObjectMeta;
  SpecType : string;
  SpecTier : string }.

Record StrategyConfig := { Region : string }.

(** [providers.RedisCluster] with its [RedisDeploymentDetails] *)
Record RedisCluster := { URI : string; DeploymentPort : Z }.

Definition StatusMessage := string.
Definition StatusEmpty : StatusMessage := "".

(** ** The gauge vectors of the Prometheus client *)

Record GaugeVec := {
  fqName : string;
  variableLabels : list string;
  (* the gauges created so far, by label values in [variableLabels] order *)
  gauges : gmap (list string) float }.

(** ** Calls to collaborators, each with the answer it got *)

Inductive Event : Type :=
| DescribeReplicationGroupsCall
    (out : ptr (list (ptr elasticache.ReplicationGroup))) (err : option error)
| CreateReplicationGroupCall (input : CreateReplicationGroupInput.t) (err : option error)
| ModifyReplicationGroupCall (input : ModifyReplicationGroupInput.t) (err : option error)
| DeleteReplicationGroupCall (input : DeleteReplicationGroupInput.t) (err : option error)
| DescribeCacheClustersCall (cacheClusterId : ptr string)
    (out : ptr (list (ptr elasticache.CacheCluster))) (err : option error)
| DescribeSnapshotsCall (cacheClusterId : string)
    (out : ptr (list (ptr elasticache.Snapshot))) (err : option error)
| DescribeServiceUpdatesCall
    (out : ptr (list (ptr elasticache.ServiceUpdate))) (err : option error)
| AddTagsToResourceCall (resourceName : string) (tags : list elasticache.Tag)
    (err : option error)
| GetCallerIdentityCall (out : ptr (ptr string)) (err : option error)
| ClientCreateCall (obj : PrometheusRule) (err : option error)
| ClientGetCall (namespace name : string) (obj : PrometheusRule) (err : option error)
| ClientDeleteCall (obj : PrometheusRule) (err : option error)
| ClientUpdateCall (obj : Redis) (err : option error)
| GetClusterIDCall (id : string) (err : option error)
| BuildInfraNameCall (timestamped : bool) (meta : ObjectMeta) (n : Z)
    (name : string) (err : option error).

(** The interfaces.  An output that is a pointer to a struct holding one
    list is modelled as a pointer to that list. *)
Record ElastiCacheAPI := {
  DescribeReplicationGroups :
    list Event -> ptr (list (ptr elasticache.ReplicationGroup)) * option error;
  CreateReplicationGroup : list Event -> CreateReplicationGroupInput.t -> option error;
  ModifyReplicationGroup : list Event -> ModifyReplicationGroupInput.t -> option error;
  DeleteReplicationGroup : list Event -> DeleteReplicationGroupInput.t -> option error;
  DescribeCacheClusters :
    list Event -> ptr string -> ptr (list (ptr elasticache.CacheCluster)) * option error;
  DescribeSnapshots :
    list Event -> string -> ptr (list (ptr elasticache.Snapshot)) * option error;
  DescribeServiceUpdates :
    list Event -> ptr (list (ptr elasticache.ServiceUpdate)) * option error;
  AddTagsToResource : list Event -> string -> list elasticache.Tag -> option error }.

(** [GetCallerIdentity] answers a pointer to an output whose [Account] is a
    pointer. *)
Record STSAPI := {
  GetCallerIdentity : list Event -> ptr (ptr string) * option error }.

(** [client.Client] of controller-runtime, at the two object types used. *)
Record K8sClient := {
  Create : list Event -> PrometheusRule -> option error;
  Get : list Event -> string -> string -> PrometheusRule * option error;
  Delete : list Event -> PrometheusRule -> option error;
  Update : list Event -> Redis -> option error }.

Record RedisProvider := { Client : K8sClient }.

(** What the provider uses of its own repository and of its libraries but
    that is defined outside the two files: constants of the [aws] package,
    helpers of the [resources] package, the clock, the number of timer ticks
    [wait.PollImmediate] gets before its timeout, and the validity checks of
    the Prometheus client. *)
Record Package := {
  DefaultFinalizer : string;
  DefaultAwsIdentifierLength : Z;
  GetOrganizationTag : string;
  GetClusterID : list Event -> string * option error;
  BuildInfraNameFromObject : list Event -> ObjectMeta -> Z -> string * option error;
  buildTimestampedInfraNameFromObject :
    list Event -> ObjectMeta -> Z -> string * option error;
  UnixNano : list Event -> Z;
  pollTicks : nat;
  (* [prometheus.NewDesc] accepts the metric name and label names *)
  validDesc : string -> list string -> bool;
  (* [utf8.ValidString] *)
  validLabelValue : string -> bool }.

(** ** The world and the monad *)

Record World := {
  history : list Event;
  (* the package variable [MetricVecs] *)
  MetricVecs : gmap string GaugeVec;
  (* names registered in [customMetrics.Registry] *)
  Registry : gset string;
  (* the object the pointer [r] points to *)
  redis : Redis }.

Definition M (A : Type) : Type := World -> outcome A * World.

Definition ret {A} (a : A) : M A := fun w => (Normal a, w).

Definition bind {A B} (m : M A) (k : A -> M B) : M B :=
  fun w =>
    match m w with
    | (Normal a, w') => k a w'
    | (Panicked reason, w') => (Panicked reason, w')
    end.

Declare Scope go_scope.
Delimit Scope go_scope with go.
Notation "'do' p <- m ;; k" := (bind m (fun p => k))
  (at level 100, p pattern, m at next level, right associativity) : go_scope.
Open Scope go_scope.

Definition panic {A} (reason : string) : M A := fun w => (Panicked reason, w).

(** [*p] *)
Definition deref {A} (p : ptr A) : M A :=
  match p with
  | Some a => ret a
  | None => panic nilDereference
  end.

(** [xs[0]] *)
Definition index0 {A} (xs : list A) : M A :=
  match xs with
  | x :: _ => ret x
  | [] => panic indexOutOfRange
  end.

(** A call to a collaborator: ask the oracle, record the call. *)
Definition call {R} (oracle : list Event -> R) (record : R -> Event) : M R :=
  fun w =>
    let r := oracle (history w) in
    (Normal r,
     {| history := history w ++ [record r]; MetricVecs := MetricVecs w;
        Registry := Registry w; redis := redis w |}).

Definition getRedis : M Redis := fun w => (Normal (redis w), w).

Definition putRedis (r : Redis) : M unit :=
  fun w =>
    (Normal tt,
     {| history := history w; MetricVecs := MetricVecs w;
        Registry := Registry w; redis := r |}).

(** Field assignments through a pointer to a request struct. *)
Module SetCreate.
Import CreateReplicationGroupInput.
Definition withAutomaticFailoverEnabled (v : ptr bool) (c : t) : t :=
  {| AutomaticFailoverEnabled := v; Engine := Engine c; CacheNodeType := CacheNodeType c;
     ReplicationGroupDescription := ReplicationGroupDescription c;
     EngineVersion := EngineVersion c; NumCacheClusters := NumCacheClusters c;
     SnapshotRetentionLimit := SnapshotRetentionLimit c;
     ReplicationGroupId := ReplicationGroupId c;
     CacheSubnetGroupName := CacheSubnetGroupName c;
     PreferredMaintenanceWindow := PreferredMaintenanceWindow c;
     SnapshotWindow := SnapshotWindow c; Port := Port c;
     AtRestEncryptionEnabled := AtRestEncryptionEnabled c |}.
Definition withEngine (v : ptr string) (c : t) : t :=
  {| AutomaticFailoverEnabled := AutomaticFailoverEnabled c; Engine := v;
     CacheNodeType := CacheNodeType c;
     ReplicationGroupDescription := ReplicationGroupDescription c;
     EngineVersion := EngineVersion c; NumCacheClusters := NumCacheClusters c;
     SnapshotRetentionLimit := SnapshotRetentionLimit c;
     ReplicationGroupId := ReplicationGroupId c;
     CacheSubnetGroupName := CacheSubnetGroupName c;
     PreferredMaintenanceWindow := PreferredMaintenanceWindow c;
     SnapshotWindow := SnapshotWindow c; Port := Port c;
     AtRestEncryptionEnabled := AtRestEncryptionEnabled c |}.
Definition withCacheNodeType (v : ptr string) (c : t) : t :=
  {| AutomaticFailoverEnabled := AutomaticFailoverEnabled c; Engine := Engine c;
     CacheNodeType := v; ReplicationGroupDescription := ReplicationGroupDescription c;
     EngineVersion := EngineVersion c; NumCacheClusters := NumCacheClusters c;
     SnapshotRetentionLimit := SnapshotRetentionLimit c;
     ReplicationGroupId := ReplicationGroupId c;
     CacheSubnetGroupName := CacheSubnetGroupName c;
     PreferredMaintenanceWindow := PreferredMaintenanceWindow c;
     SnapshotWindow := SnapshotWindow c; Port := Port c;
     AtRestEncryptionEnabled := AtRestEncryptionEnabled c |}.
Definition withReplicationGroupDescription (v : ptr string) (c : t) : t :=
  {| AutomaticFailoverEnabled := AutomaticFailoverEnabled c; Engine := Engine c;
     CacheNodeType := CacheNodeType c; ReplicationGroupDescription := v;
     EngineVersion := EngineVersion c; NumCacheClusters := NumCacheClusters c;
     SnapshotRetentionLimit := SnapshotRetentionLimit c;
     ReplicationGroupId := ReplicationGroupId c;
     CacheSubnetGroupName := CacheSubnetGroupName c;
     PreferredMaintenanceWindow := PreferredMaintenanceWindow c;
     SnapshotWindow := SnapshotWindow c; Port := Port c;
     AtRestEncryptionEnabled := AtRestEncryptionEnabled c |}.
Definition withEngineVersion (v : ptr string) (c : t) : t :=
  {| AutomaticFailoverEnabled := AutomaticFailoverEnabled c; Engine := Engine c;
     CacheNodeType := CacheNodeType c;
     ReplicationGroupDescription := ReplicationGroupDescription c; EngineVersion := v;
     NumCacheClusters := NumCacheClusters c;
     SnapshotRetentionLimit := SnapshotRetentionLimit c;
     ReplicationGroupId := ReplicationGroupId c;
     CacheSubnetGroupName := CacheSubnetGroupName c;
     PreferredMaintenanceWindow := PreferredMaintenanceWindow c;
     SnapshotWindow := SnapshotWindow c; Port := Port c;
     AtRestEncryptionEnabled := AtRestEncryptionEnabled c |}.
Definition withNumCacheClusters (v : ptr Z) (c : t) : t :=
  {| AutomaticFailoverEnabled := AutomaticFailoverEnabled c; Engine := Engine c;
     CacheNodeType := CacheNodeType c;
     ReplicationGroupDescription := ReplicationGroupDescription c;
     EngineVersion := EngineVersion c; NumCacheClusters := v;
     SnapshotRetentionLimit := SnapshotRetentionLimit c;
     ReplicationGroupId := ReplicationGroupId c;
     CacheSubnetGroupName := CacheSubnetGroupName c;
     PreferredMaintenanceWindow := PreferredMaintenanceWindow c;
     SnapshotWindow := SnapshotWindow c; Port := Port c;
     AtRestEncryptionEnabled := AtRestEncryptionEnabled c |}.
Definition withSnapshotRetentionLimit (v : ptr Z) (c : t) : t :=
  {| AutomaticFailoverEnabled := AutomaticFailoverEnabled c; Engine := Engine c;
     CacheNodeType := CacheNodeType c;
     ReplicationGroupDescription := ReplicationGroupDescription c;
     EngineVersion := EngineVersion c; NumCacheClusters := NumCacheClusters c;
     SnapshotRetentionLimit := v; ReplicationGroupId := ReplicationGroupId c;
     CacheSubnetGroupName := CacheSubnetGroupName c;
     PreferredMaintenanceWindow := PreferredMaintenanceWindow c;
     SnapshotWindow := SnapshotWindow c; Port := Port c;
     AtRestEncryptionEnabled := AtRestEncryptionEnabled c |}.
Definition withReplicationGroupId (v : ptr string) (c : t) : t :=
  {| AutomaticFailoverEnabled := AutomaticFailoverEnabled c; Engine := Engine c;
     CacheNodeType := CacheNodeType c;
     ReplicationGroupDescription := ReplicationGroupDescription c;
     EngineVersion := EngineVersion c; NumCacheClusters := NumCacheClusters c;
     SnapshotRetentionLimit := SnapshotRetentionLimit c; ReplicationGroupId := v;
     CacheSubnetGroupName := CacheSubnetGroupName c;
     PreferredMaintenanceWindow := PreferredMaintenanceWindow c;
     SnapshotWindow := SnapshotWindow c; Port := Port c;
     AtRestEncryptionEnabled := AtRestEncryptionEnabled c |}.
End SetCreate.

Module SetModify.
Import ModifyReplicationGroupInput.
Definition withReplicationGroupId (v : ptr string) (c : t) : t :=
  {| ReplicationGroupId := v; CacheNodeType := CacheNodeType c;
     SnapshotRetentionLimit := SnapshotRetentionLimit c;
     ApplyImmediately := ApplyImmediately c;
     AutomaticFailoverEnabled := AutomaticFailoverEnabled c;
     EngineVersion := EngineVersion c;
     PreferredMaintenanceWindow := PreferredMaintenanceWindow c;
     ReplicationGroupDescription := ReplicationGroupDescription c;
     SnapshotWindow := SnapshotWindow c |}.
Definition withCacheNodeType (v : ptr string) (c : t) : t :=
  {| ReplicationGroupId := ReplicationGroupId c; CacheNodeType := v;
     SnapshotRetentionLimit := SnapshotRetentionLimit c;
     ApplyImmediately := ApplyImmediately c;
     AutomaticFailoverEnabled := AutomaticFailoverEnabled c;
     EngineVersion := EngineVersion c;
     PreferredMaintenanceWindow := PreferredMaintenanceWindow c;
     ReplicationGroupDescription := ReplicationGroupDescription c;
     SnapshotWindow := SnapshotWindow c |}.
Definition withSnapshotRetentionLimit (v : ptr Z) (c : t) : t :=
  {| ReplicationGroupId := ReplicationGroupId c; CacheNodeType := CacheNodeType c;
     SnapshotRetentionLimit := v; ApplyImmediately := ApplyImmediately c;
     AutomaticFailoverEnabled := AutomaticFailoverEnabled c;
     EngineVersion := EngineVersion c;
     PreferredMaintenanceWindow := PreferredMaintenanceWindow c;
     ReplicationGroupDescription := ReplicationGroupDescription c;
     SnapshotWindow := SnapshotWindow c |}.
End SetModify.

Module SetDelete.
Import DeleteReplicationGroupInput.
Definition withReplicationGroupId (v : ptr string) (c : t) : t :=
  {| ReplicationGroupId := v; RetainPrimaryCluster := RetainPrimaryCluster c;
     FinalSnapshotIdentifier := FinalSnapshotIdentifier c |}.
Definition withRetainPrimaryCluster (v : ptr bool) (c : t) : t :=
  {| ReplicationGroupId := ReplicationGroupId c; RetainPrimaryCluster := v;
     FinalSnapshotIdentifier := FinalSnapshotIdentifier c |}.
Definition withFinalSnapshotIdentifier (v : ptr string) (c : t) : t :=
  {| ReplicationGroupId := ReplicationGroupId c;
     RetainPrimaryCluster := RetainPrimaryCluster c; FinalSnapshotIdentifier := v |}.
End SetDelete.

(** ** pkg/resources/custom_metrics.go *)

Section Resources.
Variable pkg : Package.

(** [prometheus.NewGaugeVec(prometheus.GaugeOpts{Name: name}, keys)] *)
Definition NewGaugeVec (name : string) (keys : list string) : GaugeVec :=
  {| fqName := name; variableLabels := keys; gauges := ∅ |}.

(** [gv.With(labels)]: the gauge of these label values, created at zero
    when new.  It panics unless [labels] has exactly the label names of
    the vector and valid values.  The gauge is named by its label values
    in the vector's label order. *)
Definition With (gv : GaugeVec) (labels : gmap string string) : outcome (list string) :=
  if negb (size labels =? length (variableLabels gv))%nat then
    Panicked "inconsistent label cardinality"
  else if negb (forallb (validLabelValue pkg) (map snd (map_to_list labels))) then
    Panicked "label value is not valid UTF-8"
  else
    match mapM (fun l => labels !! l) (variableLabels gv) with
    | Some values => Normal values
    | None => Panicked "label name missing in label map"
    end.

(** [g.Set(value)] on the gauge [values] of [gv] *)
Definition GaugeSet (gv : GaugeVec) (values : list string) (value : float) : GaugeVec :=
  {| fqName := fqName gv; variableLabels := variableLabels gv;
     gauges := <[values := value]> (gauges gv) |}.

(** [customMetrics.Registry.MustRegister(gv)] *)
Definition MustRegister (reg : gset string) (gv : GaugeVec) : outcome (gset string) :=
  if negb (validDesc pkg (fqName gv) (variableLabels gv)) then
    Panicked "descriptor is invalid"
  else if decide (fqName gv ∈ reg) then
    Panicked "duplicate metrics collector registration attempted"
  else Normal ({[fqName gv]} ∪ reg).

(** [StartGaugeVector] empties the map.  The goroutine it starts, which
    resets every vector once an hour, is not modelled. *)
Definition StartGaugeVector : M unit :=
  fun w =>
    (Normal tt,
     {| history := history w; MetricVecs := ∅; Registry := Registry w;
        redis := redis w |}).

Definition SetMetric (name : string) (labels : gmap string string) (value : float)
  : M (option error) :=
  fun w =>
    (* set vector value *)
    match MetricVecs w !! name with
    | Some gv =>
        match With gv labels with
        | Normal values =>
            (Normal None,
             {| history := history w;
                MetricVecs := <[name := GaugeSet gv values value]> (MetricVecs w);
                Registry := Registry w; redis := redis w |})
        | Panicked reason => (Panicked reason, w)
        end
    | None =>
        (* create label array for vector creation; Go ranges over the map
           in an unspecified order *)
        let keys := map fst (map_to_list labels) in
        (* the vector does not exist, create it, register *)
        let gv := NewGaugeVec name keys in
        match MustRegister (Registry w) gv with
        | Normal reg =>
            (Normal None,
             {| history := history w; MetricVecs := <[name := gv]> (MetricVecs w);
                Registry := reg; redis := redis w |})
        | Panicked reason => (Panicked reason, w)
        end
    end.

Definition timeNow : M Z := fun w => (Normal (UnixNano pkg (history w)), w).

Definition SetMetricCurrentTime (name : string) (labels : gmap string string)
  : M (option error) :=
  do now <- timeNow;;
  do err <- SetMetric name labels (PrimFloat.div (float64_of_int64 now) 1e9%float);;
  match err with
  | Some e => ret (Wrap (Some e) "unable to set current time gauge vector")
  | None => ret None
  end.

Definition createPrometheusRuleObject (namespace rulename : string)
    (groups : list RuleGroup) : PrometheusRule :=
  {| RuleName := rulename; RuleNamespace := namespace;
     RuleLabels := {[ "monitoring-key" := "middleware" ]};
     Groups := groups |}.

Definition CreatePrometheusRule (namespace alertRuleName : string) (alertExp : IntOrString)
  : PrometheusRule * option error :=
  let alertGroupName := alertRuleName +:+ "Group" in
  let alertName := alertRuleName +:+ "Alert" in
  let groups :=
    [ {| GroupName := alertGroupName;
         Rules := [ {| Alert := alertName; Expr := alertExp |} ] |} ] in
  (createPrometheusRuleObject namespace alertRuleName groups, None).

(** Modelled from the spec: [resources.RemoveFinalizer] is not among the
    source files; the spec says the delete path "removes the finalizer
    from the desired resource". *)
Definition RemoveFinalizer (meta : ObjectMeta) (finalizer : string) : ObjectMeta :=
  {| Name := Name meta; Namespace := Namespace meta; Labels := Labels meta;
     Finalizers := filter (fun f => f ≠ finalizer) (Finalizers meta) |}.

End Resources.

(** ** pkg/providers/aws/provider_redis.go *)

Definition defaultRedisMaintenanceMetricName : string := "cro_aws_elasticache_service_maintenance".
Definition defaultRedisInfoMetricName : string := "cro_aws_elasticache_info".
Definition defaultRedisAvailMetricName : string := "cro_aws_elasticache_available".
Definition redisProviderName : string := "aws-elasticache".
Definition defaultCacheNodeType : string := "cache.t2.micro".
Definition defaultEngineVersion : string := "3.2.10".
Definition defaultDescription : string := "A Redis replication group".
Definition defaultNumCacheClusters : Z := 2.
Definition defaultSnapshotRetention : Z := 30.

(** [wait.PollImmediate(interval, timeout, condition)]: the condition is
    tried at once and then at every tick until the timeout; [ticks] is the
    number of ticks before the timeout.  [S] is the state of the variables
    the closure captures. *)
Fixpoint PollImmediate {S : Type} (ticks : nat)
    (condition : S -> M (S * bool * option error)) (s : S) : M (S * option error) :=
  do (s', done, err) <- condition s;;
  match err with
  | Some e => ret (s', Some e)
  | None =>
      if done then ret (s', None)
      else match ticks with
           | O => ret (s', Some ErrWaitTimeout)
           | S n => PollImmediate n condition s'
           end
  end.

(** [s[:len(s)-1]] *)
Definition dropLastByte (s : string) : M string :=
  match String.length s with
  | O => panic sliceOutOfRange
  | S n => ret (substring 0 n s)
  end.

(** The loop [for _, c := range rgs] of the create and delete paths: the
    first group whose identifier is the configured one. *)
Fixpoint findCache (rgs : list (ptr elasticache.ReplicationGroup)) (wanted : ptr string)
  : M (ptr elasticache.ReplicationGroup) :=
  match rgs with
  | [] => ret None
  | c :: rest =>
      do g <- deref c;;
      do id <- deref (elasticache.ReplicationGroupId g);;
      do want <- deref wanted;;
      if String.eqb id want then ret (Some g) else findCache rest wanted
  end.

Section Provider.
Variable pkg : Package.
Variable p : RedisProvider.

(** poll for replication groups *)
Definition getReplicationGroups (cacheSvc : ElastiCacheAPI)
  : M (list (ptr elasticache.ReplicationGroup) * option error) :=
  do (rgs, err) <-
    PollImmediate (pollTicks pkg)
      (fun rgs =>
         do (listOutput, err) <-
           call (DescribeReplicationGroups cacheSvc)
                (fun r => DescribeReplicationGroupsCall (fst r) (snd r));;
         match err with
         | Some _ => ret (rgs, false, None)
         | None =>
             do out <- deref listOutput;;
             ret (out, true, None)
         end)
      [];;
  match err with
  | Some e => ret ([], Some e)
  | None => ret (rgs, None)
  end.

(** checks found config vs user strategy for changes, if found returns a
    modify replication group *)
Definition buildElasticacheUpdateStrategy
    (elasticacheConfig : CreateReplicationGroupInput.t)
    (foundConfig : elasticache.ReplicationGroup)
  : M (ptr ModifyReplicationGroupInput.t) :=
  let updateFound := false in
  let ec := ModifyReplicationGroupInput.empty in
  let ec := SetModify.withReplicationGroupId (elasticache.ReplicationGroupId foundConfig) ec in
  do wantType <- deref (CreateReplicationGroupInput.CacheNodeType elasticacheConfig);;
  do haveType <- deref (elasticache.CacheNodeType foundConfig);;
  let '(ec, updateFound) :=
    if negb (String.eqb wantType haveType) then
      (SetModify.withCacheNodeType
         (CreateReplicationGroupInput.CacheNodeType elasticacheConfig) ec, true)
    else (ec, updateFound) in
  do wantLimit <- deref (CreateReplicationGroupInput.SnapshotRetentionLimit elasticacheConfig);;
  do haveLimit <- deref (elasticache.SnapshotRetentionLimit foundConfig);;
  let '(ec, updateFound) :=
    if negb (wantLimit =? haveLimit)%Z then
      (SetModify.withSnapshotRetentionLimit
         (CreateReplicationGroupInput.SnapshotRetentionLimit elasticacheConfig) ec, true)
    else (ec, updateFound) in
  if updateFound then ret (Some ec) else ret None.

Definition callBuildInfraName (timestamped : bool) (meta : ObjectMeta) (n : Z)
  : M (string * option error) :=
  call (fun h =>
          if timestamped then buildTimestampedInfraNameFromObject pkg h meta n
          else BuildInfraNameFromObject pkg h meta n)
       (fun r => BuildInfraNameCall timestamped meta n (fst r) (snd r)).

(** verifyRedisConfig checks elasticache config, if none exist sets values
    to default.  The result holds the struct [elasticacheConfig] points
    to, as the function leaves it. *)
Definition buildElasticacheCreateStrategy (elasticacheConfig : CreateReplicationGroupInput.t)
  : M (CreateReplicationGroupInput.t * option error) :=
  let c := SetCreate.withAutomaticFailoverEnabled (Some true) elasticacheConfig in
  let c := SetCreate.withEngine (Some "redis") c in
  let c :=
    match CreateReplicationGroupInput.CacheNodeType c with
    | None => SetCreate.withCacheNodeType (Some defaultCacheNodeType) c
    | Some _ => c
    end in
  let c :=
    match CreateReplicationGroupInput.ReplicationGroupDescription c with
    | None => SetCreate.withReplicationGroupDescription (Some defaultDescription) c
    | Some _ => c
    end in
  let c :=
    match CreateReplicationGroupInput.EngineVersion c with
    | None => SetCreate.withEngineVersion (Some defaultEngineVersion) c
    | Some _ => c
    end in
  let c :=
    match CreateReplicationGroupInput.NumCacheClusters c with
    | None => SetCreate.withNumCacheClusters (Some defaultNumCacheClusters) c
    | Some _ => c
    end in
  let c :=
    match CreateReplicationGroupInput.SnapshotRetentionLimit c with
    | None => SetCreate.withSnapshotRetentionLimit (Some defaultSnapshotRetention) c
    | Some _ => c
    end in
  do r <- getRedis;;
  do (cacheName, err) <-
    callBuildInfraName false (Meta r) (DefaultAwsIdentifierLength pkg);;
  match err with
  | Some e => ret (c, Wrap (Some e) "failed to retrieve elasticache config")
  | None =>
      let c :=
        match CreateReplicationGroupInput.ReplicationGroupId c with
        | None => SetCreate.withReplicationGroupId (Some cacheName) c
        | Some _ => c
        end in
      ret (c, None)
  end.

(** buildElasticacheDeleteConfig checks redis config, if none exists sets
    values to defaults.  The result holds the two structs the pointers
    point to, as the function leaves them. *)
Definition buildElasticacheDeleteConfig (r : Redis)
    (elasticacheCreateConfig : CreateReplicationGroupInput.t)
    (elasticacheDeleteConfig : DeleteReplicationGroupInput.t)
  : M (CreateReplicationGroupInput.t * DeleteReplicationGroupInput.t * option error) :=
  do (cacheName, err) <-
    callBuildInfraName false (Meta r) (DefaultAwsIdentifierLength pkg);;
  match err with
  | Some e =>
      ret (elasticacheCreateConfig, elasticacheDeleteConfig,
           Wrap (Some e) "failed to retrieve elasticache config")
  | None =>
      let '(c, d) :=
        match DeleteReplicationGroupInput.ReplicationGroupId elasticacheDeleteConfig with
        | None =>
            let c :=
              match CreateReplicationGroupInput.ReplicationGroupId elasticacheCreateConfig with
              | None => SetCreate.withReplicationGroupId (Some cacheName) elasticacheCreateConfig
              | Some _ => elasticacheCreateConfig
              end in
            (c, SetDelete.withReplicationGroupId
                  (CreateReplicationGroupInput.ReplicationGroupId c)
                  elasticacheDeleteConfig)
        | Some _ => (elasticacheCreateConfig, elasticacheDeleteConfig)
        end in
      let d :=
        match DeleteReplicationGroupInput.RetainPrimaryCluster d with
        | None => SetDelete.withRetainPrimaryCluster (Some false) d
        | Some _ => d
        end in
      do (snapshotIdentifier, err) <-
        callBuildInfraName true (Meta r) (DefaultAwsIdentifierLength pkg);;
      match err with
      | Some e => ret (c, d, Wrap (Some e) "failed to retrieve rds config")
      | None =>
          let d :=
            match DeleteReplicationGroupInput.FinalSnapshotIdentifier d with
            | Some s =>
                if String.eqb s "" then
                  SetDelete.withFinalSnapshotIdentifier (Some snapshotIdentifier) d
                else d
            | None => d
            end in
          ret (c, d, None)
      end
  end.

Definition callGetClusterID : M (string * option error) :=
  call (GetClusterID pkg) (fun r => GetClusterIDCall (fst r) (snd r)).

(** returns generic labels to be added to every metric *)
Definition buildRedisGenericMetricLabels (r : Redis) (cache : elasticache.ReplicationGroup)
    (clusterID : string) : M (gmap string string) :=
  let labels : gmap string string := ∅ in
  let labels := <["clusterID" := clusterID]> labels in
  let labels := <["resourceID" := Name (Meta r)]> labels in
  let labels := <["namespace" := Namespace (Meta r)]> labels in
  do id <- deref (elasticache.ReplicationGroupId cache);;
  ret (<["instanceID" := id]> labels).

(** adds extra information to labels around resource *)
Definition buildRedisInfoMetricLables (r : Redis) (cache : elasticache.ReplicationGroup)
    (clusterID : string) : M (gmap string string) :=
  do labels <- buildRedisGenericMetricLabels r cache clusterID;;
  do status <- deref (elasticache.Status cache);;
  ret (<["status" := status]> labels).

(** used to expose an available and information metrics during reconcile *)
Definition exposeRedisMetrics (instance : elasticache.ReplicationGroup) : M (option error) :=
  do cr <- getRedis;;
  do (clusterID, err) <- callGetClusterID;;
  match err with
  | Some e => ret (Wrap (Some e) "failed to get cluster id")
  | None =>
      (* build metric labels *)
      do infoLabels <- buildRedisInfoMetricLables cr instance clusterID;;
      do genericLabels <- buildRedisGenericMetricLabels cr instance clusterID;;
      (* set status gauge *)
      do err <- SetMetricCurrentTime pkg defaultRedisInfoMetricName infoLabels;;
      match err with
      | Some e => ret (Some e)
      | None =>
          (* set available metric *)
          do status <- deref (elasticache.Status instance);;
          if negb (String.eqb status "available") then
            do err <- SetMetric pkg defaultRedisAvailMetricName genericLabels 0%float;;
            match err with
            | Some e => ret (Some e)
            | None => ret None
            end
          else
            do err <- SetMetric pkg defaultRedisAvailMetricName genericLabels 1%float;;
            match err with
            | Some e => ret (Some e)
            | None => ret None
            end
      end
  end.

(** The body of the loop over [output.ServiceUpdates]: [Some err] when the
    loop returns early. *)
Fixpoint serviceUpdateMetrics (clusterID : string)
    (updates : list (ptr elasticache.ServiceUpdate)) : M (option error) :=
  match updates with
  | [] => ret None
  | su :: rest =>
      do su <- deref su;;
      let metricLabels : gmap string string := ∅ in
      let metricLabels := <["clusterID" := clusterID]> metricLabels in
      do auto <- deref (elasticache.AutoUpdateAfterRecommendedApplyByDate su);;
      let metricLabels :=
        <["AutoUpdateAfterRecommendedApplyByDate" := FormatBool auto]> metricLabels in
      do v <- deref (elasticache.Engine su);;
      let metricLabels := <["Engine" := v]> metricLabels in
      do v <- deref (elasticache.EstimatedUpdateTime su);;
      let metricLabels := <["EstimatedUpdateTime" := v]> metricLabels in
      do v <- deref (elasticache.ServiceUpdateDescription su);;
      let metricLabels := <["ServiceUpdateDescription" := v]> metricLabels in
      do t <- deref (elasticache.ServiceUpdateEndDate su);;
      let metricLabels := <["ServiceUpdateEndDate" := FormatInt t]> metricLabels in
      do v <- deref (elasticache.ServiceUpdateName su);;
      let metricLabels := <["ServiceUpdateName" := v]> metricLabels in
      do t <- deref (elasticache.ServiceUpdateRecommendedApplyByDate su);;
      let metricLabels :=
        <["ServiceUpdateRecommendedApplyByDate" := FormatInt t]> metricLabels in
      do t <- deref (elasticache.ServiceUpdateReleaseDate su);;
      let metricLabels := <["ServiceUpdateReleaseDate" := FormatInt t]> metricLabels in
      do v <- deref (elasticache.ServiceUpdateSeverity su);;
      let metricLabels := <["ServiceUpdateSeverity" := v]> metricLabels in
      do v <- deref (elasticache.ServiceUpdateStatus su);;
      let metricLabels := <["ServiceUpdateStatus" := v]> metricLabels in
      do v <- deref (elasticache.ServiceUpdateType su);;
      let metricLabels := <["ServiceUpdateType" := v]> metricLabels in
      do metricEpochTimestamp <- deref (elasticache.ServiceUpdateRecommendedApplyByDate su);;
      do err <- SetMetric pkg defaultRedisMaintenanceMetricName metricLabels
                  (float64_of_int64 metricEpochTimestamp);;
      match err with
      | Some e =>
          ret (Wrap (Some e)
                 ("exception calling SetMetric with metricName: "
                  +:+ defaultRedisMaintenanceMetricName))
      | None => serviceUpdateMetrics clusterID rest
      end
  end.

(** sets maintenance metric *)
Definition setRedisServiceMaintenanceMetric (cacheSvc : ElastiCacheAPI)
    (instance : elasticache.ReplicationGroup) : M (option error) :=
  do (clusterID, err) <- callGetClusterID;;
  match err with
  | Some e => ret (Wrap (Some e) "failed to get cluster id")
  | None =>
      do (output, err) <-
        call (DescribeServiceUpdates cacheSvc)
             (fun r => DescribeServiceUpdatesCall (fst r) (snd r));;
      match err with
      | Some e => ret (Wrap (Some e) "elasticache serviceupdates error")
      | None =>
          do updates <- deref output;;
          serviceUpdateMetrics clusterID updates
      end
  end.

Definition alertRuleNameOf (instanceID : string) : string :=
  "cro-aws-elasticache-" +:+ instanceID.

(** CreateElastiCacheAvailabilityAlert Call this when we create the
    ElastiCache instance to create an alert to watch for the availability
    of the instance *)
Definition CreateElastiCacheAvailabilityAlert (instanceID clusterID : string)
  : M (option error) :=
  do r <- getRedis;;
  let alertRuleName := alertRuleNameOf instanceID in
  let alertExp :=
    StrVal ("absent(cro_aws_elasticache_available{namespace='" +:+ Namespace (Meta r)
            +:+ "',instanceID='" +:+ instanceID
            +:+ "',clusterID='" +:+ clusterID
            +:+ "',resourceID='" +:+ Name (Meta r) +:+ "'} == 1)") in
  let '(pr, err) := CreatePrometheusRule (Namespace (Meta r)) alertRuleName alertExp in
  match err with
  | Some e => ret (Some e)
  | None =>
      (* Unless it already exists, call the kubernetes api and create this
         PrometheusRule *)
      do err <- call (fun h => Create (Client p) h pr) (fun e => ClientCreateCall pr e);;
      match err with
      | Some e =>
          if negb (IsAlreadyExists e) then
            ret (Wrap (Some e) ("exception calling Create metricName: " +:+ alertRuleName))
          else ret None
      | None => ret None
      end
  end.

(** DeleteElastiCacheAvailabilityAlert We call this when we delete an
    ElastiCache instance, it removes the prometheusrule alert which
    watches for the availability of the instance. *)
Definition DeleteElastiCacheAvailabilityAlert (namespace instanceID : string)
  : M (option error) :=
  (* query the kubernetes api to find the object we're looking for *)
  let alertRuleName := alertRuleNameOf instanceID in
  do (pr, err) <-
    call (fun h => Get (Client p) h namespace alertRuleName)
         (fun r => ClientGetCall namespace alertRuleName (fst r) (snd r));;
  match err with
  | Some e =>
      ret (Wrap (Some e)
             ("exception calling DeleteElastiCacheAvailabilityAlert: " +:+ alertRuleName))
  | None =>
      (* call delete on that object *)
      do err <- call (fun h => Delete (Client p) h pr) (fun e => ClientDeleteCall pr e);;
      match err with
      | Some e =>
          ret (Wrap (Some e)
                 ("exception calling DeleteElastiCacheAvailabilityAlert: " +:+ alertRuleName))
      | None => ret None
      end
  end.

(** The loop over [snapshotList.Snapshots] of [TagElasticacheNode]:
    [Some] when the loop returns early. *)
Fixpoint tagSnapshots (cacheSvc : ElastiCacheAPI) (region account : string)
    (cacheTags : list elasticache.Tag) (snapshots : list (ptr elasticache.Snapshot))
  : M (option (StatusMessage * option error)) :=
  match snapshots with
  | [] => ret None
  | snapshot :: rest =>
      do snapshot <- deref snapshot;;
      do name <- deref (elasticache.SnapshotName snapshot);;
      let snapshotArn :=
        "arn:aws:elasticache:" +:+ region +:+ ":" +:+ account +:+ ":snapshot:" +:+ name in
      do err <-
        call (fun h => AddTagsToResource cacheSvc h snapshotArn cacheTags)
             (fun e => AddTagsToResourceCall snapshotArn cacheTags e);;
      match err with
      | Some e => ret (Some ("failed to add tags to aws elasticache snapshot", Some e))
      | None => tagSnapshots cacheSvc region account cacheTags rest
      end
  end.

(** Add Tags to AWS Elasticache *)
Definition TagElasticacheNode (cacheSvc : ElastiCacheAPI) (stsSvc : STSAPI)
    (stratCfg : StrategyConfig) (cache : ptr elasticache.NodeGroupMember)
  : M (StatusMessage * option error) :=
  do r <- getRedis;;
  (* check the node to make sure it is available before applying the tag
     this is needed as the cluster may be available while a node is not *)
  do cache <- deref cache;;
  do (cacheClusterOutput, err) <-
    call (fun h => DescribeCacheClusters cacheSvc h (elasticache.CacheClusterId cache))
         (fun r =>
            DescribeCacheClustersCall (elasticache.CacheClusterId cache) (fst r) (snd r));;
  match err with
  | Some e =>
      let errMsg := "failed to get cache cluster output" in
      ret (errMsg, Wrap (Some e) errMsg)
  | None =>
      do clusters <- deref cacheClusterOutput;;
      do first <- index0 clusters;;
      do first <- deref first;;
      do clusterStatus <- deref (elasticache.CacheClusterStatus first);;
      if negb (String.eqb clusterStatus "available") then
        do id <- deref (elasticache.CacheClusterId cache);;
        let errMsg := id +:+ " status is " +:+ clusterStatus +:+ ", skipping adding tags" in
        (* [err] is nil here *)
        ret (errMsg, Wrap err errMsg)
      else
        (* get account identity *)
        do (id, err) <-
          call (GetCallerIdentity stsSvc) (fun r => GetCallerIdentityCall (fst r) (snd r));;
        match err with
        | Some e =>
            let errMsg := "failed to get account identity" in
            ret (errMsg, Wrap (Some e) errMsg)
        | None =>
            (* trim availability zone to return cache region *)
            do zone <- deref (elasticache.PreferredAvailabilityZone cache);;
            do region <- dropLastByte zone;;
            (* build cluster arn *)
            do id <- deref id;;
            do account <- deref id;;
            do cacheClusterId <- deref (elasticache.CacheClusterId cache);;
            let arn :=
              "arn:aws:elasticache:" +:+ region +:+ ":" +:+ account
              +:+ ":cluster:" +:+ cacheClusterId in
            (* set the tag values that will always be added *)
            let organizationTag := GetOrganizationTag pkg in
            do (clusterID, err) <- callGetClusterID;;
            match err with
            | Some e =>
                let errMsg := "failed to get cluster id" in
                ret (errMsg, Wrap (Some e) errMsg)
            | None =>
                let cacheTags :=
                  [ {| elasticache.Key := Some (organizationTag +:+ "clusterID");
                       elasticache.Value := Some clusterID |};
                    {| elasticache.Key := Some (organizationTag +:+ "resource-type");
                       elasticache.Value := Some (SpecType r) |};
                    {| elasticache.Key := Some (organizationTag +:+ "resource-name");
                       elasticache.Value := Some (Name (Meta r)) |} ] in
                (* check is product name exists on cr *)
                let productName := default "" (Labels (Meta r) !! "productName") in
                let cacheTags :=
                  if negb (String.eqb productName "") then
                    cacheTags ++
                      [ {| elasticache.Key := Some (organizationTag +:+ "product-name");
                           elasticache.Value := Some productName |} ]
                  else cacheTags in
                (* add tags *)
                do err <-
                  call (fun h => AddTagsToResource cacheSvc h arn cacheTags)
                       (fun e => AddTagsToResourceCall arn cacheTags e);;
                match err with
                | Some e => ret ("failed to add tags to aws elasticache :", Some e)
                | None =>
                    (* if snapshots exist add tags to them *)
                    do cacheClusterId <- deref (elasticache.CacheClusterId cache);;
                    (* loop snapshots adding tags per found snapshot; the
                       error of the call is dropped *)
                    do (snapshotList, _) <-
                      call (fun h => DescribeSnapshots cacheSvc h cacheClusterId)
                           (fun r => DescribeSnapshotsCall cacheClusterId (fst r) (snd r));;
                    do snapshots <- deref snapshotList;;
                    do early <- tagSnapshots cacheSvc region account cacheTags snapshots;;
                    match early with
                    | Some result => ret result
                    | None => ret ("successfully created and tagged", None)
                    end
                end
            end
        end
  end.

(** The loop over [cacheInstance.NodeGroupMembers] of the create path:
    [Some] when the loop returns early. *)
Fixpoint tagNodeGroupMembers (cacheSvc : ElastiCacheAPI) (stsSvc : STSAPI)
    (stratCfg : StrategyConfig) (members : list (ptr elasticache.NodeGroupMember))
  : M (option (ptr RedisCluster * StatusMessage * option error)) :=
  match members with
  | [] => ret None
  | cache :: rest =>
      do (msg, err) <- TagElasticacheNode cacheSvc stsSvc stratCfg cache;;
      match err with
      | Some e =>
          let errMsg := "failed to add tags to elasticache: " +:+ msg in
          ret (Some (None, errMsg, Wrap (Some e) errMsg))
      | None => tagNodeGroupMembers cacheSvc stsSvc stratCfg rest
      end
  end.

Definition createElasticacheCluster (cacheSvc : ElastiCacheAPI) (stsSvc : STSAPI)
    (elasticacheConfig : CreateReplicationGroupInput.t) (stratCfg : StrategyConfig)
  : M (ptr RedisCluster * StatusMessage * option error) :=
  (* the aws access key can sometimes still not be registered in aws on
     first try, so loop *)
  do (rgs, err) <- getReplicationGroups cacheSvc;;
  match err with
  | Some e =>
      let errMsg := "error getting replication groups" in
      ret (None, errMsg, Wrap (Some e) errMsg)
  | None =>
  (* verify and build elasticache create config *)
  do (elasticacheConfig, err) <- buildElasticacheCreateStrategy elasticacheConfig;;
  match err with
  | Some e =>
      let errMsg := "failed to build and verify aws elasticache create strategy" in
      ret (None, errMsg, Wrap (Some e) errMsg)
  | None =>
  (* check if the cluster has already been created *)
  do foundCache <-
    findCache rgs (CreateReplicationGroupInput.ReplicationGroupId elasticacheConfig);;
  match foundCache with
  | None =>
      (* create elasticache cluster if it doesn't exist *)
      do err <-
        call (fun h => CreateReplicationGroup cacheSvc h elasticacheConfig)
             (fun e => CreateReplicationGroupCall elasticacheConfig e);;
      match err with
      | Some e =>
          let errMsg := "error creating elasticache cluster " +:+ Error e in
          ret (None, errMsg, Wrap (Some e) errMsg)
      | None => ret (None, "started elasticache provision", None)
      end
  | Some foundCache =>
  do err <- setRedisServiceMaintenanceMetric cacheSvc foundCache;;
  match err with
  | Some e =>
      let errMsg := "error creating the elasticache service maintenance metrics" in
      ret (None, errMsg, Wrap (Some e) errMsg)
  | None =>
  (* set status metric *)
  do err <- exposeRedisMetrics foundCache;;
  match err with
  | Some e => ret (None, "failed to set metric", Some e)
  | None =>
  (* check elasticache phase *)
  do status <- deref (elasticache.Status foundCache);;
  if negb (String.eqb status "available") then
    ret (None,
         "createReplicationGroup() in progress, current aws elasticache status is "
         +:+ status, None)
  else
  do (clusterID, err) <- callGetClusterID;;
  match err with
  | Some e =>
      let errMsg := "failed to retrieve cluster identifier" in
      ret (None, errMsg, Wrap (Some e) errMsg)
  | None =>
  (* Create the PrometheusRule alert to watch for the availability of this
     ElastiCache instance we are provisioning *)
  do id <- deref (elasticache.ReplicationGroupId foundCache);;
  do err <- CreateElastiCacheAvailabilityAlert id clusterID;;
  match err with
  | Some e =>
      let errMsg := "error creating the elasticache PrometheusRule" in
      ret (None, errMsg, Wrap (Some e) errMsg)
  | None =>
  (* check if found cluster and user strategy differs, and modify instance *)
  do ec <- buildElasticacheUpdateStrategy elasticacheConfig foundCache;;
  match ec with
  | Some ec =>
      do err <-
        call (fun h => ModifyReplicationGroup cacheSvc h ec)
             (fun e => ModifyReplicationGroupCall ec e);;
      match err with
      | Some e =>
          let errMsg := "failed to modify elasticache cluster" in
          ret (None, errMsg, Wrap (Some e) errMsg)
      | None =>
          ret (None,
               "changes detected, modifyDBInstance() in progress, current aws elasticache status is "
               +:+ status, None)
      end
  | None =>
  (* add tags to cache nodes *)
  do first <- index0 (elasticache.NodeGroups foundCache);;
  do cacheInstance <- deref first;;
  do nodeStatus <- deref (elasticache.NodeGroupStatus cacheInstance);;
  if negb (String.eqb nodeStatus "available") then
    ret (None, "cache node status not available, current status:  " +:+ status, None)
  else
  do early <-
    tagNodeGroupMembers cacheSvc stsSvc stratCfg
      (elasticache.NodeGroupMembers cacheInstance);;
  match early with
  | Some result => ret result
  | None =>
  (* return secret information *)
  do first <- index0 (elasticache.NodeGroups foundCache);;
  do first <- deref first;;
  do primaryEndpoint <- deref (elasticache.PrimaryEndpoint first);;
  do address <- deref (elasticache.Address primaryEndpoint);;
  do port <- deref (elasticache.Port primaryEndpoint);;
  ret (Some {| URI := address; DeploymentPort := port |},
       "successfully created and tagged, aws elasticache status is " +:+ status, None)
  end end end end end end end end end.

Definition deleteElasticacheCluster (cacheSvc : ElastiCacheAPI)
    (elasticacheCreateConfig : CreateReplicationGroupInput.t)
    (elasticacheDeleteConfig : DeleteReplicationGroupInput.t)
  : M (StatusMessage * option error) :=
  (* the aws access key can sometimes still not be registered in aws on
     first try, so loop *)
  do (rgs, err) <- getReplicationGroups cacheSvc;;
  match err with
  | Some e => ret ("error getting replication groups", Some e)
  | None =>
  (* check and verify delete config *)
  do r <- getRedis;;
  do (configs, err) <-
    buildElasticacheDeleteConfig r elasticacheCreateConfig elasticacheDeleteConfig;;
  let '(elasticacheCreateConfig, elasticacheDeleteConfig) := configs in
  match err with
  | Some e =>
      let errMsg := "failed to verify aws rds instance configuration" in
      ret (errMsg, Wrap (Some e) errMsg)
  | None =>
  (* check if the cluster has already been deleted *)
  do foundCache <-
    findCache rgs (CreateReplicationGroupInput.ReplicationGroupId elasticacheCreateConfig);;
  match foundCache with
  | None =>
      (* check if replication group does not exist and delete finalizer;
         remove the finalizer added by the provider *)
      do r <- getRedis;;
      let r :=
        {| Meta := RemoveFinalizer (Meta r) (DefaultFinalizer pkg);
           SpecType := SpecType r; SpecTier := SpecTier r |} in
      do _ <- putRedis r;;
      do err <- call (fun h => Update (Client p) h r) (fun e => ClientUpdateCall r e);;
      match err with
      | Some e =>
          let errMsg := "failed to update instance as part of finalizer reconcile" in
          ret (errMsg, Wrap (Some e) errMsg)
      | None => ret (StatusEmpty, None)
      end
  | Some foundCache =>
  (* set status metric *)
  do err <- exposeRedisMetrics foundCache;;
  match err with
  | Some e => ret ("failed to set metric", Some e)
  | None =>
  (* if status is not available return *)
  do status <- deref (elasticache.Status foundCache);;
  if negb (String.eqb status "available") then
    ret ("delete detected, deleteReplicationGroup() in progress, current aws elasticache status is "
         +:+ status, None)
  else
  (* Delete the PrometheusRule alert which watches the availability of this
     ElastiCache instance we provisioned *)
  do r <- getRedis;;
  do id <- deref (elasticache.ReplicationGroupId foundCache);;
  do err <- DeleteElastiCacheAvailabilityAlert (Namespace (Meta r)) id;;
  match err with
  | Some e =>
      let errMsg := "failed to delete elasticache alert : " +:+ Error e in
      (* [errorUtil.Wrapf(err, errMsg)], see [Wrap] *)
      ret (errMsg, Wrap (Some e) errMsg)
  | None =>
  (* delete elasticache cluster *)
  do err <-
    call (fun h => DeleteReplicationGroup cacheSvc h elasticacheDeleteConfig)
         (fun e => DeleteReplicationGroupCall elasticacheDeleteConfig e);;
  match err with
  | Some e =>
      if match awsErrorCode e with
         | None => true
         | Some code => negb (String.eqb code ErrCodeReplicationGroupNotFoundFault)
         end
      then
        let errMsg := "failed to delete elasticache cluster : " +:+ Error e in
        (* [errorUtil.Wrapf(err, errMsg)], see [Wrap] *)
        ret (errMsg, Wrap (Some e) errMsg)
      else ret ("delete detected, deleteReplicationGroup started", None)
  | None => ret ("delete detected, deleteReplicationGroup started", None)
  end end end end end end.

End Provider.

(** ** Fixtures: a concrete cluster, resource and set of collaborators *)

Module Fixture.

Definition pkg : Package :=
  {| DefaultFinalizer := "finalizers.cloud-resources-operator.integreatly.org";
     DefaultAwsIdentifierLength := 40;
     GetOrganizationTag := "integreatly.org/";
     GetClusterID := fun _ => ("cluster-1", None);
     BuildInfraNameFromObject := fun _ _ _ => ("cluster1-ns-redis", None);
     buildTimestampedInfraNameFromObject := fun _ _ _ => ("cluster1-ns-redis-1600000000", None);
     UnixNano := fun _ => 1600000000000000000%Z;
     pollTicks := 60;
     validDesc := fun _ _ => true;
     validLabelValue := fun _ => true |}.

Definition cr : Redis :=
  {| Meta := {| Name := "redis"; Namespace := "ns"; Labels := ∅;
                Finalizers := [DefaultFinalizer pkg] |};
     SpecType := "REDIS"; SpecTier := "production" |}.

Definition world : World :=
  {| history := []; MetricVecs := ∅; Registry := ∅; redis := cr |}.

Definition member (id : string) : elasticache.NodeGroupMember :=
  {| elasticache.CacheClusterId := Some id;
     elasticache.PreferredAvailabilityZone := Some "eu-west-1a" |}.

Definition nodeGroup : elasticache.NodeGroup :=
  {| elasticache.NodeGroupStatus := Some "available";
     elasticache.NodeGroupMembers := [Some (member "node-1"); Some (member "node-2")];
     elasticache.PrimaryEndpoint :=
       Some {| elasticache.Address := Some "redis.example.com";
               elasticache.Port := Some 6379%Z |} |}.

Definition group (status : string) (nodeGroups : list (ptr elasticache.NodeGroup))
  : elasticache.ReplicationGroup :=
  {| elasticache.ReplicationGroupId := Some "cluster1-ns-redis";
     elasticache.Status := Some status;
     elasticache.CacheNodeType := Some "cache.t2.micro";
     elasticache.SnapshotRetentionLimit := Some 30%Z;
     elasticache.NodeGroups := nodeGroups |}.

(** An ElastiCache double that lists [rgs], reports every node in
    [nodeStatus], answers the cache-cluster and snapshot queries with
    [clusters] and [snapshots], and fails a delete with [deleteErr]. *)
Definition cacheSvc (rgs : list (ptr elasticache.ReplicationGroup))
    (clusters : ptr (list (ptr elasticache.CacheCluster)))
    (snapshots : ptr (list (ptr elasticache.Snapshot)) * option error)
    (deleteErr : option error) : ElastiCacheAPI :=
  {| DescribeReplicationGroups := fun _ => (Some rgs, None);
     CreateReplicationGroup := fun _ _ => None;
     ModifyReplicationGroup := fun _ _ => None;
     DeleteReplicationGroup := fun _ _ => deleteErr;
     DescribeCacheClusters := fun _ _ => (clusters, None);
     DescribeSnapshots := fun _ _ => snapshots;
     DescribeServiceUpdates := fun _ => (Some [], None);
     AddTagsToResource := fun _ _ _ => None |}.

Definition nodesIn (status : string) : ptr (list (ptr elasticache.CacheCluster)) :=
  Some [Some {| elasticache.CacheClusterStatus := Some status |}].

Definition noSnapshots : ptr (list (ptr elasticache.Snapshot)) * option error :=
  (Some [], None).

Definition stsSvc : STSAPI :=
  {| GetCallerIdentity := fun _ => (Some (Some "123456789012"), None) |}.

Definition storedRule : PrometheusRule :=
  {| RuleName := "cro-aws-elasticache-cluster1-ns-redis"; RuleNamespace := "ns";
     RuleLabels := ∅; Groups := [] |}.

(** A Kubernetes client double whose alert-rule lookup answers [getErr]. *)
Definition client (getErr : option error) : K8sClient :=
  {| Create := fun _ _ => None;
     Get := fun _ _ _ =>
              match getErr with
              | None => (storedRule, None)
              | Some e => (emptyPrometheusRule, Some e)
              end;
     Delete := fun _ _ => None;
     Update := fun _ _ => None |}.

Definition provider (getErr : option error) : RedisProvider :=
  {| Client := client getErr |}.

Definition createConfig : CreateReplicationGroupInput.t :=
  {| CreateReplicationGroupInput.AutomaticFailoverEnabled := None;
     CreateReplicationGroupInput.Engine := None;
     CreateReplicationGroupInput.CacheNodeType := None;
     CreateReplicationGroupInput.ReplicationGroupDescription := None;
     CreateReplicationGroupInput.EngineVersion := None;
     CreateReplicationGroupInput.NumCacheClusters := None;
     CreateReplicationGroupInput.SnapshotRetentionLimit := None;
     CreateReplicationGroupInput.ReplicationGroupId := None;
     CreateReplicationGroupInput.CacheSubnetGroupName := None;
     CreateReplicationGroupInput.PreferredMaintenanceWindow := None;
     CreateReplicationGroupInput.SnapshotWindow := None;
     CreateReplicationGroupInput.Port := None;
     CreateReplicationGroupInput.AtRestEncryptionEnabled := None |}.

Definition deleteConfig (finalSnapshot : ptr string) : DeleteReplicationGroupInput.t :=
  {| DeleteReplicationGroupInput.ReplicationGroupId := None;
     DeleteReplicationGroupInput.RetainPrimaryCluster := None;
     DeleteReplicationGroupInput.FinalSnapshotIdentifier := finalSnapshot |}.

(** A create config in which the operator asked for another engine and
    no automatic failover. *)
Definition overridingConfig : CreateReplicationGroupInput.t :=
  SetCreate.withEngine (Some "memcached")
    (SetCreate.withAutomaticFailoverEnabled (Some false) createConfig).

Definition labels : gmap string string :=
  <["clusterID" := "cluster-1"]> (<["instanceID" := "cluster1-ns-redis"]> ∅).

Definition stratCfg : StrategyConfig := {| Region := "eu-west-1" |}.

Definition notFound : error :=
  AwsError ErrCodeReplicationGroupNotFoundFault "replication group not found".

Definition availableSvc (deleteErr : option error) : ElastiCacheAPI :=
  cacheSvc [Some (group "available" [Some nodeGroup])] (nodesIn "available")
    noSnapshots deleteErr.

Definition absentSvc : ElastiCacheAPI :=
  cacheSvc [] (nodesIn "available") noSnapshots None.

Definition ruleMissing : error := StatusError "NotFound" "prometheusrules not found".

Definition creatingSvc : ElastiCacheAPI :=
  cacheSvc [Some (group "creating" [Some nodeGroup])] (nodesIn "available")
    noSnapshots None.

Definition largerConfig : CreateReplicationGroupInput.t :=
  SetCreate.withCacheNodeType (Some "cache.m5.large")
    (SetCreate.withSnapshotRetentionLimit (Some 30%Z) createConfig).

(** Every node is reported as still "creating". *)
Definition nodesCreatingSvc : ElastiCacheAPI :=
  cacheSvc [Some (group "available" [Some nodeGroup])] (nodesIn "creating")
    noSnapshots None.

(** The found group has no node group. *)
Definition noNodeGroupSvc : ElastiCacheAPI :=
  cacheSvc [Some (group "available" [])] (nodesIn "available") noSnapshots None.

(** The cache-cluster query answers an empty list. *)
Definition noCacheClusterSvc : ElastiCacheAPI :=
  cacheSvc [Some (group "available" [Some nodeGroup])] (Some []) noSnapshots None.

(** The snapshot query fails and answers no output. *)
Definition snapshotsFailSvc : ElastiCacheAPI :=
  cacheSvc [Some (group "available" [Some nodeGroup])] (nodesIn "available")
    (None, Some (ErrorString "describe snapshots failed")) None.

(** The snapshot query fails and answers an empty output, as the AWS client
    does. *)
Definition snapshotsFailEmptySvc : ElastiCacheAPI :=
  cacheSvc [Some (group "available" [Some nodeGroup])] (nodesIn "available")
    (Some [], Some (ErrorString "describe snapshots failed")) None.

(** A delete strategy that names the group, beside a create strategy that
    does not. *)
Definition namedDeleteConfig : DeleteReplicationGroupInput.t :=
  {| DeleteReplicationGroupInput.ReplicationGroupId := Some "cluster1-ns-redis";
     DeleteReplicationGroupInput.RetainPrimaryCluster := None;
     DeleteReplicationGroupInput.FinalSnapshotIdentifier := None |}.

End Fixture.

(** ** Classes of events *)

(** Discovery, naming and metric-refresh calls: they change nothing remote. *)
Definition quiet (e : Event) : Prop :=
  match e with
  | DescribeReplicationGroupsCall _ _ | DescribeServiceUpdatesCall _ _
  | GetClusterIDCall _ _ | BuildInfraNameCall _ _ _ _ _ => True
  | _ => False
  end.

(** The calls of the tagging subsystem. *)
Definition tagging (e : Event) : Prop :=
  match e with
  | DescribeCacheClustersCall _ _ _ | DescribeSnapshotsCall _ _ _
  | GetCallerIdentityCall _ _ | GetClusterIDCall _ _ | AddTagsToResourceCall _ _ _ => True
  | _ => False
  end.

Definition isAddTags (e : Event) : Prop :=
  match e with AddTagsToResourceCall _ _ _ => True | _ => False end.

Definition isRemoteDelete (e : Event) : Prop :=
  match e with DeleteReplicationGroupCall _ _ => True | _ => False end.

Definition isAlertCreate (e : Event) : Prop :=
  match e with ClientCreateCall _ _ => True | _ => False end.

Definition isFinalizerUpdate (e : Event) : Prop :=
  match e with ClientUpdateCall _ _ => True | _ => False end.

Definition anyEvent (e : Event) : Prop := True.

(** A computation [emits P] when, from every world, it only appends events
    of class [P] to the history and leaves the desired resource alone. *)
Definition emits {A} (P : Event -> Prop) (m : M A) : Prop :=
  forall w, exists evs,
    history (snd (m w)) = history w ++ evs /\ Forall P evs /\
    redis (snd (m w)) = redis w.

(** ** What a tick observes, and the shapes of a delete tick *)

(** The delete path lists the groups, completes its configs and looks the
    configured identifier up: [found] is the group it observes ([None]:
    absent), [w2] the world at that point. *)
Definition observedOnDelete (pkg : Package) (cacheSvc : ElastiCacheAPI)
    (c : CreateReplicationGroupInput.t) (d : DeleteReplicationGroupInput.t) (w : World)
    (found : ptr elasticache.ReplicationGroup)
    (c' : CreateReplicationGroupInput.t) (d' : DeleteReplicationGroupInput.t) (w2 : World)
  : Prop :=
  exists rgs w1,
    getReplicationGroups pkg cacheSvc w = (Normal (rgs, None), w1) /\
    buildElasticacheDeleteConfig pkg (redis w1) c d w1 = (Normal (c', d', None), w2) /\
    findCache rgs (CreateReplicationGroupInput.ReplicationGroupId c') w2
      = (Normal found, w2).

(** The same for the create path. *)
Definition observedOnCreate (pkg : Package) (cacheSvc : ElastiCacheAPI)
    (cfg : CreateReplicationGroupInput.t) (w : World)
    (found : ptr elasticache.ReplicationGroup)
    (cfg' : CreateReplicationGroupInput.t) (w2 : World) : Prop :=
  exists rgs w1,
    getReplicationGroups pkg cacheSvc w = (Normal (rgs, None), w1) /\
    buildElasticacheCreateStrategy pkg cfg w1 = (Normal (cfg', None), w2) /\
    findCache rgs (CreateReplicationGroupInput.ReplicationGroupId cfg') w2
      = (Normal found, w2).

(** The desired resource without the provider's finalizer. *)
Definition withoutFinalizer (pkg : Package) (r : Redis) : Redis :=
  {| Meta := RemoveFinalizer (Meta r) (DefaultFinalizer pkg);
     SpecType := SpecType r; SpecTier := SpecTier r |}.

(** What the delete path returns after its remote delete call answered
    [err]. *)
Definition afterRemoteDelete (err : option error) : StatusMessage * option error :=
  match err with
  | Some e =>
      if decide (awsErrorCode e = Some ErrCodeReplicationGroupNotFoundFault) then
        ("delete detected, deleteReplicationGroup started", None)
      else
        ("failed to delete elasticache cluster : " +:+ Error e,
         Some (WithMessage e ("failed to delete elasticache cluster : " +:+ Error e)))
  | None => ("delete detected, deleteReplicationGroup started", None)
  end.

(** What the delete path returns when deleting the alert rule failed with
    [e], the error of the Kubernetes call. *)
Definition alertDeleteFailure (id : string) (e : error) : StatusMessage * option error :=
  let cause :=
    WithMessage e ("exception calling DeleteElastiCacheAvailabilityAlert: "
                   +:+ alertRuleNameOf id) in
  ("failed to delete elasticache alert : " +:+ Error cause,
   Some (WithMessage cause ("failed to delete elasticache alert : " +:+ Error cause))).

Section DeleteTicks.
Variables (pkg : Package) (p : RedisProvider) (cacheSvc : ElastiCacheAPI).
Variables (c : CreateReplicationGroupInput.t) (d : DeleteReplicationGroupInput.t).
Variable w : World.

(** The five shapes of a delete tick started in [w]: its result, the
    desired resource it leaves, and the events it appends.  [pre] are the
    discovery, naming and metric events. *)
Inductive DeleteTick
  : outcome (StatusMessage * option error) -> Redis -> list Event -> Prop :=
| DeleteQuiet res pre :
    Forall quiet pre ->
    DeleteTick res (redis w) pre
| DeleteFinalizer c' d' w2 pre err :
    observedOnDelete pkg cacheSvc c d w None c' d' w2 ->
    Forall quiet pre ->
    DeleteTick
      (Normal
         match err with
         | Some e =>
             ("failed to update instance as part of finalizer reconcile",
              Some (WithMessage e
                      "failed to update instance as part of finalizer reconcile"))
         | None => (StatusEmpty, None)
         end)
      (withoutFinalizer pkg (redis w))
      (pre ++ [ClientUpdateCall (withoutFinalizer pkg (redis w)) err])
| DeleteAlertLookupFailed found c' d' w2 id pre rule e :
    observedOnDelete pkg cacheSvc c d w (Some found) c' d' w2 ->
    elasticache.Status found = Some "available" ->
    elasticache.ReplicationGroupId found = Some id ->
    Forall quiet pre ->
    DeleteTick (Normal (alertDeleteFailure id e)) (redis w)
      (pre ++ [ClientGetCall (Namespace (Meta (redis w))) (alertRuleNameOf id) rule
                 (Some e)])
| DeleteAlertDeleteFailed found c' d' w2 id pre rule e :
    observedOnDelete pkg cacheSvc c d w (Some found) c' d' w2 ->
    elasticache.Status found = Some "available" ->
    elasticache.ReplicationGroupId found = Some id ->
    Forall quiet pre ->
    DeleteTick (Normal (alertDeleteFailure id e)) (redis w)
      (pre ++ [ClientGetCall (Namespace (Meta (redis w))) (alertRuleNameOf id) rule None;
               ClientDeleteCall rule (Some e)])
| DeleteIssued found c' d' w2 id pre rule err :
    observedOnDelete pkg cacheSvc c d w (Some found) c' d' w2 ->
    elasticache.Status found = Some "available" ->
    elasticache.ReplicationGroupId found = Some id ->
    Forall quiet pre ->
    DeleteTick (Normal (afterRemoteDelete err)) (redis w)
      (pre ++ [ClientGetCall (Namespace (Meta (redis w))) (alertRuleNameOf id) rule None;
               ClientDeleteCall rule None;
               DeleteReplicationGroupCall d' err]).

End DeleteTicks.

(** ** The shapes of a create tick *)

(** The alert rule the create path asks the Kubernetes API to create. *)
Definition availabilityAlertRule (r : Redis) (instanceID clusterID : string)
  : PrometheusRule :=
  fst (CreatePrometheusRule (Namespace (Meta r)) (alertRuleNameOf instanceID)
         (StrVal ("absent(cro_aws_elasticache_available{namespace='" +:+ Namespace (Meta r)
                  +:+ "',instanceID='" +:+ instanceID
                  +:+ "',clusterID='" +:+ clusterID
                  +:+ "',resourceID='" +:+ Name (Meta r) +:+ "'} == 1)"))).

(** The events of a create tick that does not reach the alert rule: the
    quiet ones and the remote create call. *)
Definition beforeAlert (e : Event) : Prop :=
  match e with
  | CreateReplicationGroupCall _ _ => True
  | _ => quiet e
  end.

(** A modify request that changes something. *)
Definition changesSomething (ec : ModifyReplicationGroupInput.t) : Prop :=
  ModifyReplicationGroupInput.CacheNodeType ec <> None \/
  ModifyReplicationGroupInput.SnapshotRetentionLimit ec <> None.

(** The events of a create tick after the alert rule: the calls of the
    tagging subsystem, or a modify call with a request built by the drift
    detector. *)
Definition afterAlert (cfg : CreateReplicationGroupInput.t)
    (found : elasticache.ReplicationGroup) (e : Event) : Prop :=
  match e with
  | ModifyReplicationGroupCall ec _ =>
      exists w, buildElasticacheUpdateStrategy cfg found w = (Normal (Some ec), w)
  | _ => tagging e
  end.

(** A create tick reaches the alert rule when it observes the group with
    status "available", the refresh of the maintenance and availability
    metrics returns without error, and the cluster identifier is retrieved. *)
Definition reachesAlertOnCreate (pkg : Package) (cacheSvc : ElastiCacheAPI)
    (cfg : CreateReplicationGroupInput.t) (w : World)
    (found : elasticache.ReplicationGroup) (cfg' : CreateReplicationGroupInput.t)
    (w2 : World) (clusterID : string) : Prop :=
  observedOnCreate pkg cacheSvc cfg w (Some found) cfg' w2 /\
  elasticache.Status found = Some "available" /\
  exists w3 w4 w5,
    setRedisServiceMaintenanceMetric pkg cacheSvc found w2 = (Normal None, w3) /\
    exposeRedisMetrics pkg found w3 = (Normal None, w4) /\
    callGetClusterID pkg w4 = (Normal (clusterID, None), w5).

(** The value of the gauge of vector [name] with label values [values]. *)
Definition gaugeValue (w : World) (name : string) (values : list string) : option float :=
  match MetricVecs w !! name with
  | Some gv => gauges gv !! values
  | None => None
  end.

(** The label values of a label map, in the order of its keys. *)
Definition labelValues (labels : gmap string string) : list string :=
  map snd (map_to_list labels).

(** The labels of the availability metric and of the info metric of a
    resource, as the provider builds them. *)
Definition genericLabelsOf (r : Redis) (id clusterID : string) : gmap string string :=
  <["instanceID" := id]>
    (<["namespace" := Namespace (Meta r)]>
       (<["resourceID" := Name (Meta r)]> (<["clusterID" := clusterID]> ∅))).

Definition infoLabelsOf (r : Redis) (id clusterID status : string) : gmap string string :=
  <["status" := status]> (genericLabelsOf r id clusterID).

(** A listing call that failed. *)
Definition listingFailed (e : Event) : Prop :=
  match e with
  | DescribeReplicationGroupsCall _ (Some _) => True
  | _ => False
  end.

(** The closure [getReplicationGroups] hands to [wait.PollImmediate]. *)
Definition listingAttempt (cacheSvc : ElastiCacheAPI)
    (rgs : list (ptr elasticache.ReplicationGroup))
  : M (list (ptr elasticache.ReplicationGroup) * bool * option error) :=
  do (listOutput, err) <-
    call (DescribeReplicationGroups cacheSvc)
         (fun r => DescribeReplicationGroupsCall (fst r) (snd r));;
  match err with
  | Some _ => ret (rgs, false, None)
  | None => do out <- deref listOutput;; ret (out, true, None)
  end.

(** The group has the identifier [want]. *)
Definition hasIdentifier (want : string) (g : elasticache.ReplicationGroup) : bool :=
  match elasticache.ReplicationGroupId g with
  | Some id => String.eqb id want
  | None => false
  end.

(** The group named [wanted] is absent from the listing the remote
    answered: the events [evs] of a tick started in [w] begin with the
    listing calls that failed and the listing call that succeeded; that call
    is the remote's answer [rgs] at that point, and no group of [rgs] has
    the identifier [wanted]. *)
Definition absentFromListing (cacheSvc : ElastiCacheAPI) (w : World) (wanted : ptr string)
    (evs : list Event) : Prop :=
  exists failures rgs rest,
    evs = failures ++ DescribeReplicationGroupsCall (Some rgs) None :: rest /\
    Forall listingFailed failures /\
    DescribeReplicationGroups cacheSvc (history w ++ failures) = (Some rgs, None) /\
    Forall (fun g => exists g0 id,
              g = Some g0 /\ elasticache.ReplicationGroupId g0 = Some id /\
              Some id <> wanted) rgs.

(** ** The runs of the tagging subsystem *)

(** The tags of a node and of its snapshots: the three mandatory ones, and
    the product name when the resource carries a non-empty [productName]
    label. *)
Definition nodeTags (pkg : Package) (r : Redis) (clusterID : string)
  : list elasticache.Tag :=
  [ {| elasticache.Key := Some (GetOrganizationTag pkg +:+ "clusterID");
       elasticache.Value := Some clusterID |};
    {| elasticache.Key := Some (GetOrganizationTag pkg +:+ "resource-type");
       elasticache.Value := Some (SpecType r) |};
    {| elasticache.Key := Some (GetOrganizationTag pkg +:+ "resource-name");
       elasticache.Value := Some (Name (Meta r)) |} ]
  ++ match Labels (Meta r) !! "productName" with
     | Some name =>
         if decide (name = "") then []
         else [ {| elasticache.Key := Some (GetOrganizationTag pkg +:+ "product-name");
                   elasticache.Value := Some name |} ]
     | None => []
     end.

(** The region of an availability zone: the zone without its last byte. *)
Definition regionOf (zone : string) : string :=
  substring 0 (String.length zone - 1) zone.

Definition clusterArn (zone account id : string) : string :=
  "arn:aws:elasticache:" +:+ regionOf zone +:+ ":" +:+ account +:+ ":cluster:" +:+ id.

Definition snapshotArn (zone account name : string) : string :=
  "arn:aws:elasticache:" +:+ regionOf zone +:+ ":" +:+ account +:+ ":snapshot:" +:+ name.

(** The name of a listed snapshot. *)
Definition snapshotNameOf (s : ptr elasticache.Snapshot) : option string :=
  match s with
  | Some s => elasticache.SnapshotName s
  | None => None
  end.

(** The call that tags the snapshot [name]; it answered [err]. *)
Definition snapshotTagCall (tags : list elasticache.Tag) (zone account : string)
    (err : option error) (name : string) : Event :=
  AddTagsToResourceCall (snapshotArn zone account name) tags err.

(** A call that adds [tags] to a snapshot of the zone's region and the
    account. *)
Definition tagsSnapshot (tags : list elasticache.Tag) (zone account : string) (e : Event)
  : Prop :=
  exists name err, e = snapshotTagCall tags zone account err name.

Section TagRuns.
Variables (pkg : Package) (r : Redis) (cache : ptr elasticache.NodeGroupMember).

(** The node is described as available, and the account and the cluster
    identifier are retrieved: the first three events of a run that adds
    tags. *)
Definition tagPreamble (id : string) (clusters : list (ptr elasticache.CacheCluster))
    (account clusterID : string) : list Event :=
  [ DescribeCacheClustersCall (Some id) (Some clusters) None;
    GetCallerIdentityCall (Some (Some account)) None;
    GetClusterIDCall clusterID None ].

(** The node described by the first event is available. *)
Definition describedAvailable (clusters : list (ptr elasticache.CacheCluster)) : Prop :=
  exists first rest,
    clusters = Some first :: rest /\
    elasticache.CacheClusterStatus first = Some "available".

(** The three shapes of a run of [TagElasticacheNode]: its result and the
    events it appends. *)
Inductive TagRun : outcome (StatusMessage * option error) -> list Event -> Prop :=
| TagNothing res evs :
    Forall (fun e => ~ isAddTags e) evs ->
    (forall msg, res = Normal (msg, None) ->
       exists node id first rest status,
         cache = Some node /\
         elasticache.CacheClusterId node = Some id /\
         evs = [DescribeCacheClustersCall (Some id) (Some (Some first :: rest)) None] /\
         elasticache.CacheClusterStatus first = Some status /\
         status <> "available" /\
         msg = id +:+ " status is " +:+ status +:+ ", skipping adding tags") ->
    TagRun res evs
| TagNodeFailed node id zone clusters account clusterID e :
    cache = Some node ->
    elasticache.CacheClusterId node = Some id ->
    elasticache.PreferredAvailabilityZone node = Some zone ->
    describedAvailable clusters ->
    TagRun (Normal ("failed to add tags to aws elasticache :", Some e))
      (tagPreamble id clusters account clusterID
       ++ [AddTagsToResourceCall (clusterArn zone account id)
             (nodeTags pkg r clusterID) (Some e)])
| TagNodeDone node id zone clusters account clusterID out serr calls res :
    cache = Some node ->
    elasticache.CacheClusterId node = Some id ->
    elasticache.PreferredAvailabilityZone node = Some zone ->
    describedAvailable clusters ->
    Forall (tagsSnapshot (nodeTags pkg r clusterID) zone account) calls ->
    (forall msg, res = Normal (msg, None) ->
       msg = "successfully created and tagged" /\
       exists snapshots names,
         out = Some snapshots /\
         mapM snapshotNameOf snapshots = Some names /\
         calls = map (snapshotTagCall (nodeTags pkg r clusterID) zone account None) names) ->
    TagRun res
      (tagPreamble id clusters account clusterID
       ++ AddTagsToResourceCall (clusterArn zone account id) (nodeTags pkg r clusterID) None
          :: DescribeSnapshotsCall id out serr :: calls).

End TagRuns.

(** A call of the tagging subsystem that, when it adds tags, adds the tags
    of the resource [r]. *)
Definition nodeTagging (pkg : Package) (r : Redis) (e : Event) : Prop :=
  tagging e /\
  match e with
  | AddTagsToResourceCall _ tags _ => exists clusterID, tags = nodeTags pkg r clusterID
  | _ => True
  end.

(** ** The outcomes of a create tick *)

(** The result carries no cluster. *)
Definition returnsNoCluster
    (res : outcome (ptr RedisCluster * StatusMessage * option error)) : Prop :=
  match res with
  | Normal (Some _, _, _) => False
  | _ => True
  end.

(** What the create path returns after its remote create call answered
    [err]. *)
Definition afterRemoteCreate (err : option error)
  : ptr RedisCluster * StatusMessage * option error :=
  match err with
  | Some e =>
      (None, "error creating elasticache cluster " +:+ Error e,
       Some (WithMessage e ("error creating elasticache cluster " +:+ Error e)))
  | None => (None, "started elasticache provision", None)
  end.

(** What the create path returns after its modify call answered [err]. *)
Definition afterRemoteModify (err : option error)
  : ptr RedisCluster * StatusMessage * option error :=
  match err with
  | Some e =>
      (None, "failed to modify elasticache cluster",
       Some (WithMessage e "failed to modify elasticache cluster"))
  | None =>
      (None,
       "changes detected, modifyDBInstance() in progress, current aws elasticache status is available",
       None)
  end.

(** What [CreateElastiCacheAvailabilityAlert] returns after [Client.Create]
    answered [err]. *)
Definition alertCreateResult (instanceID : string) (err : option error) : option error :=
  match err with
  | Some e =>
      if IsAlreadyExists e then None
      else Some (WithMessage e
                   ("exception calling Create metricName: " +:+ alertRuleNameOf instanceID))
  | None => None
  end.

(** The create path goes on after the alert rule when [Client.Create]
    succeeded or reported that the rule exists already. *)
Definition alertAccepted (err : option error) : Prop :=
  match err with
  | Some e => IsAlreadyExists e = true
  | None => True
  end.

(** The result of a tick that tagged the members of node group [ng]: no
    cluster, or the primary endpoint of [ng] with the success message. *)
Definition taggedResult (ng : elasticache.NodeGroup)
    (res : outcome (ptr RedisCluster * StatusMessage * option error)) : Prop :=
  returnsNoCluster res \/
  exists endpoint address port,
    elasticache.PrimaryEndpoint ng = Some endpoint /\
    elasticache.Address endpoint = Some address /\
    elasticache.Port endpoint = Some port /\
    res = Normal (Some {| URI := address; DeploymentPort := port |},
                  "successfully created and tagged, aws elasticache status is available",
                  None).

Section CreateTicks.
Variables (pkg : Package) (p : RedisProvider) (cacheSvc : ElastiCacheAPI).
Variables (cfg : CreateReplicationGroupInput.t) (w : World).

(** The five shapes of a create tick started in [w]: its result and the
    events it appends.  [pre] are the discovery, naming and metric events. *)
Inductive CreateTick
  : outcome (ptr RedisCluster * StatusMessage * option error) -> list Event -> Prop :=
| CreateQuiet res pre :
    Forall quiet pre ->
    returnsNoCluster res ->
    CreateTick res pre
| CreateIssued cfg' w2 pre err :
    observedOnCreate pkg cacheSvc cfg w None cfg' w2 ->
    Forall quiet pre ->
    CreateTick (Normal (afterRemoteCreate err))
      (pre ++ [CreateReplicationGroupCall cfg' err])
| CreateAlerted found cfg' w2 clusterID id pre aerr res :
    reachesAlertOnCreate pkg cacheSvc cfg w found cfg' w2 clusterID ->
    elasticache.ReplicationGroupId found = Some id ->
    Forall quiet pre ->
    returnsNoCluster res ->
    CreateTick res
      (pre ++ [ClientCreateCall (availabilityAlertRule (redis w) id clusterID) aerr])
| CreateModified found cfg' w2 clusterID id pre aerr ec w6 err :
    reachesAlertOnCreate pkg cacheSvc cfg w found cfg' w2 clusterID ->
    elasticache.ReplicationGroupId found = Some id ->
    Forall quiet pre ->
    alertAccepted aerr ->
    buildElasticacheUpdateStrategy cfg' found w6 = (Normal (Some ec), w6) ->
    CreateTick (Normal (afterRemoteModify err))
      (pre ++ [ClientCreateCall (availabilityAlertRule (redis w) id clusterID) aerr;
               ModifyReplicationGroupCall ec err])
| CreateTagged found cfg' w2 clusterID id pre aerr w6 ng ngs tags res :
    reachesAlertOnCreate pkg cacheSvc cfg w found cfg' w2 clusterID ->
    elasticache.ReplicationGroupId found = Some id ->
    Forall quiet pre ->
    alertAccepted aerr ->
    buildElasticacheUpdateStrategy cfg' found w6 = (Normal None, w6) ->
    elasticache.NodeGroups found = Some ng :: ngs ->
    elasticache.NodeGroupStatus ng = Some "available" ->
    Forall (nodeTagging pkg (redis w)) tags ->
    taggedResult ng res ->
    CreateTick res
      (pre ++ ClientCreateCall (availabilityAlertRule (redis w) id clusterID) aerr :: tags).

End CreateTicks.

(** The events a create tick can append. *)
Definition createEvent (e : Event) : Prop :=
  match e with
  | CreateReplicationGroupCall _ _ | ModifyReplicationGroupCall _ _
  | ClientCreateCall _ _ => True
  | _ => quiet e \/ tagging e
  end.

(** The calls that change the replication group. *)
Definition isRemoteChange (e : Event) : Prop :=
  match e with
  | CreateReplicationGroupCall _ _ | ModifyReplicationGroupCall _ _ => True
  | _ => False
  end.

(** ** The alert rule, and the outcomes of a delete tick *)

(** What [DeleteElastiCacheAvailabilityAlert] returns when a call to the
    Kubernetes API answered [err]. *)
Definition alertDeleteResult (instanceID : string) (err : option error) : option error :=
  match err with
  | Some e =>
      Some (WithMessage e
              ("exception calling DeleteElastiCacheAvailabilityAlert: "
               +:+ alertRuleNameOf instanceID))
  | None => None
  end.

(** The events a delete tick can append. *)
Definition deleteEvent (e : Event) : Prop :=
  match e with
  | ClientGetCall _ _ _ _ | ClientDeleteCall _ _ | ClientUpdateCall _ _
  | DeleteReplicationGroupCall _ _ => True
  | _ => quiet e
  end.

(** The calls by which a delete tick gives something up: the finalizer or
    the replication group. *)
Definition isRemoval (e : Event) : Prop :=
  match e with
  | ClientUpdateCall _ _ | DeleteReplicationGroupCall _ _ => True
  | _ => False
  end.

(** ** Further scenarios *)

Module Scenario.

(** The cluster identifier cannot be retrieved. *)
Definition noClusterIdPkg : Package :=
  {| DefaultFinalizer := DefaultFinalizer Fixture.pkg;
     DefaultAwsIdentifierLength := DefaultAwsIdentifierLength Fixture.pkg;
     GetOrganizationTag := GetOrganizationTag Fixture.pkg;
     GetClusterID := fun _ => ("", Some (ErrorString "infrastructure not found"));
     BuildInfraNameFromObject := BuildInfraNameFromObject Fixture.pkg;
     buildTimestampedInfraNameFromObject := buildTimestampedInfraNameFromObject Fixture.pkg;
     UnixNano := UnixNano Fixture.pkg;
     pollTicks := pollTicks Fixture.pkg;
     validDesc := validDesc Fixture.pkg;
     validLabelValue := validLabelValue Fixture.pkg |}.

(** The infrastructure name cannot be built. *)
Definition noInfraNamePkg : Package :=
  {| DefaultFinalizer := DefaultFinalizer Fixture.pkg;
     DefaultAwsIdentifierLength := DefaultAwsIdentifierLength Fixture.pkg;
     GetOrganizationTag := GetOrganizationTag Fixture.pkg;
     GetClusterID := GetClusterID Fixture.pkg;
     BuildInfraNameFromObject :=
       fun _ _ _ => ("", Some (ErrorString "infrastructure not found"));
     buildTimestampedInfraNameFromObject := buildTimestampedInfraNameFromObject Fixture.pkg;
     UnixNano := UnixNano Fixture.pkg;
     pollTicks := pollTicks Fixture.pkg;
     validDesc := validDesc Fixture.pkg;
     validLabelValue := validLabelValue Fixture.pkg |}.

(** ElastiCache refuses every listing, as it does while the access key is
    not registered yet. *)
Definition unreachableSvc : ElastiCacheAPI :=
  {| DescribeReplicationGroups :=
       fun _ => (None, Some (ErrorString "access key not registered"));
     CreateReplicationGroup := fun _ _ => None;
     ModifyReplicationGroup := fun _ _ => None;
     DeleteReplicationGroup := fun _ _ => None;
     DescribeCacheClusters := fun _ _ => (None, None);
     DescribeSnapshots := fun _ _ => (None, None);
     DescribeServiceUpdates := fun _ => (Some [], None);
     AddTagsToResource := fun _ _ _ => None |}.

(** The listing of the service updates fails. *)
Definition updatesFailSvc : ElastiCacheAPI :=
  {| DescribeReplicationGroups := fun _ => (Some [], None);
     CreateReplicationGroup := fun _ _ => None;
     ModifyReplicationGroup := fun _ _ => None;
     DeleteReplicationGroup := fun _ _ => None;
     DescribeCacheClusters := fun _ _ => (None, None);
     DescribeSnapshots := fun _ _ => (None, None);
     DescribeServiceUpdates := fun _ => (None, Some (ErrorString "throttled"));
     AddTagsToResource := fun _ _ _ => None |}.

(** The group is available while its first node group is still being
    created. *)
Definition creatingNodeGroup : elasticache.NodeGroup :=
  {| elasticache.NodeGroupStatus := Some "creating";
     elasticache.NodeGroupMembers := [Some (Fixture.member "node-1")];
     elasticache.PrimaryEndpoint := None |}.

Definition nodeGroupCreatingSvc : ElastiCacheAPI :=
  Fixture.cacheSvc [Some (Fixture.group "available" [Some creatingNodeGroup])]
    (Fixture.nodesIn "available") Fixture.noSnapshots None.

(** Every node has two snapshots. *)
Definition twoSnapshots : ptr (list (ptr elasticache.Snapshot)) * option error :=
  (Some [Some {| elasticache.SnapshotName := Some "snap-1" |};
         Some {| elasticache.SnapshotName := Some "snap-2" |}], None).

Definition snapshotsSvc : ElastiCacheAPI :=
  Fixture.cacheSvc [Some (Fixture.group "available" [Some Fixture.nodeGroup])]
    (Fixture.nodesIn "available") twoSnapshots None.

(** A resource that carries a product name. *)
Definition productCr : Redis :=
  {| Meta := {| Name := "redis"; Namespace := "ns";
                Labels := {[ "productName" := "rhmi" ]};
                Finalizers := [DefaultFinalizer Fixture.pkg] |};
     SpecType := "REDIS"; SpecTier := "production" |}.

Definition productWorld : World :=
  {| history := []; MetricVecs := ∅; Registry := ∅; redis := productCr |}.

(** The world after a first metric refresh: the vectors of the info and the
    availability metric exist. *)
Definition metricsWorld : World :=
  snd (exposeRedisMetrics Fixture.pkg (Fixture.group "available" [Some Fixture.nodeGroup])
         Fixture.world).

(** The registry still holds a collector that the map of vectors forgot. *)
Definition registeredWorld : World :=
  {| history := []; MetricVecs := ∅; Registry := {[ "cro_aws_elasticache_available" ]};
     redis := Fixture.cr |}.

Definition fewerLabels : gmap string string := {[ "clusterID" := "cluster-1" ]}.

(** Two listed groups, the second being the configured one. *)
Definition otherGroup : elasticache.ReplicationGroup :=
  {| elasticache.ReplicationGroupId := Some "another-redis";
     elasticache.Status := Some "available";
     elasticache.CacheNodeType := Some "cache.t2.micro";
     elasticache.SnapshotRetentionLimit := Some 30%Z;
     elasticache.NodeGroups := [] |}.

(** ElastiCache lists another group, not the configured one. *)
Definition otherListedSvc : ElastiCacheAPI :=
  Fixture.cacheSvc [Some otherGroup] (Fixture.nodesIn "available")
    Fixture.noSnapshots None.

End Scenario.

(** ** How computations extend the history *)

Lemma emits_ret {A} P (a : A) : emits P (ret a).
Proof. intros w. exists []. simpl. rewrite app_nil_r. auto. Qed.

Lemma emits_panic {A} P reason : emits P (@panic A reason).
Proof. intros w. exists []. simpl. rewrite app_nil_r. auto. Qed.

Lemma emits_deref {A} P (x : ptr A) : emits P (deref x).
Proof. destruct x; [apply emits_ret | apply emits_panic]. Qed.

Lemma emits_index0 {A} P (xs : list A) : emits P (index0 xs).
Proof. destruct xs; [apply emits_panic | apply emits_ret]. Qed.

Lemma emits_getRedis P : emits P getRedis.
Proof. intros w. exists []. simpl. rewrite app_nil_r. auto. Qed.

Lemma emits_bind {A B} P (m : M A) (k : A -> M B) :
  emits P m -> (forall a, emits P (k a)) -> emits P (bind m k).
Proof.
  intros Hm Hk w. unfold bind.
  destruct (Hm w) as (evs1 & H1 & F1 & R1).
  destruct (m w) as [[a | reason] w1]; simpl in *.
  - destruct (Hk a w1) as (evs2 & H2 & F2 & R2).
    exists (evs1 ++ evs2). rewrite H2, H1, R2, R1, app_assoc.
    split; [reflexivity | split; [apply Forall_app; auto | reflexivity]].
  - exists evs1. auto.
Qed.

Lemma emits_call {R} (P : Event -> Prop) (oracle : list Event -> R) (record : R -> Event) :
  (forall r, P (record r)) -> emits P (call oracle record).
Proof.
  intros HP w. exists [record (oracle (history w))]. simpl.
  split; [reflexivity | split; [constructor; [apply HP | constructor] | reflexivity]].
Qed.

Lemma emits_weaken {A} (P Q : Event -> Prop) (m : M A) :
  (forall e, P e -> Q e) -> emits P m -> emits Q m.
Proof.
  intros HPQ Hm w. destruct (Hm w) as (evs & H1 & F1 & R1).
  exists evs. split; [assumption | split; [| assumption]].
  eapply Forall_impl; eauto.
Qed.

Lemma emits_SetMetric P pkg name labels value : emits P (SetMetric pkg name labels value).
Proof.
  intros w. exists []. rewrite app_nil_r. unfold SetMetric.
  destruct (MetricVecs w !! name) as [gv |].
  - destruct (With pkg gv labels); simpl; auto.
  - destruct (MustRegister pkg (Registry w) (NewGaugeVec name (map fst (map_to_list labels))));
      simpl; auto.
Qed.

Lemma emits_timeNow P pkg : emits P (timeNow pkg).
Proof. intros w. exists []. simpl. rewrite app_nil_r. auto. Qed.

(** One step of a proof that a computation [emits] a class of events. *)
Ltac emits_step :=
  match goal with
  | |- emits _ (bind _ _) => apply emits_bind; [| intros ?]
  | |- emits _ (ret _) => apply emits_ret
  | |- emits _ (panic _) => apply emits_panic
  | |- emits _ (deref _) => apply emits_deref
  | |- emits _ (index0 _) => apply emits_index0
  | |- emits _ getRedis => apply emits_getRedis
  | |- emits _ (timeNow _) => apply emits_timeNow
  | |- emits _ (SetMetric _ _ _ _) => apply emits_SetMetric
  | |- emits _ (call _ _) => apply emits_call; intros ?; exact I
  | |- emits _ (match ?x with _ => _ end) => destruct x
  | |- emits _ (if ?b then _ else _) => destruct b
  end.

Lemma emits_SetMetricCurrentTime P pkg name labels :
  emits P (SetMetricCurrentTime pkg name labels).
Proof. unfold SetMetricCurrentTime. repeat emits_step. Qed.

Lemma emits_PollImmediate {S} P ticks (condition : S -> M (S * bool * option error)) s :
  (forall s, emits P (condition s)) -> emits P (PollImmediate ticks condition s).
Proof.
  intros Hc. revert s. induction ticks as [| n IH]; intros s; simpl.
  - repeat (emits_step; auto).
  - repeat (emits_step; auto).
Qed.

Lemma emits_findCache P rgs wanted : emits P (findCache rgs wanted).
Proof.
  induction rgs as [| c rest IH]; simpl; [apply emits_ret |].
  repeat (emits_step; auto).
Qed.

Lemma emits_getReplicationGroups pkg cacheSvc :
  emits quiet (getReplicationGroups pkg cacheSvc).
Proof.
  unfold getReplicationGroups.
  apply emits_bind; [apply emits_PollImmediate; intros s | intros ?];
    repeat emits_step.
Qed.

Lemma emits_buildElasticacheUpdateStrategy P cfg found :
  emits P (buildElasticacheUpdateStrategy cfg found).
Proof. unfold buildElasticacheUpdateStrategy. repeat emits_step. Qed.

Lemma emits_callBuildInfraName pkg timestamped meta n :
  emits quiet (callBuildInfraName pkg timestamped meta n).
Proof. unfold callBuildInfraName. repeat emits_step. Qed.

Lemma emits_buildElasticacheCreateStrategy pkg cfg :
  emits quiet (buildElasticacheCreateStrategy pkg cfg).
Proof.
  unfold buildElasticacheCreateStrategy.
  repeat (first [apply emits_callBuildInfraName | emits_step]).
Qed.

Lemma emits_buildElasticacheDeleteConfig pkg r c d :
  emits quiet (buildElasticacheDeleteConfig pkg r c d).
Proof.
  unfold buildElasticacheDeleteConfig.
  repeat (first [apply emits_callBuildInfraName | emits_step]).
Qed.

Lemma emits_callGetClusterID pkg : emits quiet (callGetClusterID pkg).
Proof. unfold callGetClusterID. repeat emits_step. Qed.

Lemma emits_buildRedisGenericMetricLabels P r cache clusterID :
  emits P (buildRedisGenericMetricLabels r cache clusterID).
Proof. unfold buildRedisGenericMetricLabels. repeat emits_step. Qed.

Lemma emits_buildRedisInfoMetricLables P r cache clusterID :
  emits P (buildRedisInfoMetricLables r cache clusterID).
Proof.
  unfold buildRedisInfoMetricLables.
  repeat (first [apply emits_buildRedisGenericMetricLabels | emits_step]).
Qed.

Lemma emits_exposeRedisMetrics pkg instance :
  emits quiet (exposeRedisMetrics pkg instance).
Proof.
  unfold exposeRedisMetrics.
  repeat (first [ apply emits_callGetClusterID
                | apply emits_buildRedisInfoMetricLables
                | apply emits_buildRedisGenericMetricLabels
                | apply emits_SetMetricCurrentTime
                | emits_step ]).
Qed.

Lemma emits_serviceUpdateMetrics P pkg clusterID updates :
  emits P (serviceUpdateMetrics pkg clusterID updates).
Proof.
  induction updates as [| su rest IH]; simpl; [apply emits_ret |].
  repeat (first [ apply IH | emits_step ]).
Qed.

Lemma emits_setRedisServiceMaintenanceMetric pkg cacheSvc instance :
  emits quiet (setRedisServiceMaintenanceMetric pkg cacheSvc instance).
Proof.
  unfold setRedisServiceMaintenanceMetric.
  repeat (first [ apply emits_callGetClusterID
                | apply emits_serviceUpdateMetrics
                | emits_step ]).
Qed.

Lemma emits_dropLastByte P s : emits P (dropLastByte s).
Proof. unfold dropLastByte. repeat emits_step. Qed.

Lemma emits_tagSnapshots cacheSvc region account cacheTags snapshots :
  emits tagging (tagSnapshots cacheSvc region account cacheTags snapshots).
Proof.
  induction snapshots as [| s rest IH]; simpl; [apply emits_ret |].
  repeat (first [ apply IH | emits_step ]).
Qed.

Lemma emits_TagElasticacheNode pkg cacheSvc stsSvc stratCfg cache :
  emits tagging (TagElasticacheNode pkg cacheSvc stsSvc stratCfg cache).
Proof.
  unfold TagElasticacheNode, callGetClusterID.
  repeat (first [ apply emits_tagSnapshots
                | apply emits_dropLastByte
                | emits_step ]).
Qed.

Lemma emits_tagNodeGroupMembers pkg cacheSvc stsSvc stratCfg members :
  emits tagging (tagNodeGroupMembers pkg cacheSvc stsSvc stratCfg members).
Proof.
  induction members as [| cache rest IH]; simpl; [apply emits_ret |].
  repeat (first [ apply IH | apply emits_TagElasticacheNode | emits_step ]).
Qed.

(** Name the value a closed computation evaluates to. *)
Ltac evaluate m H :=
  let t := eval vm_compute in m in
  assert (H : m = t) by (vm_compute; reflexivity).

(** ** The configuration builder *)

(** The claim of C2 fails: a supplied engine and a supplied automatic-failover
    flag are overwritten. *)
Lemma buildElasticacheCreateStrategy_overrides_engine :
  CreateReplicationGroupInput.Engine Fixture.overridingConfig = Some "memcached" /\
  CreateReplicationGroupInput.AutomaticFailoverEnabled Fixture.overridingConfig = Some false /\
  exists c' w',
    buildElasticacheCreateStrategy Fixture.pkg Fixture.overridingConfig Fixture.world
      = (Normal (c', None), w') /\
    CreateReplicationGroupInput.Engine c' = Some "redis" /\
    CreateReplicationGroupInput.AutomaticFailoverEnabled c' = Some true.
Proof.
  split; [reflexivity | split; [reflexivity |]].
  eexists _, _. split; [vm_compute; reflexivity | split; reflexivity].
Qed.

(** What [buildElasticacheCreateStrategy] does, field by field. *)
Lemma buildElasticacheCreateStrategy_run (pkg : Package)
    (afe : ptr bool) (eng nt descr ev : ptr string) (ncc srl : ptr Z) (id : ptr string)
    (sub pmw sw : ptr string) (port : ptr Z) (enc : ptr bool) (w : World) :
  let answer :=
    BuildInfraNameFromObject pkg (history w) (Meta (redis w))
      (DefaultAwsIdentifierLength pkg) in
  buildElasticacheCreateStrategy pkg
    {| CreateReplicationGroupInput.AutomaticFailoverEnabled := afe;
       CreateReplicationGroupInput.Engine := eng;
       CreateReplicationGroupInput.CacheNodeType := nt;
       CreateReplicationGroupInput.ReplicationGroupDescription := descr;
       CreateReplicationGroupInput.EngineVersion := ev;
       CreateReplicationGroupInput.NumCacheClusters := ncc;
       CreateReplicationGroupInput.SnapshotRetentionLimit := srl;
       CreateReplicationGroupInput.ReplicationGroupId := id;
       CreateReplicationGroupInput.CacheSubnetGroupName := sub;
       CreateReplicationGroupInput.PreferredMaintenanceWindow := pmw;
       CreateReplicationGroupInput.SnapshotWindow := sw;
       CreateReplicationGroupInput.Port := port;
       CreateReplicationGroupInput.AtRestEncryptionEnabled := enc |} w =
    (Normal
       ({| CreateReplicationGroupInput.AutomaticFailoverEnabled := Some true;
           CreateReplicationGroupInput.Engine := Some "redis";
           CreateReplicationGroupInput.CacheNodeType := Some (default "cache.t2.micro" nt);
           CreateReplicationGroupInput.ReplicationGroupDescription :=
             Some (default "A Redis replication group" descr);
           CreateReplicationGroupInput.EngineVersion := Some (default "3.2.10" ev);
           CreateReplicationGroupInput.NumCacheClusters := Some (default 2%Z ncc);
           CreateReplicationGroupInput.SnapshotRetentionLimit := Some (default 30%Z srl);
           CreateReplicationGroupInput.ReplicationGroupId :=
             match snd answer with
             | Some _ => id
             | None => Some (default (fst answer) id)
             end;
           CreateReplicationGroupInput.CacheSubnetGroupName := sub;
           CreateReplicationGroupInput.PreferredMaintenanceWindow := pmw;
           CreateReplicationGroupInput.SnapshotWindow := sw;
           CreateReplicationGroupInput.Port := port;
           CreateReplicationGroupInput.AtRestEncryptionEnabled := enc |},
        Wrap (snd answer) "failed to retrieve elasticache config"),
     {| history :=
          history w ++ [BuildInfraNameCall false (Meta (redis w))
                          (DefaultAwsIdentifierLength pkg) (fst answer) (snd answer)];
        MetricVecs := MetricVecs w; Registry := Registry w; redis := redis w |}).
Proof.
  intros answer. subst answer.
  unfold buildElasticacheCreateStrategy, bind, getRedis, callBuildInfraName, call, ret.
  destruct (BuildInfraNameFromObject pkg (history w) (Meta (redis w))
              (DefaultAwsIdentifierLength pkg)) as [cacheName [e |]];
    destruct nt, descr, ev, ncc, srl, id; reflexivity.
Qed.

(** C2, amended.  When [buildElasticacheCreateStrategy] returns without
    error, the engine is "redis" and automatic failover is enabled whatever
    the input said; node type, description, engine version, number of cache
    clusters, snapshot retention and identifier keep a supplied value and
    get their default (the identifier: the name built from the resource)
    only when unset; the fields the function never mentions are unchanged. *)
Theorem buildElasticacheCreateStrategy_defaults
    (pkg : Package) (cfg c' : CreateReplicationGroupInput.t) (w w' : World) :
  buildElasticacheCreateStrategy pkg cfg w = (Normal (c', None), w') ->
  exists cacheName,
    history w' =
      history w ++ [BuildInfraNameCall false (Meta (redis w))
                      (DefaultAwsIdentifierLength pkg) cacheName None] /\
    CreateReplicationGroupInput.AutomaticFailoverEnabled c' = Some true /\
    CreateReplicationGroupInput.Engine c' = Some "redis" /\
    CreateReplicationGroupInput.CacheNodeType c' =
      Some (default "cache.t2.micro" (CreateReplicationGroupInput.CacheNodeType cfg)) /\
    CreateReplicationGroupInput.ReplicationGroupDescription c' =
      Some (default "A Redis replication group"
              (CreateReplicationGroupInput.ReplicationGroupDescription cfg)) /\
    CreateReplicationGroupInput.EngineVersion c' =
      Some (default "3.2.10" (CreateReplicationGroupInput.EngineVersion cfg)) /\
    CreateReplicationGroupInput.NumCacheClusters c' =
      Some (default 2%Z (CreateReplicationGroupInput.NumCacheClusters cfg)) /\
    CreateReplicationGroupInput.SnapshotRetentionLimit c' =
      Some (default 30%Z (CreateReplicationGroupInput.SnapshotRetentionLimit cfg)) /\
    CreateReplicationGroupInput.ReplicationGroupId c' =
      Some (default cacheName (CreateReplicationGroupInput.ReplicationGroupId cfg)) /\
    CreateReplicationGroupInput.CacheSubnetGroupName c' =
      CreateReplicationGroupInput.CacheSubnetGroupName cfg /\
    CreateReplicationGroupInput.PreferredMaintenanceWindow c' =
      CreateReplicationGroupInput.PreferredMaintenanceWindow cfg /\
    CreateReplicationGroupInput.SnapshotWindow c' =
      CreateReplicationGroupInput.SnapshotWindow cfg /\
    CreateReplicationGroupInput.Port c' = CreateReplicationGroupInput.Port cfg /\
    CreateReplicationGroupInput.AtRestEncryptionEnabled c' =
      CreateReplicationGroupInput.AtRestEncryptionEnabled cfg.
Proof.
  destruct cfg as [afe eng nt descr ev ncc srl id sub pmw sw port enc].
  rewrite buildElasticacheCreateStrategy_run. cbv zeta.
  destruct (BuildInfraNameFromObject pkg (history w) (Meta (redis w))
              (DefaultAwsIdentifierLength pkg)) as [cacheName [e |]];
    cbn [fst snd Wrap]; intros H; [discriminate H |].
  injection H as Hc Hw. subst c' w'. exists cacheName. cbn. repeat split; reflexivity.
Qed.

(** A run of the theorem above on a config that sets nothing. *)
Lemma buildElasticacheCreateStrategy_defaults_witness :
  exists c' w',
    buildElasticacheCreateStrategy Fixture.pkg Fixture.createConfig Fixture.world
      = (Normal (c', None), w') /\
    CreateReplicationGroupInput.CacheNodeType c' = Some "cache.t2.micro" /\
    CreateReplicationGroupInput.SnapshotRetentionLimit c' = Some 30%Z.
Proof.
  evaluate (buildElasticacheCreateStrategy Fixture.pkg Fixture.createConfig Fixture.world)
    Hrun.
  eexists _, _. split; [exact Hrun |].
  destruct (buildElasticacheCreateStrategy_defaults _ _ _ _ _ Hrun)
    as (name & _ & _ & _ & Hnt & _ & _ & _ & Hsrl & _).
  split; [exact Hnt | exact Hsrl].
Defined.

(** C8.  When [buildElasticacheDeleteConfig] returns without error, the
    final-snapshot identifier is the timestamped name built from the resource
    exactly when the field was present and empty; an absent field stays
    absent and a non-empty one keeps its value. *)
Theorem buildElasticacheDeleteConfig_final_snapshot
    (pkg : Package) (r : Redis) (c c' : CreateReplicationGroupInput.t)
    (d d' : DeleteReplicationGroupInput.t) (w w' : World) :
  buildElasticacheDeleteConfig pkg r c d w = (Normal (c', d', None), w') ->
  exists cacheName snapshotIdentifier,
    history w' =
      history w ++
        [BuildInfraNameCall false (Meta r) (DefaultAwsIdentifierLength pkg) cacheName None;
         BuildInfraNameCall true (Meta r) (DefaultAwsIdentifierLength pkg)
           snapshotIdentifier None] /\
    DeleteReplicationGroupInput.FinalSnapshotIdentifier d' =
      match DeleteReplicationGroupInput.FinalSnapshotIdentifier d with
      | Some s => if decide (s = "") then Some snapshotIdentifier else Some s
      | None => None
      end /\
    DeleteReplicationGroupInput.RetainPrimaryCluster d' =
      Some (default false (DeleteReplicationGroupInput.RetainPrimaryCluster d)) /\
    DeleteReplicationGroupInput.ReplicationGroupId d' =
      match DeleteReplicationGroupInput.ReplicationGroupId d with
      | Some id => Some id
      | None => Some (default cacheName (CreateReplicationGroupInput.ReplicationGroupId c))
      end.
Proof.
  unfold buildElasticacheDeleteConfig, bind, callBuildInfraName, call, ret. simpl.
  destruct (BuildInfraNameFromObject pkg (history w) (Meta r)
              (DefaultAwsIdentifierLength pkg)) as [cacheName [e |]] eqn:Ename;
    simpl; [intros H; inversion H |].
  destruct d as [did retain final].
  destruct c as [afe eng nt descr ev ncc srl cid sub pmw sw port enc].
  destruct did as [id |], cid as [cid |]; simpl;
    match goal with
    | |- context [buildTimestampedInfraNameFromObject pkg ?h ?m ?n] =>
        destruct (buildTimestampedInfraNameFromObject pkg h m n)
          as [snapshotIdentifier [e |]] eqn:Esnap
    end; simpl; intros H; inversion H; subst; clear H;
    exists cacheName, snapshotIdentifier;
    (split; [rewrite <- app_assoc; reflexivity |]);
    destruct retain, final as [s |]; simpl;
    try (destruct (String.eqb_spec s ""); case_decide; try contradiction);
    simpl; repeat split; reflexivity.
Qed.

(** The theorem above on a delete config with an empty final-snapshot
    identifier, and on one without the field. *)
Lemma buildElasticacheDeleteConfig_final_snapshot_witness :
  (exists c' d' w',
     buildElasticacheDeleteConfig Fixture.pkg Fixture.cr Fixture.createConfig
       (Fixture.deleteConfig (Some "")) Fixture.world = (Normal (c', d', None), w') /\
     DeleteReplicationGroupInput.FinalSnapshotIdentifier d' =
       Some "cluster1-ns-redis-1600000000") /\
  (exists c' d' w',
     buildElasticacheDeleteConfig Fixture.pkg Fixture.cr Fixture.createConfig
       (Fixture.deleteConfig None) Fixture.world = (Normal (c', d', None), w') /\
     DeleteReplicationGroupInput.FinalSnapshotIdentifier d' = None).
Proof.
  split.
  - evaluate (buildElasticacheDeleteConfig Fixture.pkg Fixture.cr Fixture.createConfig
                (Fixture.deleteConfig (Some "")) Fixture.world) Hrun.
    eexists _, _, _. split; [exact Hrun |].
    destruct (buildElasticacheDeleteConfig_final_snapshot _ _ _ _ _ _ _ _ Hrun)
      as (n1 & n2 & Hh & Hf & _).
    cbn [history app] in Hh. inversion Hh; subst. exact Hf.
  - evaluate (buildElasticacheDeleteConfig Fixture.pkg Fixture.cr Fixture.createConfig
                (Fixture.deleteConfig None) Fixture.world) Hrun.
    eexists _, _, _. split; [exact Hrun |].
    destruct (buildElasticacheDeleteConfig_final_snapshot _ _ _ _ _ _ _ _ Hrun)
      as (n1 & n2 & Hh & Hf & _).
    exact Hf.
Defined.

(** ** The metric registry *)

(** On a name that has a vector, [SetMetric] sets the gauge of the given
    labels to the given value, provided the labels fit the vector. *)
Lemma SetMetric_existing (pkg : Package) (name : string) (labels : gmap string string)
    (value : float) (w : World) (gv : GaugeVec) (values : list string) :
  MetricVecs w !! name = Some gv ->
  With pkg gv labels = Normal values ->
  exists w' gv',
    SetMetric pkg name labels value w = (Normal None, w') /\
    MetricVecs w' !! name = Some gv' /\
    variableLabels gv' = variableLabels gv /\
    gauges gv' !! values = Some value.
Proof.
  intros Hgv Hwith. unfold SetMetric. rewrite Hgv, Hwith.
  eexists _, _. split; [reflexivity |]. simpl.
  rewrite lookup_insert_eq. split; [reflexivity |]. simpl.
  split; [reflexivity | apply lookup_insert_eq].
Qed.

(** On a name that has no vector yet, [SetMetric] registers a vector with
    the label names of the call and returns; the vector has no gauge, so the
    value of the call is not recorded. *)
Lemma SetMetric_first_use (pkg : Package) (name : string) (labels : gmap string string)
    (value : float) (w : World) :
  MetricVecs w !! name = None ->
  validDesc pkg name (map fst (map_to_list labels)) = true ->
  name ∉ Registry w ->
  exists w',
    SetMetric pkg name labels value w = (Normal None, w') /\
    MetricVecs w' !! name =
      Some {| fqName := name; variableLabels := map fst (map_to_list labels);
              gauges := ∅ |} /\
    Registry w' = {[name]} ∪ Registry w.
Proof.
  intros Hnone Hvalid Hfresh. unfold SetMetric, MustRegister. rewrite Hnone. simpl.
  rewrite Hvalid. simpl. rewrite decide_False by assumption.
  eexists. split; [reflexivity |]. simpl. rewrite lookup_insert_eq. auto.
Qed.

(** C3 fails on the first call for a name.  [SetMetric] of the availability
    metric at 1 on an empty registry returns no error and registers the
    vector, but the vector holds no gauge: the value 1 is lost.  Only a
    second, identical call sets the gauge. *)
Theorem SetMetric_first_call_drops_value :
  exists w1 gv,
    SetMetric Fixture.pkg defaultRedisAvailMetricName Fixture.labels 1%float Fixture.world
      = (Normal None, w1) /\
    MetricVecs w1 !! defaultRedisAvailMetricName = Some gv /\
    gauges gv = ∅ /\
    exists w2 gv2 values,
      SetMetric Fixture.pkg defaultRedisAvailMetricName Fixture.labels 1%float w1
        = (Normal None, w2) /\
      MetricVecs w2 !! defaultRedisAvailMetricName = Some gv2 /\
      With Fixture.pkg gv2 Fixture.labels = Normal values /\
      gauges gv2 !! values = Some 1%float.
Proof.
  eexists _, _. split; [vm_compute; reflexivity |].
  split; [vm_compute; reflexivity |].
  split; [vm_compute; reflexivity |].
  eexists _, _, _. split; [vm_compute; reflexivity |].
  split; [vm_compute; reflexivity |].
  split; vm_compute; reflexivity.
Qed.

(** ** The delete path *)

Lemma findCache_world rgs wanted w : snd (findCache rgs wanted w) = w.
Proof.
  induction rgs as [| c rest IH]; simpl; [reflexivity |].
  unfold bind. destruct c as [g |]; simpl; [| reflexivity].
  destruct (elasticache.ReplicationGroupId g); simpl; [| reflexivity].
  destruct wanted; simpl; [| reflexivity].
  destruct (_ =? _)%string; [reflexivity | apply IH].
Qed.

Lemma findCache_found rgs wanted w g w' :
  findCache rgs wanted w = (Normal (Some g), w') ->
  elasticache.ReplicationGroupId g = wanted /\ exists id, wanted = Some id.
Proof.
  induction rgs as [| c rest IH]; simpl; [intros H; inversion H |].
  unfold bind. destruct c as [g0 |]; simpl; [| intros H; inversion H].
  destruct (elasticache.ReplicationGroupId g0) as [id |] eqn:Eid; simpl;
    [| intros H; inversion H].
  destruct wanted as [want |]; simpl; [| intros H; inversion H].
  destruct (String.eqb_spec id want) as [-> | Hne].
  - intros H. inversion H; subst. eauto.
  - apply IH.
Qed.

(** Run the next sub-computation [m] at world [w0]: name its result and
    what it appended. *)
Ltac run_sub lem w0 a w1 E :=
  let evs := fresh "evs" in
  let Hh := fresh "Hh" in
  let HF := fresh "HF" in
  let Hr := fresh "Hr" in
  destruct (lem w0) as (evs & Hh & HF & Hr);
  match type of Hh with
  | context [snd (?m w0)] =>
      destruct (m w0) as [[a | ?reason] w1] eqn:E; simpl in Hh, Hr; cbv beta iota
  end.

Ltac history_eq :=
  simpl;
  repeat match goal with
         | H : history _ = _ |- _ => rewrite H; clear H
         end;
  rewrite <- ?app_assoc; first [reflexivity | symmetry; apply app_nil_r].

Ltac redis_eq :=
  simpl;
  repeat match goal with
         | H : redis _ = _ |- _ => rewrite H; clear H
         end.

Lemma afterRemoteDelete_Some e :
  afterRemoteDelete (Some e) =
    if match awsErrorCode e with
       | Some code => negb (code =? ErrCodeReplicationGroupNotFoundFault)%string
       | None => true
       end
    then ("failed to delete elasticache cluster : " +:+ Error e,
          Some (WithMessage e ("failed to delete elasticache cluster : " +:+ Error e)))
    else ("delete detected, deleteReplicationGroup started", None).
Proof.
  unfold afterRemoteDelete. destruct (awsErrorCode e) as [code |].
  - case_decide as Hcode;
      destruct (String.eqb_spec code ErrCodeReplicationGroupNotFoundFault) as [-> | Hne];
      simpl; congruence.
  - case_decide; [discriminate | reflexivity].
Qed.

Ltac finish := let H := fresh in intros H; inversion H; subst; clear H.

Ltac quiet_tick :=
  finish; eexists; split;
  [history_eq | redis_eq; apply DeleteQuiet; rewrite ?Forall_app; auto].

Lemma deleteElasticacheCluster_tick pkg p cacheSvc c d w res w' :
  deleteElasticacheCluster pkg p cacheSvc c d w = (res, w') ->
  exists evs,
    history w' = history w ++ evs /\ DeleteTick pkg cacheSvc c d w res (redis w') evs.
Proof.
  unfold deleteElasticacheCluster, bind.
  run_sub (emits_getReplicationGroups pkg cacheSvc) w a w1 E1; [| quiet_tick].
  destruct a as [rgs [e |]]; [quiet_tick |].
  unfold getRedis at 1. cbv beta iota.
  run_sub (emits_buildElasticacheDeleteConfig pkg (redis w1) c d) w1 a w2 E2;
    [| quiet_tick].
  destruct a as [[c' d'] [e |]]; [quiet_tick |].
  pose proof (findCache_world rgs (CreateReplicationGroupInput.ReplicationGroupId c') w2)
    as Hfw.
  destruct (findCache rgs (CreateReplicationGroupInput.ReplicationGroupId c') w2)
    as [[[found |] | reason] w2'] eqn:E3; simpl in Hfw; subst w2'; [| | quiet_tick].
  - destruct (findCache_found _ _ _ _ _ E3) as (Hid & id & Hwanted).
    run_sub (emits_exposeRedisMetrics pkg found) w2 a w3 E4; [| quiet_tick].
    destruct a as [e |]; [quiet_tick |].
    destruct (elasticache.Status found) as [status |] eqn:Estatus; simpl; [| quiet_tick].
    destruct (String.eqb_spec status "available") as [-> | Hne]; simpl; [| quiet_tick].
    rewrite Hid, Hwanted. simpl.
    unfold DeleteElastiCacheAvailabilityAlert, bind, call. simpl.
    assert (Hobs : observedOnDelete pkg cacheSvc c d w (Some found) c' d' w2)
      by (exists rgs, w1; auto).
    rewrite Hwanted in Hid.
    destruct (Get (Client p) (history w3) (Namespace (Meta (redis w3)))
                (alertRuleNameOf id)) as [rule [e |]] eqn:Eget; simpl.
    { finish. eexists. split; [history_eq |]. redis_eq. rewrite !app_assoc.
      eapply DeleteAlertLookupFailed; eauto. rewrite ?Forall_app; auto. }
    match goal with
    | |- context [Delete (Client p) ?h rule] =>
        destruct (Delete (Client p) h rule) as [e |] eqn:Edel; simpl
    end.
    { finish. eexists. split; [history_eq |]. redis_eq. cbn [app]. rewrite !app_assoc.
      eapply DeleteAlertDeleteFailed; eauto. rewrite ?Forall_app; auto. }
    match goal with
    | |- context [DeleteReplicationGroup cacheSvc ?h d'] =>
        destruct (DeleteReplicationGroup cacheSvc h d') as [e |] eqn:Erd; simpl
    end.
    + pose proof (afterRemoteDelete_Some e) as Hafter.
      destruct (match awsErrorCode e with Some _ => _ | None => _ end);
        finish; (eexists; split; [history_eq |]); redis_eq; cbn [app];
        rewrite !app_assoc; rewrite <- Hafter;
        eapply DeleteIssued; eauto; rewrite ?Forall_app; auto.
    + finish. eexists. split; [history_eq |]. redis_eq. cbn [app]. rewrite !app_assoc.
      eapply (DeleteIssued _ _ _ _ _ found c' d' w2 id _ rule None); eauto.
      rewrite ?Forall_app; auto.
  - unfold getRedis, putRedis, call, bind. simpl. rewrite Hr0, Hr.
    assert (Hobs : observedOnDelete pkg cacheSvc c d w None c' d' w2)
      by (exists rgs, w1; auto).
    match goal with
    | |- context [Update (Client p) ?h ?r] =>
        destruct (Update (Client p) h r) as [e |] eqn:Eupd; simpl
    end.
    + finish. eexists. split; [history_eq |]. simpl. rewrite !app_assoc.
      eapply (DeleteFinalizer _ _ _ _ _ c' d' w2 _ (Some e)); eauto.
      rewrite ?Forall_app; auto.
    + finish. eexists. split; [history_eq |]. simpl. rewrite !app_assoc.
      eapply (DeleteFinalizer _ _ _ _ _ c' d' w2 _ None); eauto.
      rewrite ?Forall_app; auto.
Qed.

Lemma quiet_prefix_In (pre l : list Event) (x : Event) :
  Forall quiet pre -> ~ quiet x -> In x (pre ++ l) -> In x l.
Proof.
  intros HF Hx Hin. apply in_app_or in Hin. destruct Hin as [Hin | Hin]; [| assumption].
  rewrite Forall_forall in HF. exfalso. apply Hx, HF, list_elem_of_In, Hin.
Qed.

Lemma observedOnDelete_history pkg cacheSvc c d w found c' d' w2 :
  observedOnDelete pkg cacheSvc c d w found c' d' w2 ->
  exists pre, history w2 = history w ++ pre /\ Forall quiet pre /\ redis w2 = redis w.
Proof.
  intros (rgs & w1 & E1 & E2 & _).
  destruct (emits_getReplicationGroups pkg cacheSvc w) as (evs1 & H1 & F1 & R1).
  destruct (emits_buildElasticacheDeleteConfig pkg (redis w1) c d w1) as (evs2 & H2 & F2 & R2).
  rewrite E1 in H1, R1. rewrite E2 in H2, R2. simpl in *.
  exists (evs1 ++ evs2). rewrite H2, H1, R2, R1, app_assoc.
  split; [reflexivity | split; [apply Forall_app; auto | reflexivity]].
Qed.

Lemma deleteElasticacheCluster_absent pkg p cacheSvc c d w c' d' w2 :
  observedOnDelete pkg cacheSvc c d w None c' d' w2 ->
  let r' := withoutFinalizer pkg (redis w) in
  let err := Update (Client p) (history w2) r' in
  deleteElasticacheCluster pkg p cacheSvc c d w =
    (Normal
       match err with
       | Some e =>
           ("failed to update instance as part of finalizer reconcile",
            Some (WithMessage e "failed to update instance as part of finalizer reconcile"))
       | None => (StatusEmpty, None)
       end,
     {| history := history w2 ++ [ClientUpdateCall r' err];
        MetricVecs := MetricVecs w2; Registry := Registry w2; redis := r' |}).
Proof.
  intros Hobs. destruct (observedOnDelete_history _ _ _ _ _ _ _ _ _ Hobs) as (pre & _ & _ & Hr).
  destruct Hobs as (rgs & w1 & E1 & E2 & E3).
  pose proof (emits_getReplicationGroups pkg cacheSvc w) as (evs1 & _ & _ & R1).
  rewrite E1 in R1. simpl in R1.
  unfold deleteElasticacheCluster, bind. rewrite E1. cbv beta iota.
  unfold getRedis at 1. cbv beta iota. rewrite E2. cbv beta iota. rewrite E3.
  cbv beta iota. unfold getRedis, putRedis, call. simpl. rewrite Hr.
  unfold withoutFinalizer.
  destruct (Update (Client p) (history w2) _); reflexivity.
Qed.

Lemma deleteElasticacheCluster_available pkg p cacheSvc c d w found c' d' w2 w3 res w' :
  observedOnDelete pkg cacheSvc c d w (Some found) c' d' w2 ->
  elasticache.Status found = Some "available" ->
  exposeRedisMetrics pkg found w2 = (Normal None, w3) ->
  deleteElasticacheCluster pkg p cacheSvc c d w = (res, w') ->
  exists pre id rule err rest,
    elasticache.ReplicationGroupId found = Some id /\
    Forall quiet pre /\
    history w' =
      history w ++ pre ++
        ClientGetCall (Namespace (Meta (redis w))) (alertRuleNameOf id) rule err :: rest.
Proof.
  intros Hobs Hstatus E4.
  destruct (observedOnDelete_history _ _ _ _ _ _ _ _ _ Hobs) as (pre & Hh & HF & Hr).
  destruct Hobs as (rgs & w1 & E1 & E2 & E3).
  destruct (findCache_found _ _ _ _ _ E3) as (Hid & id & Hwanted).
  rewrite Hwanted in Hid.
  destruct (emits_exposeRedisMetrics pkg found w2) as (evs4 & H4 & F4 & R4).
  rewrite E4 in H4, R4. simpl in H4, R4.
  unfold deleteElasticacheCluster, bind. rewrite E1. cbv beta iota.
  unfold getRedis at 1. cbv beta iota. rewrite E2. cbv beta iota. rewrite E3.
  cbv beta iota. rewrite E4. cbv beta iota. rewrite Hstatus, Hid. simpl.
  unfold DeleteElastiCacheAvailabilityAlert, bind, call. simpl.
  rewrite R4, Hr.
  destruct (Get (Client p) (history w3) (Namespace (Meta (redis w))) (alertRuleNameOf id))
    as [rule err] eqn:Eget.
  assert (HF' : Forall quiet (pre ++ evs4)) by (apply Forall_app; auto).
  destruct err as [e |]; simpl.
  { finish. exists (pre ++ evs4), id, rule, (Some e), []. simpl.
    rewrite H4, Hh, <- !app_assoc. auto. }
  match goal with
  | |- context [Delete (Client p) ?h rule] => destruct (Delete (Client p) h rule) as [e |]
  end; simpl.
  { finish. exists (pre ++ evs4), id, rule, None. eexists. simpl.
    rewrite H4, Hh, <- !app_assoc. simpl. auto. }
  match goal with
  | |- context [DeleteReplicationGroup cacheSvc ?h d'] =>
      destruct (DeleteReplicationGroup cacheSvc h d') as [e |]
  end; simpl.
  - destruct (match awsErrorCode e with Some _ => _ | None => _ end);
      finish; exists (pre ++ evs4), id, rule, None; eexists; simpl;
      rewrite H4, Hh, <- !app_assoc; simpl; auto.
  - finish. exists (pre ++ evs4), id, rule, None. eexists. simpl.
    rewrite H4, Hh, <- !app_assoc. simpl. auto.
Qed.

Lemma quiet_not_remote_delete (pre : list Event) :
  Forall quiet pre -> Forall (fun x => ~ isRemoteDelete x) pre.
Proof.
  intros HF. eapply Forall_impl; [exact HF |]. intros [] Hq; simpl in *; tauto.
Qed.

Lemma quiet_not_finalizer_update (pre : list Event) :
  Forall quiet pre -> ~ Exists isFinalizerUpdate pre.
Proof.
  intros HF Hex. rewrite Forall_forall in HF. rewrite Exists_exists in Hex.
  destruct Hex as (x & Hin & Hx). specialize (HF x Hin). destruct x; simpl in *; tauto.
Qed.

(** An event of the suffix of a tick: decide which one it is. *)
Ltac suffix_event H :=
  apply quiet_prefix_In in H; [| assumption | simpl; tauto];
  simpl in H;
  repeat match type of H with
         | _ \/ _ => destruct H as [H | H]
         | False => contradiction
         | _ = _ => try discriminate H
         end.

(** C7.  When the remote delete call of a delete tick fails, the tick
    returns the status "delete detected, deleteReplicationGroup started"
    without error if the failure is an AWS error with the code
    ReplicationGroupNotFoundFault, and returns the failure, wrapped, as its
    error in every other case. *)
Theorem remote_delete_not_found_is_success
    (pkg : Package) (p : RedisProvider) (cacheSvc : ElastiCacheAPI)
    (c : CreateReplicationGroupInput.t) (d : DeleteReplicationGroupInput.t)
    (w w' : World) (res : outcome (StatusMessage * option error))
    (evs : list Event) (input : DeleteReplicationGroupInput.t) (e : error) :
  deleteElasticacheCluster pkg p cacheSvc c d w = (res, w') ->
  history w' = history w ++ evs ->
  In (DeleteReplicationGroupCall input (Some e)) evs ->
  res =
    Normal
      (if decide (awsErrorCode e = Some ErrCodeReplicationGroupNotFoundFault) then
         ("delete detected, deleteReplicationGroup started", None)
       else
         ("failed to delete elasticache cluster : " +:+ Error e,
          Some (WithMessage e ("failed to delete elasticache cluster : " +:+ Error e)))).
Proof.
  intros Hrun Hh Hin.
  destruct (deleteElasticacheCluster_tick _ _ _ _ _ _ _ _ Hrun) as (evs0 & Hh0 & Htick).
  rewrite Hh in Hh0. apply app_inv_head in Hh0. subst evs0.
  inversion Htick; subst; clear Htick.
  - exfalso.
    match goal with
    | HF : Forall quiet _ |- _ =>
        rewrite Forall_forall in HF; apply list_elem_of_In in Hin; apply (HF _ Hin)
    end.
  - suffix_event Hin.
  - suffix_event Hin.
  - suffix_event Hin.
  - suffix_event Hin. inversion Hin; subst. reflexivity.
Qed.

(** C9.  In a delete tick that observes the group available (and has
    refreshed its metrics), the alert rule is looked up right after the
    discovery and metric calls; a remote delete call is only ever preceded,
    immediately, by a successful lookup and a successful deletion of the
    alert rule; and when the lookup or the deletion of the alert rule fails
    (a rule that is absent fails the lookup) the tick returns that failure as
    its error and issues no remote delete call. *)
Theorem alert_rule_deleted_before_remote_delete
    (pkg : Package) (p : RedisProvider) (cacheSvc : ElastiCacheAPI)
    (c : CreateReplicationGroupInput.t) (d : DeleteReplicationGroupInput.t)
    (w w' : World) (res : outcome (StatusMessage * option error)) (evs : list Event) :
  deleteElasticacheCluster pkg p cacheSvc c d w = (res, w') ->
  history w' = history w ++ evs ->
  (forall found c' d' w2 w3,
     observedOnDelete pkg cacheSvc c d w (Some found) c' d' w2 ->
     elasticache.Status found = Some "available" ->
     exposeRedisMetrics pkg found w2 = (Normal None, w3) ->
     exists pre id rule err rest,
       elasticache.ReplicationGroupId found = Some id /\
       Forall quiet pre /\
       evs = pre ++ ClientGetCall (Namespace (Meta (redis w))) (alertRuleNameOf id) rule err
                    :: rest) /\
  (forall input err,
     In (DeleteReplicationGroupCall input err) evs ->
     exists pre ns name rule,
       Forall quiet pre /\
       evs = pre ++ [ClientGetCall ns name rule None; ClientDeleteCall rule None;
                     DeleteReplicationGroupCall input err]) /\
  (forall e,
     ((exists ns name rule, In (ClientGetCall ns name rule (Some e)) evs) \/
      (exists rule, In (ClientDeleteCall rule (Some e)) evs)) ->
     (exists id, res = Normal (alertDeleteFailure id e)) /\
     Forall (fun x => ~ isRemoteDelete x) evs).
Proof.
  intros Hrun Hh. split; [| split].
  - intros found c' d' w2 w3 Hobs Hstatus Hexpose.
    destruct (deleteElasticacheCluster_available _ _ _ _ _ _ _ _ _ _ _ _ _
                Hobs Hstatus Hexpose Hrun) as (pre & id & rule & err & rest & Hid & HF & Hh').
    exists pre, id, rule, err, rest. split; [assumption | split; [assumption |]].
    rewrite Hh in Hh'. apply app_inv_head in Hh'. assumption.
  - intros input err Hin.
    destruct (deleteElasticacheCluster_tick _ _ _ _ _ _ _ _ Hrun) as (evs0 & Hh0 & Htick).
    rewrite Hh in Hh0. apply app_inv_head in Hh0. subst evs0.
    inversion Htick; subst; clear Htick.
    + exfalso.
      match goal with
      | HF : Forall quiet _ |- _ =>
          rewrite Forall_forall in HF; apply list_elem_of_In in Hin; apply (HF _ Hin)
      end.
    + suffix_event Hin.
    + suffix_event Hin.
    + suffix_event Hin.
    + suffix_event Hin. inversion Hin; subst. eauto 10.
  - intros e Hfail.
    destruct (deleteElasticacheCluster_tick _ _ _ _ _ _ _ _ Hrun) as (evs0 & Hh0 & Htick).
    rewrite Hh in Hh0. apply app_inv_head in Hh0. subst evs0.
    inversion Htick; subst; clear Htick;
      destruct Hfail as [(ns & name & rule' & Hin) | (rule' & Hin)];
      try (exfalso;
           match goal with
           | HF : Forall quiet _ |- _ =>
               rewrite Forall_forall in HF; apply list_elem_of_In in Hin;
               apply (HF _ Hin)
           end);
      try (suffix_event Hin; fail);
      suffix_event Hin; inversion Hin; subst;
      (split; [eauto |]);
      apply Forall_app; (split; [apply quiet_not_remote_delete; assumption |]);
      repeat constructor; simpl; tauto.
Qed.

(** A create tick leaves the desired resource as it is. *)
Lemma emits_any {A} (P : Event -> Prop) (m : M A) : emits P m -> emits anyEvent m.
Proof. apply emits_weaken. intros; exact I. Qed.

Lemma emits_CreateElastiCacheAvailabilityAlert p id clusterID :
  emits anyEvent (CreateElastiCacheAvailabilityAlert p id clusterID).
Proof. unfold CreateElastiCacheAvailabilityAlert. repeat emits_step. Qed.

Lemma emits_createElasticacheCluster pkg p cacheSvc stsSvc cfg stratCfg :
  emits anyEvent (createElasticacheCluster pkg p cacheSvc stsSvc cfg stratCfg).
Proof.
  unfold createElasticacheCluster.
  repeat first
    [ apply (emits_any _ _ (emits_getReplicationGroups _ _))
    | apply (emits_any _ _ (emits_buildElasticacheCreateStrategy _ _))
    | apply emits_findCache
    | apply (emits_any _ _ (emits_setRedisServiceMaintenanceMetric _ _ _))
    | apply (emits_any _ _ (emits_exposeRedisMetrics _ _))
    | apply (emits_any _ _ (emits_callGetClusterID _))
    | apply emits_CreateElastiCacheAvailabilityAlert
    | apply emits_buildElasticacheUpdateStrategy
    | apply (emits_any _ _ (emits_tagNodeGroupMembers _ _ _ _ _))
    | emits_step ].
Qed.

(** The listing a tick obtains is the one the remote answered. *)
Lemma getReplicationGroups_attempts (pkg : Package) (cacheSvc : ElastiCacheAPI) (w : World) :
  getReplicationGroups pkg cacheSvc w =
    (do (rgs, err) <- PollImmediate (pollTicks pkg) (listingAttempt cacheSvc) [];;
     match err with
     | Some e => ret ([], Some e)
     | None => ret (rgs, None)
     end) w.
Proof.
  reflexivity.
Qed.

Lemma listingAttempt_run (cacheSvc : ElastiCacheAPI)
    (s : list (ptr elasticache.ReplicationGroup)) (w : World) :
  let answer := DescribeReplicationGroups cacheSvc (history w) in
  let w1 :=
    {| history := history w ++ [DescribeReplicationGroupsCall (fst answer) (snd answer)];
       MetricVecs := MetricVecs w; Registry := Registry w; redis := redis w |} in
  listingAttempt cacheSvc s w =
    match answer with
    | (_, Some _) => (Normal (s, false, None), w1)
    | (Some out, None) => (Normal (out, true, None), w1)
    | (None, None) => (Panicked nilDereference, w1)
    end.
Proof.
  unfold listingAttempt, bind, call. cbn [fst snd].
  destruct (DescribeReplicationGroups cacheSvc (history w)) as [[out |] [e |]];
    reflexivity.
Qed.

Lemma pollReplicationGroups_answer (cacheSvc : ElastiCacheAPI) (ticks : nat)
    (s rgs : list (ptr elasticache.ReplicationGroup)) (w w1 : World) :
  PollImmediate ticks (listingAttempt cacheSvc) s w = (Normal (rgs, None), w1) ->
  exists failures,
    history w1 = history w ++ failures ++ [DescribeReplicationGroupsCall (Some rgs) None] /\
    Forall listingFailed failures /\
    DescribeReplicationGroups cacheSvc (history w ++ failures) = (Some rgs, None).
Proof.
  revert s w. induction ticks as [| n IH]; intros s w;
    cbn [PollImmediate]; unfold bind; rewrite !listingAttempt_run; cbv zeta;
    destruct (DescribeReplicationGroups cacheSvc (history w)) as [[out |] [e |]] eqn:Hd;
    cbn [ret fst snd history]; try discriminate.
  - intros H. inversion H; subst. exists []. rewrite app_nil_r. simpl. auto.
  - intros H. destruct (IH _ _ H) as (failures & Hh & HF & Hanswer). simpl in Hh, Hanswer.
    exists (DescribeReplicationGroupsCall (Some out) (Some e) :: failures).
    rewrite Hh, <- !app_assoc. simpl. rewrite <- app_assoc in Hanswer.
    split; [reflexivity |]. split; [constructor; [exact I | assumption] | exact Hanswer].
  - intros H. inversion H; subst. exists []. rewrite app_nil_r. simpl. auto.
  - intros H. destruct (IH _ _ H) as (failures & Hh & HF & Hanswer). simpl in Hh, Hanswer.
    exists (DescribeReplicationGroupsCall None (Some e) :: failures).
    rewrite Hh, <- !app_assoc. simpl. rewrite <- app_assoc in Hanswer.
    split; [reflexivity |]. split; [constructor; [exact I | assumption] | exact Hanswer].
Qed.

Lemma getReplicationGroups_listing (pkg : Package) (cacheSvc : ElastiCacheAPI)
    (w w1 : World) (rgs : list (ptr elasticache.ReplicationGroup)) :
  getReplicationGroups pkg cacheSvc w = (Normal (rgs, None), w1) ->
  exists failures,
    history w1 = history w ++ failures ++ [DescribeReplicationGroupsCall (Some rgs) None] /\
    Forall listingFailed failures /\
    DescribeReplicationGroups cacheSvc (history w ++ failures) = (Some rgs, None).
Proof.
  rewrite getReplicationGroups_attempts. unfold bind.
  destruct (PollImmediate (pollTicks pkg) (listingAttempt cacheSvc) [] w)
    as [[[rgs0 [e |]] | reason] w0] eqn:Hpoll; cbn [ret]; try discriminate.
  intros H. inversion H; subst. eapply pollReplicationGroups_answer. exact Hpoll.
Qed.

Lemma findCache_none rgs wanted w w' :
  findCache rgs wanted w = (Normal None, w') ->
  Forall (fun g => exists g0 id,
            g = Some g0 /\ elasticache.ReplicationGroupId g0 = Some id /\
            Some id <> wanted) rgs.
Proof.
  induction rgs as [| c rest IH]; simpl; [constructor |].
  unfold bind. destruct c as [g0 |]; simpl; [| discriminate].
  destruct (elasticache.ReplicationGroupId g0) as [id |] eqn:Eid; simpl; [| discriminate].
  destruct wanted as [want |]; simpl; [| discriminate].
  destruct (String.eqb_spec id want) as [-> | Hne]; [discriminate |].
  intros H. constructor; [| apply IH; exact H].
  exists g0, id. split; [reflexivity | split; [assumption | congruence]].
Qed.

Lemma observedOnDelete_absent pkg cacheSvc c d w c' d' w2 pre tail :
  observedOnDelete pkg cacheSvc c d w None c' d' w2 ->
  history w2 = history w ++ pre ->
  absentFromListing cacheSvc w (CreateReplicationGroupInput.ReplicationGroupId c')
    (pre ++ tail).
Proof.
  intros (rgs & w1 & E1 & E2 & E3) Hpre.
  destruct (getReplicationGroups_listing _ _ _ _ _ E1) as (failures & Hh1 & HF & Hanswer).
  destruct (emits_buildElasticacheDeleteConfig pkg (redis w1) c d w1) as (evs2 & H2 & _ & _).
  rewrite E2 in H2. simpl in H2.
  rewrite H2, Hh1, <- !app_assoc in Hpre. apply app_inv_head in Hpre. subst pre.
  exists failures, rgs, (evs2 ++ tail). rewrite <- !app_assoc. simpl.
  split; [reflexivity |]. split; [assumption |]. split; [assumption |].
  eapply findCache_none. exact E3.
Qed.

(** C6.  A delete tick that observes the group absent has listed the groups,
    and the listing the remote answered holds no group with the configured
    identifier; the tick removes the provider's finalizer from the desired
    resource and sends the resource to the Kubernetes API; it returns the
    empty status without error when that update succeeds (the update's
    failure, wrapped, otherwise) and issues no remote delete call.
    Conversely, a delete tick that changes the desired resource or sends it
    to the API has observed the group absent, in a listing answered by the
    remote that holds no group with the configured identifier; and a create
    tick never changes the desired resource. *)
Theorem absent_group_removes_finalizer
    (pkg : Package) (p : RedisProvider) (cacheSvc : ElastiCacheAPI)
    (c : CreateReplicationGroupInput.t) (d : DeleteReplicationGroupInput.t)
    (w w' : World) (res : outcome (StatusMessage * option error)) (evs : list Event) :
  deleteElasticacheCluster pkg p cacheSvc c d w = (res, w') ->
  history w' = history w ++ evs ->
  (forall c' d' w2,
     observedOnDelete pkg cacheSvc c d w None c' d' w2 ->
     absentFromListing cacheSvc w (CreateReplicationGroupInput.ReplicationGroupId c') evs /\
     redis w' = withoutFinalizer pkg (redis w) /\
     (DefaultFinalizer pkg ∉ Finalizers (Meta (redis w'))) /\
     Forall (fun x => ~ isRemoteDelete x) evs /\
     exists pre err,
       Forall quiet pre /\
       evs = pre ++ [ClientUpdateCall (withoutFinalizer pkg (redis w)) err] /\
       res =
         Normal
           match err with
           | Some e =>
               ("failed to update instance as part of finalizer reconcile",
                Some (WithMessage e
                        "failed to update instance as part of finalizer reconcile"))
           | None => (StatusEmpty, None)
           end) /\
  ((redis w' <> redis w \/ Exists isFinalizerUpdate evs) ->
   exists c' d' w2,
     observedOnDelete pkg cacheSvc c d w None c' d' w2 /\
     absentFromListing cacheSvc w (CreateReplicationGroupInput.ReplicationGroupId c') evs) /\
  (forall stsSvc cfg stratCfg w0,
     redis (snd (createElasticacheCluster pkg p cacheSvc stsSvc cfg stratCfg w0))
     = redis w0).
Proof.
  intros Hrun Hh.
  assert (Habsent : forall c' d' w2,
             observedOnDelete pkg cacheSvc c d w None c' d' w2 ->
             absentFromListing cacheSvc w
               (CreateReplicationGroupInput.ReplicationGroupId c') evs).
  { intros c' d' w2 Hobs.
    pose proof (deleteElasticacheCluster_absent pkg p _ _ _ _ _ _ _ Hobs) as Hrun'.
    simpl in Hrun'. rewrite Hrun in Hrun'. inversion Hrun'; subst; clear Hrun'.
    destruct (observedOnDelete_history _ _ _ _ _ _ _ _ _ Hobs) as (pre & Hh2 & _ & _).
    simpl in Hh. rewrite Hh2, <- app_assoc in Hh. apply app_inv_head in Hh. subst evs.
    eapply observedOnDelete_absent; eassumption. }
  split; [| split];
    [| | intros stsSvc cfg stratCfg w0;
         destruct (emits_createElasticacheCluster pkg p cacheSvc stsSvc cfg stratCfg w0)
           as (? & _ & _ & Hkeep); exact Hkeep].
  - intros c' d' w2 Hobs. split; [eapply Habsent; eassumption |]. clear Habsent.
    pose proof (deleteElasticacheCluster_absent pkg p _ _ _ _ _ _ _ Hobs) as Hrun'.
    simpl in Hrun'. rewrite Hrun in Hrun'. inversion Hrun'; subst; clear Hrun'.
    destruct (observedOnDelete_history _ _ _ _ _ _ _ _ _ Hobs) as (pre & Hh2 & HF & Hr).
    simpl in Hh. rewrite Hh2, <- app_assoc in Hh. apply app_inv_head in Hh. subst evs.
    simpl. split; [reflexivity |]. split.
    { unfold RemoveFinalizer. simpl. rewrite list_elem_of_filter. tauto. }
    split.
    { apply Forall_app. split; [apply quiet_not_remote_delete; assumption |].
      repeat constructor. simpl. tauto. }
    rewrite Hh2. exists pre. eexists. split; [assumption | split; reflexivity].
  - intros Hchange.
    destruct (deleteElasticacheCluster_tick _ _ _ _ _ _ _ _ Hrun) as (evs0 & Hh0 & Htick).
    rewrite Hh in Hh0. apply app_inv_head in Hh0. subst evs0.
    inversion Htick; subst; clear Htick;
      try (eexists _, _, _; split; [eassumption | eapply Habsent; eassumption]);
      exfalso;
      (destruct Hchange as [Hne | Hex]; [congruence |]);
      try (apply Exists_app in Hex; destruct Hex as [Hex | Hex]);
      try (eapply quiet_not_finalizer_update; eassumption);
      repeat match goal with
             | H : Exists _ (_ :: _) |- _ => apply Exists_cons in H; destruct H as [H | H]
             | H : Exists _ [] |- _ => apply Exists_nil in H
             | H : isFinalizerUpdate _ |- _ => simpl in H
             | H : False |- _ => contradiction
             end.
Qed.

Lemma remote_delete_not_found_is_success_witness :
  fst (deleteElasticacheCluster Fixture.pkg (Fixture.provider None)
         (Fixture.availableSvc (Some Fixture.notFound)) Fixture.createConfig
         (Fixture.deleteConfig (Some "")) Fixture.world)
  = Normal ("delete detected, deleteReplicationGroup started", None).
Proof.
  evaluate (deleteElasticacheCluster Fixture.pkg (Fixture.provider None)
              (Fixture.availableSvc (Some Fixture.notFound)) Fixture.createConfig
              (Fixture.deleteConfig (Some "")) Fixture.world) Hrun.
  rewrite Hrun.
  eapply (remote_delete_not_found_is_success _ _ _ _ _ _ _ _ _ _ Fixture.notFound Hrun).
  - reflexivity.
  - cbn [history app In]. do 6 right. left. reflexivity.
Defined.

Lemma alert_rule_deleted_before_remote_delete_witness :
  (exists id,
     fst (deleteElasticacheCluster Fixture.pkg (Fixture.provider (Some Fixture.ruleMissing))
            (Fixture.availableSvc None) Fixture.createConfig
            (Fixture.deleteConfig None) Fixture.world)
     = Normal (alertDeleteFailure id Fixture.ruleMissing)) /\
  Forall (fun x => ~ isRemoteDelete x)
    (history
       (snd (deleteElasticacheCluster Fixture.pkg (Fixture.provider (Some Fixture.ruleMissing))
               (Fixture.availableSvc None) Fixture.createConfig
               (Fixture.deleteConfig None) Fixture.world))).
Proof.
  eapply (alert_rule_deleted_before_remote_delete Fixture.pkg
            (Fixture.provider (Some Fixture.ruleMissing)) (Fixture.availableSvc None)
            Fixture.createConfig (Fixture.deleteConfig None) Fixture.world).
  - apply surjective_pairing.
  - reflexivity.
  - left. exists "ns", "cro-aws-elasticache-cluster1-ns-redis", emptyPrometheusRule.
    vm_compute. repeat (first [left; reflexivity | right]).
Defined.

Lemma absent_group_removes_finalizer_witness :
  absentFromListing Scenario.otherListedSvc Fixture.world (Some "cluster1-ns-redis")
    (history
       (snd (deleteElasticacheCluster Fixture.pkg (Fixture.provider None)
               Scenario.otherListedSvc Fixture.createConfig (Fixture.deleteConfig None)
               Fixture.world))) /\
  redis (snd (deleteElasticacheCluster Fixture.pkg (Fixture.provider None)
                Scenario.otherListedSvc Fixture.createConfig (Fixture.deleteConfig None)
                Fixture.world))
  = withoutFinalizer Fixture.pkg Fixture.cr /\
  Forall (fun x => ~ isRemoteDelete x)
    (history
       (snd (deleteElasticacheCluster Fixture.pkg (Fixture.provider None)
               Scenario.otherListedSvc Fixture.createConfig (Fixture.deleteConfig None)
               Fixture.world))).
Proof.
  destruct (absent_group_removes_finalizer Fixture.pkg (Fixture.provider None)
              Scenario.otherListedSvc Fixture.createConfig (Fixture.deleteConfig None)
              Fixture.world _ _ _ (surjective_pairing _) eq_refl) as [Habsent _].
  edestruct Habsent as (Hlisting & Hr & _ & Hnone & _).
  - eexists _, _. split; [vm_compute; reflexivity |].
    split; vm_compute; reflexivity.
  - split; [exact Hlisting | split; [exact Hr | exact Hnone]].
Defined.

(** ** The create path *)

Lemma buildElasticacheUpdateStrategy_world cfg found w :
  snd (buildElasticacheUpdateStrategy cfg found w) = w.
Proof.
  unfold buildElasticacheUpdateStrategy, bind.
  destruct (CreateReplicationGroupInput.CacheNodeType cfg); simpl; [| reflexivity].
  destruct (elasticache.CacheNodeType found); simpl; [| reflexivity].
  destruct (negb _); simpl;
    (destruct (CreateReplicationGroupInput.SnapshotRetentionLimit cfg); simpl;
     [| reflexivity]);
    (destruct (elasticache.SnapshotRetentionLimit found); simpl; [| reflexivity]);
    destruct (negb _); reflexivity.
Qed.

Lemma quiet_beforeAlert (l : list Event) : Forall quiet l -> Forall beforeAlert l.
Proof.
  intros HF. eapply Forall_impl; [exact HF |]. intros [] Hq; simpl in *; tauto.
Qed.

Lemma tagging_afterAlert cfg found (l : list Event) :
  Forall tagging l -> Forall (afterAlert cfg found) l.
Proof.
  intros HF. eapply Forall_impl; [exact HF |]. intros [] Hq; simpl in *; tauto.
Qed.

Lemma CreateElastiCacheAvailabilityAlert_run p id clusterID w :
  exists res err w',
    CreateElastiCacheAvailabilityAlert p id clusterID w = (Normal res, w') /\
    history w' =
      history w ++ [ClientCreateCall (availabilityAlertRule (redis w) id clusterID) err] /\
    redis w' = redis w.
Proof.
  unfold CreateElastiCacheAvailabilityAlert, bind, getRedis, call. simpl.
  match goal with
  | |- context [Create (Client p) ?h ?r] => destruct (Create (Client p) h r) as [e |] eqn:Ec
  end.
  - destruct (negb (IsAlreadyExists e)); eexists _, (Some e), _; simpl;
      (split; [reflexivity | split; reflexivity]).
  - eexists _, None, _. simpl. split; [reflexivity | split; reflexivity].
Qed.

(** Two runs of the same computation from the same world agree. *)
Ltac same_run :=
  repeat match goal with
         | H1 : ?t = _, H2 : ?t = _ |- _ =>
             rewrite H1 in H2; inversion H2; subst; clear H2
         end.

Ltac no_reach :=
  let P1 := fresh in let P2 := fresh in let P3 := fresh in
  let P4 := fresh in let P5 := fresh in let P6 := fresh in
  let Ps := fresh in
  intros (? & ? & ? & ? & (? & ? & P1 & P2 & P3) & Ps & ? & ? & ? & P4 & P5 & P6);
  same_run; congruence.

Ltac quiet_create :=
  finish; eexists; split;
  [history_eq
  | left; split; [apply quiet_beforeAlert; rewrite ?Forall_app; auto | no_reach]].

Ltac alert_leaf found cfg' w2 id clusterID pre aerr :=
  finish; (eexists; split; [history_eq |]); right;
  exists found, cfg', w2, id, clusterID, pre, aerr; eexists;
  repeat (split; [assumption || reflexivity |]);
  first [constructor | apply tagging_afterAlert; assumption].

Lemma createElasticacheCluster_tick pkg p cacheSvc stsSvc cfg stratCfg w res w' :
  createElasticacheCluster pkg p cacheSvc stsSvc cfg stratCfg w = (res, w') ->
  exists evs,
    history w' = history w ++ evs /\
    ((Forall beforeAlert evs /\
      ~ exists found cfg' w2 clusterID,
          reachesAlertOnCreate pkg cacheSvc cfg w found cfg' w2 clusterID) \/
     exists found cfg' w2 id clusterID pre err rest,
       reachesAlertOnCreate pkg cacheSvc cfg w found cfg' w2 clusterID /\
       elasticache.ReplicationGroupId found = Some id /\
       Forall quiet pre /\
       evs = pre ++ ClientCreateCall (availabilityAlertRule (redis w) id clusterID) err
                    :: rest /\
       Forall (afterAlert cfg' found) rest).
Proof.
  unfold createElasticacheCluster, bind.
  run_sub (emits_getReplicationGroups pkg cacheSvc) w a w1 E1; [| quiet_create].
  destruct a as [rgs [e |]]; [quiet_create |].
  run_sub (emits_buildElasticacheCreateStrategy pkg cfg) w1 a w2 E2; [| quiet_create].
  destruct a as [cfg' [e |]]; [quiet_create |].
  pose proof (findCache_world rgs (CreateReplicationGroupInput.ReplicationGroupId cfg') w2)
    as Hfw.
  destruct (findCache rgs (CreateReplicationGroupInput.ReplicationGroupId cfg') w2)
    as [[[found |] | reason] w2'] eqn:E3; simpl in Hfw; subst w2'; [| | quiet_create].
  2:{ unfold call. simpl.
      destruct (CreateReplicationGroup cacheSvc (history w2) cfg');
        finish; (eexists; split; [history_eq |]); left;
        (split; [| no_reach]);
        rewrite !Forall_app; repeat split;
        try (apply quiet_beforeAlert; assumption); repeat constructor. }
  destruct (findCache_found _ _ _ _ _ E3) as (Hid & id & Hwanted).
  rewrite Hwanted in Hid.
  run_sub (emits_setRedisServiceMaintenanceMetric pkg cacheSvc found) w2 a w3 E4;
    [| quiet_create].
  destruct a as [e |]; [quiet_create |].
  run_sub (emits_exposeRedisMetrics pkg found) w3 a w4 E5; [| quiet_create].
  destruct a as [e |]; [quiet_create |].
  destruct (elasticache.Status found) as [status |] eqn:Estatus; cbn [deref ret panic];
    [| quiet_create].
  destruct (String.eqb_spec status "available") as [-> | Hne]; cbn [negb];
    [| quiet_create].
  run_sub (emits_callGetClusterID pkg) w4 a w5 E6; [| quiet_create].
  destruct a as [clusterID [e |]]; [quiet_create |].
  rewrite Hid. cbn [deref ret].
  assert (Hobs : reachesAlertOnCreate pkg cacheSvc cfg w found cfg' w2 clusterID)
    by (split; [exists rgs, w1; auto | split; [assumption | eauto 10]]).
  assert (Hpre : exists pre, history w5 = history w ++ pre /\ Forall quiet pre)
    by (eexists; split; [history_eq | rewrite ?Forall_app; auto 10]).
  destruct Hpre as (pre & Hpre & HFpre).
  assert (Hredis : redis w5 = redis w) by congruence.
  clear Hh Hh0 Hh1 Hh2 Hh3 Hr Hr0 Hr1 Hr2 Hr3.
  destruct (CreateElastiCacheAvailabilityAlert_run p id clusterID w5)
    as (ares & aerr & w6 & E7 & Hh7 & Hr7).
  rewrite E7. cbv beta iota. rewrite Hredis in Hh7.
  destruct ares as [e |]; cbn [ret].
  { finish. eexists. split; [history_eq |]. right.
    exists found, cfg', w2, id, clusterID, pre, aerr, [].
    repeat (split; [assumption || reflexivity |]). constructor. }
  pose proof (buildElasticacheUpdateStrategy_world cfg' found w6) as Hbw.
  destruct (buildElasticacheUpdateStrategy cfg' found w6) as [[[ec |] | reason] w6'] eqn:E8;
    simpl in Hbw; subst w6'.
  - unfold call. simpl.
    match goal with
    | |- context [ModifyReplicationGroup cacheSvc ?h ec] =>
        destruct (ModifyReplicationGroup cacheSvc h ec) as [e |] eqn:Em
    end; finish; (eexists; split; [history_eq |]); right;
      exists found, cfg', w2, id, clusterID, pre; eexists aerr, [_];
      repeat (split; [assumption || reflexivity |]);
      repeat constructor; simpl; eauto.
  - destruct (elasticache.NodeGroups found) as [| [ng |] ngs];
      cbn [index0 deref ret panic];
      [alert_leaf found cfg' w2 id clusterID pre aerr
      | | alert_leaf found cfg' w2 id clusterID pre aerr].
    destruct (elasticache.NodeGroupStatus ng) as [nodeStatus |];
      cbn [index0 deref ret panic]; [| alert_leaf found cfg' w2 id clusterID pre aerr].
    destruct (negb (nodeStatus =? "available")%string);
      [alert_leaf found cfg' w2 id clusterID pre aerr |].
    run_sub (emits_tagNodeGroupMembers pkg cacheSvc stsSvc stratCfg
               (elasticache.NodeGroupMembers ng)) w6 a w7 E9;
      [| alert_leaf found cfg' w2 id clusterID pre aerr].
    destruct a as [result |]; [alert_leaf found cfg' w2 id clusterID pre aerr |].
    destruct (elasticache.PrimaryEndpoint ng) as [endpoint |];
      cbn [index0 deref ret panic]; [| alert_leaf found cfg' w2 id clusterID pre aerr].
    destruct (elasticache.Address endpoint);
      cbn [index0 deref ret panic]; [| alert_leaf found cfg' w2 id clusterID pre aerr].
    destruct (elasticache.Port endpoint);
      cbn [index0 deref ret panic]; alert_leaf found cfg' w2 id clusterID pre aerr.
  - alert_leaf found cfg' w2 id clusterID pre aerr.
Qed.

Lemma observedOnCreate_functional pkg cacheSvc cfg w found1 cfg1 w21 found2 cfg2 w22 :
  observedOnCreate pkg cacheSvc cfg w found1 cfg1 w21 ->
  observedOnCreate pkg cacheSvc cfg w found2 cfg2 w22 ->
  found1 = found2 /\ cfg1 = cfg2 /\ w21 = w22.
Proof.
  intros (rgs1 & w11 & A1 & A2 & A3) (rgs2 & w12 & B1 & B2 & B3).
  same_run. auto.
Qed.

Lemma reachesAlertOnCreate_functional pkg cacheSvc cfg w
    found1 cfg1 w21 id1 found2 cfg2 w22 id2 :
  reachesAlertOnCreate pkg cacheSvc cfg w found1 cfg1 w21 id1 ->
  reachesAlertOnCreate pkg cacheSvc cfg w found2 cfg2 w22 id2 ->
  found1 = found2 /\ cfg1 = cfg2 /\ w21 = w22 /\ id1 = id2.
Proof.
  intros (Ha & _ & w3 & w4 & w5 & A4 & A5 & A6) (Hb & _ & w3' & w4' & w5' & B4 & B5 & B6).
  destruct (observedOnCreate_functional _ _ _ _ _ _ _ _ _ _ Ha Hb) as (Hf & -> & ->).
  inversion Hf; subst. same_run. auto.
Qed.

Lemma beforeAlert_not_alert_create (l : list Event) :
  Forall beforeAlert l -> Forall (fun e => ~ isAlertCreate e) l.
Proof.
  intros HF. eapply Forall_impl; [exact HF |]. intros [] Hq; simpl in *; tauto.
Qed.

(** C1, amended.  A create tick issues the call that creates the alert rule
    exactly when it observes the group with status "available", has
    refreshed the metrics and has retrieved the cluster identifier: then the
    call comes right after the discovery and metric calls and before every
    modify or tagging call of the tick; a tick that observes the group in any
    other status issues no such call. *)
Theorem alert_rule_created_once_available
    (pkg : Package) (p : RedisProvider) (cacheSvc : ElastiCacheAPI) (stsSvc : STSAPI)
    (cfg : CreateReplicationGroupInput.t) (stratCfg : StrategyConfig)
    (w w' : World) (res : outcome (ptr RedisCluster * StatusMessage * option error))
    (evs : list Event) :
  createElasticacheCluster pkg p cacheSvc stsSvc cfg stratCfg w = (res, w') ->
  history w' = history w ++ evs ->
  (forall found cfg' w2 clusterID,
     reachesAlertOnCreate pkg cacheSvc cfg w found cfg' w2 clusterID ->
     exists pre id err rest,
       elasticache.ReplicationGroupId found = Some id /\
       Forall quiet pre /\
       evs = pre ++ ClientCreateCall (availabilityAlertRule (redis w) id clusterID) err
                    :: rest /\
       Forall (afterAlert cfg' found) rest) /\
  (forall rule err,
     In (ClientCreateCall rule err) evs ->
     exists found cfg' w2 clusterID,
       reachesAlertOnCreate pkg cacheSvc cfg w found cfg' w2 clusterID) /\
  (forall found cfg' w2 status,
     observedOnCreate pkg cacheSvc cfg w (Some found) cfg' w2 ->
     elasticache.Status found = Some status ->
     status <> "available" ->
     Forall (fun e => ~ isAlertCreate e) evs).
Proof.
  intros Hrun Hh.
  destruct (createElasticacheCluster_tick _ _ _ _ _ _ _ _ _ Hrun) as (evs0 & Hh0 & Hshape).
  rewrite Hh in Hh0. apply app_inv_head in Hh0. subst evs0.
  split; [| split].
  - intros found cfg' w2 clusterID Hreach.
    destruct Hshape as [[_ Hnot] | Hshape]; [exfalso; apply Hnot; eauto |].
    destruct Hshape as (found0 & cfg0 & w20 & id & cid0 & pre & err & rest
                        & Hreach0 & Hid & HF & Hevs & Hrest).
    destruct (reachesAlertOnCreate_functional _ _ _ _ _ _ _ _ _ _ _ _ Hreach Hreach0)
      as (-> & -> & -> & ->).
    exists pre, id, err, rest. auto.
  - intros rule err Hin.
    destruct Hshape as [[HF _] | Hshape].
    + exfalso. apply beforeAlert_not_alert_create in HF.
      rewrite Forall_forall in HF. apply list_elem_of_In in Hin.
      apply (HF _ Hin). exact I.
    + destruct Hshape as (found0 & cfg0 & w20 & id & cid0 & _ & _ & _ & Hreach0 & _).
      eauto.
  - intros found cfg' w2 status Hobs Hstatus Hne.
    destruct Hshape as [[HF _] | Hshape]; [apply beforeAlert_not_alert_create; assumption |].
    exfalso.
    destruct Hshape as (found0 & cfg0 & w20 & id & cid0 & _ & _ & _ & Hreach0 & _).
    destruct Hreach0 as (Hobs0 & Hstatus0 & _).
    destruct (observedOnCreate_functional _ _ _ _ _ _ _ _ _ _ Hobs Hobs0) as (Hf & _ & _).
    inversion Hf; subst. congruence.
Qed.

(** The claim of C1 fails: the tick observes the group present, with its
    identifier, in status "creating", and creates no alert rule. *)
Lemma alert_rule_not_created_while_creating :
  (exists cfg' w2,
     observedOnCreate Fixture.pkg Fixture.creatingSvc Fixture.createConfig Fixture.world
       (Some (Fixture.group "creating" [Some Fixture.nodeGroup])) cfg' w2) /\
  fst (createElasticacheCluster Fixture.pkg (Fixture.provider None) Fixture.creatingSvc
         Fixture.stsSvc Fixture.createConfig Fixture.stratCfg Fixture.world)
  = Normal (None,
            "createReplicationGroup() in progress, current aws elasticache status is creating",
            None) /\
  ~ Exists isAlertCreate
      (history
         (snd (createElasticacheCluster Fixture.pkg (Fixture.provider None) Fixture.creatingSvc
                 Fixture.stsSvc Fixture.createConfig Fixture.stratCfg Fixture.world))).
Proof.
  split; [| split].
  - eexists _, _, _, _. split; [vm_compute; reflexivity |].
    split; vm_compute; reflexivity.
  - vm_compute. reflexivity.
  - vm_compute. intros H.
    repeat match goal with
           | H : Exists _ (_ :: _) |- _ => apply Exists_cons in H; destruct H as [H | H]
           | H : Exists _ [] |- _ => apply Exists_nil in H
           | H : False |- _ => contradiction
           end.
Qed.

Lemma alert_rule_created_once_available_witness :
  exists pre err rest,
    history
      (snd (createElasticacheCluster Fixture.pkg (Fixture.provider None)
              (Fixture.availableSvc None) Fixture.stsSvc Fixture.createConfig
              Fixture.stratCfg Fixture.world))
    = pre ++ ClientCreateCall
               (availabilityAlertRule Fixture.cr "cluster1-ns-redis" "cluster-1") err
             :: rest /\
    Forall quiet pre.
Proof.
  remember (createElasticacheCluster Fixture.pkg (Fixture.provider None)
              (Fixture.availableSvc None) Fixture.stsSvc Fixture.createConfig
              Fixture.stratCfg Fixture.world) as run eqn:Hrun.
  destruct run as [res w']. symmetry in Hrun.
  destruct (alert_rule_created_once_available Fixture.pkg (Fixture.provider None)
              (Fixture.availableSvc None) Fixture.stsSvc Fixture.createConfig
              Fixture.stratCfg Fixture.world w' res (history w') Hrun eq_refl)
    as [Hreach _].
  simpl. edestruct Hreach as (pre & id & err & rest & Hid & HF & Hevs & _).
  - split; [| split].
    + eexists _, _. split; [vm_compute; reflexivity |].
      split; vm_compute; reflexivity.
    + reflexivity.
    + eexists _, _, _. split; [vm_compute; reflexivity |].
      split; vm_compute; reflexivity.
  - inversion Hid; subst. exists pre, err, rest. split; assumption.
Defined.

Lemma buildElasticacheUpdateStrategy_Some cfg found w ec w' :
  buildElasticacheUpdateStrategy cfg found w = (Normal (Some ec), w') ->
  changesSomething ec /\
  ModifyReplicationGroupInput.ReplicationGroupId ec = elasticache.ReplicationGroupId found.
Proof.
  unfold buildElasticacheUpdateStrategy, bind, changesSomething.
  destruct (CreateReplicationGroupInput.CacheNodeType cfg) as [wantType |];
    cbn [deref ret panic]; [| discriminate].
  destruct (elasticache.CacheNodeType found) as [haveType |];
    cbn [deref ret panic]; [| discriminate].
  destruct (CreateReplicationGroupInput.SnapshotRetentionLimit cfg) as [wantLimit |];
    destruct (negb (wantType =? haveType)%string);
    cbn [deref ret panic]; try discriminate;
    (destruct (elasticache.SnapshotRetentionLimit found) as [haveLimit |];
     cbn [deref ret panic]; [| discriminate]);
    destruct (negb (wantLimit =? haveLimit)%Z);
    intros H; inversion H; subst; simpl; split; auto; try (left; discriminate);
    right; discriminate.
Qed.

Lemma createElasticacheCluster_modify_changes
    pkg p cacheSvc stsSvc cfg stratCfg w w' res evs ec err :
  createElasticacheCluster pkg p cacheSvc stsSvc cfg stratCfg w = (res, w') ->
  history w' = history w ++ evs ->
  In (ModifyReplicationGroupCall ec err) evs ->
  changesSomething ec.
Proof.
  intros Hrun Hh Hin.
  destruct (createElasticacheCluster_tick _ _ _ _ _ _ _ _ _ Hrun) as (evs0 & Hh0 & Hshape).
  rewrite Hh in Hh0. apply app_inv_head in Hh0. subst evs0.
  destruct Hshape as [[HF _] | Hshape].
  - exfalso. rewrite Forall_forall in HF. apply list_elem_of_In in Hin.
    apply (HF _ Hin).
  - destruct Hshape as (found & cfg' & w2 & id & cid & pre & aerr & rest
                        & _ & _ & HF & -> & Hrest).
    apply quiet_prefix_In in Hin; [| assumption | simpl; tauto].
    destruct Hin as [Hin | Hin]; [discriminate Hin |].
    rewrite Forall_forall in Hrest. apply list_elem_of_In in Hin.
    destruct (Hrest _ Hin) as (w0 & Hbuild).
    apply (buildElasticacheUpdateStrategy_Some _ _ _ _ _ Hbuild).
Qed.

(** ** The drift detector *)

(** C5.  The drift detector compares the cache node type and the snapshot
    retention limit, each by exact equality.  When both are equal it returns
    no modify request; otherwise it returns a request that holds the found
    group's identifier and, of the remaining fields, exactly those of the two
    that differ.  Hence every modify call a create tick issues changes
    something. *)
Theorem buildElasticacheUpdateStrategy_exact
    (cfg : CreateReplicationGroupInput.t) (found : elasticache.ReplicationGroup)
    (wantType haveType : string) (wantLimit haveLimit : Z) (w : World) :
  CreateReplicationGroupInput.CacheNodeType cfg = Some wantType ->
  elasticache.CacheNodeType found = Some haveType ->
  CreateReplicationGroupInput.SnapshotRetentionLimit cfg = Some wantLimit ->
  elasticache.SnapshotRetentionLimit found = Some haveLimit ->
  buildElasticacheUpdateStrategy cfg found w =
    (Normal
       (if decide (wantType = haveType /\ wantLimit = haveLimit) then None
        else
          Some
            {| ModifyReplicationGroupInput.ReplicationGroupId :=
                 elasticache.ReplicationGroupId found;
               ModifyReplicationGroupInput.CacheNodeType :=
                 if decide (wantType = haveType) then None else Some wantType;
               ModifyReplicationGroupInput.SnapshotRetentionLimit :=
                 if decide (wantLimit = haveLimit) then None else Some wantLimit;
               ModifyReplicationGroupInput.ApplyImmediately := None;
               ModifyReplicationGroupInput.AutomaticFailoverEnabled := None;
               ModifyReplicationGroupInput.EngineVersion := None;
               ModifyReplicationGroupInput.PreferredMaintenanceWindow := None;
               ModifyReplicationGroupInput.ReplicationGroupDescription := None;
               ModifyReplicationGroupInput.SnapshotWindow := None |}),
     w) /\
  (forall pkg p cacheSvc stsSvc cfg0 stratCfg w0 w1 res evs ec err,
     createElasticacheCluster pkg p cacheSvc stsSvc cfg0 stratCfg w0 = (res, w1) ->
     history w1 = history w0 ++ evs ->
     In (ModifyReplicationGroupCall ec err) evs ->
     changesSomething ec).
Proof.
  intros Hwt Hht Hwl Hhl. split.
  - unfold buildElasticacheUpdateStrategy, bind. rewrite Hwt, Hht, Hwl, Hhl. simpl.
    destruct (String.eqb_spec wantType haveType) as [Et | Et];
      destruct (Z.eqb_spec wantLimit haveLimit) as [El | El]; simpl;
      repeat case_decide; try tauto; reflexivity.
  - intros. eapply createElasticacheCluster_modify_changes; eassumption.
Qed.

(** The drift detector on a config that asks for a larger node type than the
    group has, with the same snapshot retention. *)
Lemma buildElasticacheUpdateStrategy_exact_witness :
  buildElasticacheUpdateStrategy Fixture.largerConfig
    (Fixture.group "available" [Some Fixture.nodeGroup]) Fixture.world =
    (Normal
       (Some
          {| ModifyReplicationGroupInput.ReplicationGroupId := Some "cluster1-ns-redis";
             ModifyReplicationGroupInput.CacheNodeType := Some "cache.m5.large";
             ModifyReplicationGroupInput.SnapshotRetentionLimit := None;
             ModifyReplicationGroupInput.ApplyImmediately := None;
             ModifyReplicationGroupInput.AutomaticFailoverEnabled := None;
             ModifyReplicationGroupInput.EngineVersion := None;
             ModifyReplicationGroupInput.PreferredMaintenanceWindow := None;
             ModifyReplicationGroupInput.ReplicationGroupDescription := None;
             ModifyReplicationGroupInput.SnapshotWindow := None |}),
     Fixture.world).
Proof.
  apply (buildElasticacheUpdateStrategy_exact Fixture.largerConfig
           (Fixture.group "available" [Some Fixture.nodeGroup])
           "cache.m5.large" "cache.t2.micro" 30 30 Fixture.world
           eq_refl eq_refl eq_refl eq_refl).
Defined.

(** ** The tagging subsystem *)

(** C10.  When the per-node describe call reports a status other than
    "available", [TagElasticacheNode] returns the skip message with a nil
    error and applies no tag, so the loop of the create path goes on with the
    next node; and a create tick in which every node is skipped returns the
    terminal status "successfully created and tagged" without a single
    tagging call. *)
Theorem unavailable_node_is_skipped
    (pkg : Package) (cacheSvc : ElastiCacheAPI) (stsSvc : STSAPI)
    (stratCfg : StrategyConfig) (member : elasticache.NodeGroupMember) (id status : string)
    (others : list (ptr elasticache.CacheCluster))
    (members : list (ptr elasticache.NodeGroupMember)) (w : World) :
  elasticache.CacheClusterId member = Some id ->
  DescribeCacheClusters cacheSvc (history w) (Some id) =
    (Some (Some {| elasticache.CacheClusterStatus := Some status |} :: others), None) ->
  status <> "available" ->
  let w1 :=
    {| history :=
         history w ++
           [DescribeCacheClustersCall (Some id)
              (Some (Some {| elasticache.CacheClusterStatus := Some status |} :: others))
              None];
       MetricVecs := MetricVecs w; Registry := Registry w; redis := redis w |} in
  TagElasticacheNode pkg cacheSvc stsSvc stratCfg (Some member) w =
    (Normal (id +:+ " status is " +:+ status +:+ ", skipping adding tags", None), w1) /\
  tagNodeGroupMembers pkg cacheSvc stsSvc stratCfg (Some member :: members) w =
    tagNodeGroupMembers pkg cacheSvc stsSvc stratCfg members w1 /\
  (fst (createElasticacheCluster Fixture.pkg (Fixture.provider None) Fixture.nodesCreatingSvc
          Fixture.stsSvc Fixture.createConfig Fixture.stratCfg Fixture.world)
   = Normal (Some {| URI := "redis.example.com"; DeploymentPort := 6379 |},
             "successfully created and tagged, aws elasticache status is available",
             None) /\
   ~ Exists isAddTags
       (history
          (snd (createElasticacheCluster Fixture.pkg (Fixture.provider None)
                  Fixture.nodesCreatingSvc Fixture.stsSvc Fixture.createConfig Fixture.stratCfg
                  Fixture.world)))).
Proof.
  intros Hid Hdescribe Hstatus w1.
  assert (Htag :
    TagElasticacheNode pkg cacheSvc stsSvc stratCfg (Some member) w =
      (Normal (id +:+ " status is " +:+ status +:+ ", skipping adding tags", None), w1)).
  { unfold TagElasticacheNode, bind, getRedis, call. cbn [deref ret].
    rewrite Hid, Hdescribe. cbn [fst snd deref index0 ret elasticache.CacheClusterStatus].
    destruct (String.eqb_spec status "available") as [Heq | _]; [contradiction |].
    reflexivity. }
  split; [exact Htag |]. split.
  - cbn [tagNodeGroupMembers]. unfold bind at 1. rewrite Htag. reflexivity.
  - evaluate (createElasticacheCluster Fixture.pkg (Fixture.provider None) Fixture.nodesCreatingSvc
                Fixture.stsSvc Fixture.createConfig Fixture.stratCfg Fixture.world) Hrun.
    rewrite Hrun. split; [reflexivity |]. cbn [snd history]. intros H.
    repeat match goal with
           | H : Exists _ (_ :: _) |- _ => apply Exists_cons in H; destruct H as [H | H]
           | H : Exists _ [] |- _ => apply Exists_nil in H
           | H : isAddTags _ |- _ => exact H
           | H : False |- _ => contradiction
           end.
Qed.

Lemma unavailable_node_is_skipped_witness :
  fst (TagElasticacheNode Fixture.pkg Fixture.nodesCreatingSvc Fixture.stsSvc Fixture.stratCfg
         (Some (Fixture.member "node-1")) Fixture.world)
  = Normal ("node-1 status is creating, skipping adding tags", None).
Proof.
  destruct (unavailable_node_is_skipped Fixture.pkg Fixture.nodesCreatingSvc Fixture.stsSvc
              Fixture.stratCfg (Fixture.member "node-1") "node-1" "creating" [] []
              Fixture.world eq_refl eq_refl ltac:(discriminate)) as [Htag _].
  rewrite Htag. reflexivity.
Defined.

(** C4 fails.  The create path panics, indexing an empty slice, when the
    found group has no node group and when the cache-cluster query answers
    an empty list; it panics on a nil pointer when the snapshot query fails
    without an output, and when that query fails with an empty output the
    failure is dropped and the tick reports success; the delete path panics
    on a nil pointer when only the delete strategy names the group. *)
Theorem create_tag_and_delete_can_panic :
  fst (createElasticacheCluster Fixture.pkg (Fixture.provider None) Fixture.noNodeGroupSvc
         Fixture.stsSvc Fixture.createConfig Fixture.stratCfg Fixture.world)
    = Panicked indexOutOfRange /\
  fst (createElasticacheCluster Fixture.pkg (Fixture.provider None) Fixture.noCacheClusterSvc
         Fixture.stsSvc Fixture.createConfig Fixture.stratCfg Fixture.world)
    = Panicked indexOutOfRange /\
  fst (TagElasticacheNode Fixture.pkg Fixture.noCacheClusterSvc Fixture.stsSvc Fixture.stratCfg
         (Some (Fixture.member "node-1")) Fixture.world)
    = Panicked indexOutOfRange /\
  fst (createElasticacheCluster Fixture.pkg (Fixture.provider None) Fixture.snapshotsFailSvc
         Fixture.stsSvc Fixture.createConfig Fixture.stratCfg Fixture.world)
    = Panicked nilDereference /\
  fst (createElasticacheCluster Fixture.pkg (Fixture.provider None) Fixture.snapshotsFailEmptySvc
         Fixture.stsSvc Fixture.createConfig Fixture.stratCfg Fixture.world)
    = Normal (Some {| URI := "redis.example.com"; DeploymentPort := 6379 |},
              "successfully created and tagged, aws elasticache status is available",
              None) /\
  fst (deleteElasticacheCluster Fixture.pkg (Fixture.provider None)
         (Fixture.availableSvc None) Fixture.createConfig Fixture.namedDeleteConfig Fixture.world)
    = Panicked nilDereference.
Proof.
  repeat split; vm_compute; reflexivity.
Qed.

(** ** More on the metric registry *)

Lemma With_own_keys (pkg : Package) (name : string) (labels : gmap string string) :
  forallb (validLabelValue pkg) (labelValues labels) = true ->
  With pkg (NewGaugeVec name (map fst (map_to_list labels))) labels
    = Normal (labelValues labels).
Proof.
  intros Hvalid. unfold With, labelValues in *. simpl.
  rewrite length_map, length_map_to_list, Nat.eqb_refl, Hvalid. simpl.
  assert (Hm : mapM (fun l => labels !! l) (map fst (map_to_list labels))
               = Some (map snd (map_to_list labels))).
  { apply mapM_Some. apply Forall2_fmap. apply Forall_Forall2_diag.
    apply Forall_forall. intros [k v] Hin. simpl.
    apply elem_of_map_to_list. exact Hin. }
  rewrite Hm. reflexivity.
Qed.

Lemma SetMetric_existing_frame
    (pkg : Package) (name : string) (labels : gmap string string) (value : float)
    (w : World) (gv : GaugeVec) (values : list string) :
  MetricVecs w !! name = Some gv ->
  With pkg gv labels = Normal values ->
  exists w',
    SetMetric pkg name labels value w = (Normal None, w') /\
    gaugeValue w' name values = Some value /\
    (forall n vs, (n, vs) <> (name, values) -> gaugeValue w' n vs = gaugeValue w n vs) /\
    Registry w' = Registry w /\ history w' = history w /\ redis w' = redis w.
Proof.
  intros Hgv Hwith. unfold SetMetric. rewrite Hgv, Hwith.
  eexists. split; [reflexivity |]. unfold gaugeValue. simpl.
  rewrite lookup_insert_eq. simpl. rewrite lookup_insert_eq.
  split; [reflexivity |]. split; [| auto].
  intros n vs Hne. destruct (decide (n = name)) as [-> | Hn].
  - rewrite lookup_insert_eq, Hgv. simpl.
    apply lookup_insert_ne. congruence.
  - rewrite lookup_insert_ne by congruence. reflexivity.
Qed.

(** X1.  On a name that already has a vector whose label names fit the
    labels, [SetMetric] returns nil, sets the gauge of these labels to the
    value, and leaves every other gauge, every other vector, the registry
    and the history as they were. *)
Theorem SetMetric_upsert_frame
    (pkg : Package) (name : string) (labels : gmap string string) (value : float)
    (w : World) (gv : GaugeVec) (values : list string) :
  MetricVecs w !! name = Some gv ->
  With pkg gv labels = Normal values ->
  exists w',
    SetMetric pkg name labels value w = (Normal None, w') /\
    gaugeValue w' name values = Some value /\
    (forall n vs, (n, vs) <> (name, values) -> gaugeValue w' n vs = gaugeValue w n vs) /\
    Registry w' = Registry w /\ history w' = history w /\ redis w' = redis w.
Proof.
  exact (SetMetric_existing_frame pkg name labels value w gv values).
Qed.

(** X2.  Two calls of [SetMetric] for a name that has no vector yet, with
    the same labels: the first registers the vector and sets no gauge, the
    second sets the gauge to its own value.  The value of the first call is
    never recorded. *)
Theorem SetMetric_twice
    (pkg : Package) (name : string) (labels : gmap string string) (v1 v2 : float)
    (w : World) :
  MetricVecs w !! name = None ->
  validDesc pkg name (map fst (map_to_list labels)) = true ->
  name ∉ Registry w ->
  forallb (validLabelValue pkg) (labelValues labels) = true ->
  exists w1 w2,
    SetMetric pkg name labels v1 w = (Normal None, w1) /\
    (forall vs, gaugeValue w1 name vs = None) /\
    SetMetric pkg name labels v2 w1 = (Normal None, w2) /\
    gaugeValue w2 name (labelValues labels) = Some v2 /\
    (forall vs, vs <> labelValues labels -> gaugeValue w2 name vs = None).
Proof.
  intros Hnone Hdesc Hfresh Hvalid.
  destruct (SetMetric_first_use pkg name labels v1 w Hnone Hdesc Hfresh)
    as (w1 & Hrun1 & Hgv1 & _).
  pose proof (With_own_keys pkg name labels Hvalid) as Hwith.
  destruct (SetMetric_existing_frame pkg name labels v2 w1 _ _ Hgv1 Hwith)
    as (w2 & Hrun2 & Hvalue & Hframe & _).
  exists w1, w2. split; [exact Hrun1 |]. split.
  { intros vs. unfold gaugeValue. rewrite Hgv1. simpl. apply lookup_empty. }
  split; [exact Hrun2 |]. split; [exact Hvalue |].
  intros vs Hne. rewrite Hframe by congruence.
  unfold gaugeValue. rewrite Hgv1. simpl. apply lookup_empty.
Qed.

(** X3.  The label names of a vector are fixed by the first call for its
    name: a later call whose label map has another set of keys panics and
    changes nothing. *)
Theorem SetMetric_label_keys_fixed
    (pkg : Package) (name : string) (labels1 labels2 : gmap string string)
    (v1 v2 : float) (w : World) :
  MetricVecs w !! name = None ->
  validDesc pkg name (map fst (map_to_list labels1)) = true ->
  name ∉ Registry w ->
  dom labels2 <> dom labels1 ->
  exists w1,
    SetMetric pkg name labels1 v1 w = (Normal None, w1) /\
    exists reason, SetMetric pkg name labels2 v2 w1 = (Panicked reason, w1).
Proof.
  intros Hnone Hdesc Hfresh Hdom.
  destruct (SetMetric_first_use pkg name labels1 v1 w Hnone Hdesc Hfresh)
    as (w1 & Hrun1 & Hgv1 & _).
  exists w1. split; [exact Hrun1 |].
  unfold SetMetric. rewrite Hgv1. unfold With. simpl.
  destruct (Nat.eqb_spec (size labels2) (length (map fst (map_to_list labels1))))
    as [Hsize | Hsize]; simpl; [| eauto].
  destruct (forallb (validLabelValue pkg) (map snd (map_to_list labels2))); simpl;
    [| eauto].
  destruct (mapM (fun l => labels2 !! l) (map fst (map_to_list labels1)))
    as [values |] eqn:Hm; [| eauto].
  exfalso. apply Hdom.
  assert (Hsub : dom labels1 ⊆ dom labels2).
  { assert (Hall : Forall (fun l => is_Some (labels2 !! l)) (map fst (map_to_list labels1))).
    { apply (mapM_is_Some_1 (fun l => labels2 !! l)). rewrite Hm. eauto. }
    intros k Hk. apply elem_of_dom in Hk as [v Hv]. apply elem_of_dom.
    rewrite Forall_forall in Hall. apply Hall.
    apply list_elem_of_fmap. exists (k, v). split; [reflexivity |].
    apply elem_of_map_to_list. exact Hv. }
  rewrite length_map, length_map_to_list in Hsize.
  symmetry. apply set_eq. intros k. split; [apply Hsub |].
  intros Hk. destruct (decide (k ∈ dom labels1)) as [Hin | Hout]; [exact Hin |].
  exfalso.
  assert (Hlt : size (dom labels1) < size (dom labels2)).
  { apply subset_size. split; [exact Hsub |]. intros Hsup. apply Hout, Hsup, Hk. }
  rewrite !size_dom in Hlt. lia.
Qed.

(** X4.  [StartGaugeVector] forgets the vectors but not their registration:
    after it, [SetMetric] on a name that was registered before panics on the
    duplicate registration. *)
Theorem SetMetric_after_StartGaugeVector
    (pkg : Package) (name : string) (labels : gmap string string) (value : float)
    (w : World) :
  name ∈ Registry w ->
  validDesc pkg name (map fst (map_to_list labels)) = true ->
  exists w',
    StartGaugeVector w = (Normal tt, w') /\
    MetricVecs w' = ∅ /\
    SetMetric pkg name labels value w'
      = (Panicked "duplicate metrics collector registration attempted", w').
Proof.
  intros Hreg Hdesc. eexists. split; [reflexivity |]. split; [reflexivity |].
  unfold SetMetric, MustRegister. simpl. rewrite lookup_empty. simpl.
  rewrite Hdesc. simpl. rewrite decide_True by assumption. reflexivity.
Qed.

Lemma SetMetric_no_error pkg name labels value w r w' :
  SetMetric pkg name labels value w = (Normal r, w') ->
  r = None /\ history w' = history w /\ redis w' = redis w.
Proof.
  unfold SetMetric. destruct (MetricVecs w !! name) as [gv |].
  - destruct (With pkg gv labels); intros H; inversion H; subst; auto.
  - destruct (MustRegister pkg (Registry w) _); intros H; inversion H; subst; auto.
Qed.

(** ** The metrics of a reconcile *)

(** X5.  The only error [exposeRedisMetrics] returns is the failure to get
    the cluster identifier, wrapped; it then has touched no metric.  The
    error results of [SetMetric] and [SetMetricCurrentTime] never occur. *)
Theorem exposeRedisMetrics_only_error
    (pkg : Package) (instance : elasticache.ReplicationGroup) (w w' : World) (e : error) :
  exposeRedisMetrics pkg instance w = (Normal (Some e), w') ->
  exists clusterID cause,
    GetClusterID pkg (history w) = (clusterID, Some cause) /\
    e = WithMessage cause "failed to get cluster id" /\
    MetricVecs w' = MetricVecs w /\ Registry w' = Registry w /\
    history w' = history w ++ [GetClusterIDCall clusterID (Some cause)].
Proof.
  unfold exposeRedisMetrics, bind, getRedis, callGetClusterID, call. simpl.
  destruct (GetClusterID pkg (history w)) as [clusterID [cause |]] eqn:Hid; simpl.
  { intros H. inversion H; subst. exists clusterID, cause. auto. }
  unfold buildRedisInfoMetricLables, buildRedisGenericMetricLabels, bind.
  destruct (elasticache.ReplicationGroupId instance); simpl; [| discriminate].
  destruct (elasticache.Status instance) as [status |]; simpl; [| discriminate].
  unfold SetMetricCurrentTime, bind, timeNow. simpl.
  match goal with
  | |- context [SetMetric pkg ?n ?l ?v ?w0] =>
      destruct (SetMetric pkg n l v w0) as [[r |] w1] eqn:H1; [| discriminate]
  end.
  destruct (SetMetric_no_error _ _ _ _ _ _ _ H1) as (-> & _). simpl.
  destruct (negb (status =? "available")%string);
    match goal with
    | |- context [SetMetric pkg ?n ?l ?v ?w0] =>
        destruct (SetMetric pkg n l v w0) as [[r |] w2] eqn:H2; [| discriminate]
    end;
    destruct (SetMetric_no_error _ _ _ _ _ _ _ H2) as (-> & _); discriminate.
Qed.

(** X6.  When the vectors of the info and the availability metric exist and
    fit the labels of the resource, [exposeRedisMetrics] sets the
    availability gauge of the resource to 1 if the group's status is
    "available" and to 0 otherwise, sets the info gauge to the current time
    in seconds, and makes one call, for the cluster identifier. *)
Theorem exposeRedisMetrics_sets_gauges
    (pkg : Package) (instance : elasticache.ReplicationGroup) (w : World)
    (id status clusterID : string) (gvInfo gvAvail : GaugeVec)
    (infoValues availValues : list string) :
  elasticache.ReplicationGroupId instance = Some id ->
  elasticache.Status instance = Some status ->
  GetClusterID pkg (history w) = (clusterID, None) ->
  MetricVecs w !! defaultRedisInfoMetricName = Some gvInfo ->
  With pkg gvInfo (infoLabelsOf (redis w) id clusterID status) = Normal infoValues ->
  MetricVecs w !! defaultRedisAvailMetricName = Some gvAvail ->
  With pkg gvAvail (genericLabelsOf (redis w) id clusterID) = Normal availValues ->
  exists w',
    exposeRedisMetrics pkg instance w = (Normal None, w') /\
    history w' = history w ++ [GetClusterIDCall clusterID None] /\
    gaugeValue w' defaultRedisAvailMetricName availValues =
      Some (if decide (status = "available") then 1%float else 0%float) /\
    gaugeValue w' defaultRedisInfoMetricName infoValues =
      Some (PrimFloat.div
              (float64_of_int64
                 (UnixNano pkg (history w ++ [GetClusterIDCall clusterID None])))
              1e9%float).
Proof.
  intros Hid Hstatus Hcid HgvI HwI HgvA HwA.
  set (w0 := {| history := history w ++ [GetClusterIDCall clusterID None];
                MetricVecs := MetricVecs w; Registry := Registry w; redis := redis w |}).
  destruct (SetMetric_existing_frame pkg defaultRedisInfoMetricName
              (infoLabelsOf (redis w) id clusterID status)
              (PrimFloat.div
                 (float64_of_int64
                    (UnixNano pkg (history w ++ [GetClusterIDCall clusterID None])))
                 1e9%float)
              w0 gvInfo infoValues HgvI HwI)
    as (w1 & Hrun1 & Hval1 & Hframe1 & _ & Hh1 & Hr1).
  assert (HgvA1 : MetricVecs w1 !! defaultRedisAvailMetricName = Some gvAvail).
  { revert Hrun1. unfold SetMetric. simpl. rewrite HgvI, HwI.
    intros H. inversion H; subst. simpl. rewrite lookup_insert_ne by discriminate.
    exact HgvA. }
  set (v := if decide (status = "available") then 1%float else 0%float).
  destruct (SetMetric_existing_frame pkg defaultRedisAvailMetricName
              (genericLabelsOf (redis w) id clusterID) v w1 gvAvail availValues HgvA1 HwA)
    as (w2 & Hrun2 & Hval2 & Hframe2 & _ & Hh2 & Hr2).
  exists w2. split.
  { unfold exposeRedisMetrics, bind, getRedis, callGetClusterID, call. simpl.
    rewrite Hcid. simpl.
    unfold buildRedisInfoMetricLables, buildRedisGenericMetricLabels, bind.
    rewrite Hid, Hstatus. simpl.
    unfold SetMetricCurrentTime, bind, timeNow. simpl.
    fold w0. fold (genericLabelsOf (redis w) id clusterID).
    fold (infoLabelsOf (redis w) id clusterID status).
    rewrite Hrun1. simpl. subst v.
    destruct (String.eqb_spec status "available") as [Heq | Hne]; simpl.
    - rewrite decide_True in Hrun2 by assumption. rewrite Hrun2. reflexivity.
    - rewrite decide_False in Hrun2 by assumption. rewrite Hrun2. reflexivity. }
  split; [rewrite Hh2, Hh1; reflexivity |].
  split; [exact Hval2 |].
  rewrite Hframe2 by (intros H; inversion H). exact Hval1.
Qed.

(** ** Discovery *)

(** The polling loop of [getReplicationGroups], for any number of ticks
    left. *)
Lemma pollReplicationGroups_shape (cacheSvc : ElastiCacheAPI) (ticks : nat)
    (s : list (ptr elasticache.ReplicationGroup)) (w : World) :
  exists evs,
    history (snd (PollImmediate ticks (listingAttempt cacheSvc) s w)) = history w ++ evs /\
    ((exists failures rgs,
        fst (PollImmediate ticks (listingAttempt cacheSvc) s w) = Normal (rgs, None) /\
        evs = failures ++ [DescribeReplicationGroupsCall (Some rgs) None] /\
        Forall listingFailed failures /\ length failures <= ticks) \/
     (fst (PollImmediate ticks (listingAttempt cacheSvc) s w)
        = Normal (s, Some ErrWaitTimeout) /\
      Forall listingFailed evs /\ length evs = S ticks) \/
     (exists failures,
        fst (PollImmediate ticks (listingAttempt cacheSvc) s w)
          = Panicked nilDereference /\
        evs = failures ++ [DescribeReplicationGroupsCall None None] /\
        Forall listingFailed failures /\ length failures <= ticks)).
Proof.
  revert w. induction ticks as [| n IH]; intros w;
    cbn [PollImmediate]; unfold bind; rewrite !listingAttempt_run; cbv zeta;
    destruct (DescribeReplicationGroups cacheSvc (history w)) as [[out |] [e |]] eqn:Hd;
    cbn [ret fst snd history].
  - exists [DescribeReplicationGroupsCall (Some out) (Some e)].
    split; [reflexivity |]. right. left.
    split; [reflexivity |]. split; [repeat constructor | reflexivity].
  - exists [DescribeReplicationGroupsCall (Some out) None].
    split; [reflexivity |]. left. exists [], out.
    split; [reflexivity |]. split; [reflexivity |]. split; [constructor | simpl; lia].
  - exists [DescribeReplicationGroupsCall None (Some e)].
    split; [reflexivity |]. right. left.
    split; [reflexivity |]. split; [repeat constructor | reflexivity].
  - exists [DescribeReplicationGroupsCall None None].
    split; [reflexivity |]. right. right. exists [].
    split; [reflexivity |]. split; [reflexivity |]. split; [constructor | simpl; lia].
  - match goal with
    | |- context [PollImmediate n _ s ?w1] =>
        destruct (IH w1) as (evs & Hh & Hcases); cbn [history] in Hh
    end.
    exists (DescribeReplicationGroupsCall (Some out) (Some e) :: evs).
    split; [rewrite Hh, <- app_assoc; reflexivity |].
    destruct Hcases as [(failures & rgs & Hrun & -> & HF & Hlen)
                       | [(Hrun & HF & Hlen) | (failures & Hrun & -> & HF & Hlen)]].
    + left. exists (DescribeReplicationGroupsCall (Some out) (Some e) :: failures), rgs.
      split; [exact Hrun |]. split; [reflexivity |].
      split; [constructor; [exact I | assumption] | simpl; lia].
    + right. left. split; [exact Hrun |].
      split; [constructor; [exact I | assumption] | simpl; lia].
    + right. right.
      exists (DescribeReplicationGroupsCall (Some out) (Some e) :: failures).
      split; [exact Hrun |]. split; [reflexivity |].
      split; [constructor; [exact I | assumption] | simpl; lia].
  - exists [DescribeReplicationGroupsCall (Some out) None].
    split; [reflexivity |]. left. exists [], out.
    split; [reflexivity |]. split; [reflexivity |]. split; [constructor | simpl; lia].
  - match goal with
    | |- context [PollImmediate n _ s ?w1] =>
        destruct (IH w1) as (evs & Hh & Hcases); cbn [history] in Hh
    end.
    exists (DescribeReplicationGroupsCall None (Some e) :: evs).
    split; [rewrite Hh, <- app_assoc; reflexivity |].
    destruct Hcases as [(failures & rgs & Hrun & -> & HF & Hlen)
                       | [(Hrun & HF & Hlen) | (failures & Hrun & -> & HF & Hlen)]].
    + left. exists (DescribeReplicationGroupsCall None (Some e) :: failures), rgs.
      split; [exact Hrun |]. split; [reflexivity |].
      split; [constructor; [exact I | assumption] | simpl; lia].
    + right. left. split; [exact Hrun |].
      split; [constructor; [exact I | assumption] | simpl; lia].
    + right. right.
      exists (DescribeReplicationGroupsCall None (Some e) :: failures).
      split; [exact Hrun |]. split; [reflexivity |].
      split; [constructor; [exact I | assumption] | simpl; lia].
  - exists [DescribeReplicationGroupsCall None None].
    split; [reflexivity |]. right. right. exists [].
    split; [reflexivity |]. split; [reflexivity |]. split; [constructor | simpl; lia].
Qed.

(** X7.  [getReplicationGroups] retries every failed listing call in
    silence and returns the answer of the first call that succeeds, after at
    most [pollTicks] failures; its only error is the timeout of the poll,
    after [pollTicks + 1] failed calls and with a nil list; it makes no other
    call. *)
Theorem getReplicationGroups_result
    (pkg : Package) (cacheSvc : ElastiCacheAPI) (w w' : World)
    (rgs : list (ptr elasticache.ReplicationGroup)) (err : option error) :
  getReplicationGroups pkg cacheSvc w = (Normal (rgs, err), w') ->
  exists evs,
    history w' = history w ++ evs /\
    ((err = None /\
      exists failures,
        evs = failures ++ [DescribeReplicationGroupsCall (Some rgs) None] /\
        Forall listingFailed failures /\ length failures <= pollTicks pkg) \/
     (err = Some ErrWaitTimeout /\ rgs = [] /\
      Forall listingFailed evs /\ length evs = S (pollTicks pkg))).
Proof.
  rewrite getReplicationGroups_attempts. unfold bind at 1.
  destruct (pollReplicationGroups_shape cacheSvc (pollTicks pkg) [] w) as (evs & Hh & Hcases).
  destruct (PollImmediate (pollTicks pkg) (listingAttempt cacheSvc) [] w)
    as [[[got e] | reason] w1] eqn:Hpoll; cbn [fst snd] in Hh, Hcases; [| discriminate].
  destruct Hcases as [(failures & rgs0 & Hrun & -> & HF & Hlen)
                     | [(Hrun & HF & Hlen) | (failures & Hrun & _)]];
    inversion Hrun; subst; cbn [ret]; intros H; inversion H; subst;
    eexists; (split; [exact Hh |]); [left | right]; eauto 10.
Qed.

(** X8.  When every listing call fails, [getReplicationGroups] gives up
    after exactly [pollTicks + 1] calls and returns a nil list with the
    timeout error of the poll. *)
Theorem getReplicationGroups_timeout
    (pkg : Package) (cacheSvc : ElastiCacheAPI) (w : World) :
  (forall h, exists out e, DescribeReplicationGroups cacheSvc h = (out, Some e)) ->
  exists w' evs,
    getReplicationGroups pkg cacheSvc w = (Normal ([], Some ErrWaitTimeout), w') /\
    history w' = history w ++ evs /\
    Forall listingFailed evs /\ length evs = S (pollTicks pkg).
Proof.
  intros Hfail.
  assert (Hpoll : forall ticks s w0,
            exists w' evs,
              PollImmediate ticks (listingAttempt cacheSvc) s w0
                = (Normal (s, Some ErrWaitTimeout), w') /\
              history w' = history w0 ++ evs /\
              Forall listingFailed evs /\ length evs = S ticks).
  { induction ticks as [| n IH]; intros s0 w0;
      cbn [PollImmediate]; unfold bind at 1; rewrite listingAttempt_run; cbv zeta;
      destruct (Hfail (history w0)) as (out & e & ->).
    - destruct out; cbn [ret fst snd];
        (eexists _, [_]; split; [reflexivity |]; split; [reflexivity |];
         split; [repeat constructor | reflexivity]).
    - destruct out; cbn [ret fst snd];
        match goal with
        | |- context [PollImmediate n _ s0 ?w1] =>
            destruct (IH s0 w1) as (w' & evs & Hrun & Hh & HF & Hlen);
            cbn [history] in Hh
        end;
        eexists w', (_ :: evs);
        (split; [exact Hrun |]); (split; [rewrite Hh, <- app_assoc; reflexivity |]);
        (split; [constructor; [exact I | assumption] | simpl; lia]). }
  destruct (Hpoll (pollTicks pkg) [] w) as (w' & evs & Hrun & Hh & HF & Hlen).
  exists w', evs. rewrite getReplicationGroups_attempts. unfold bind at 1.
  rewrite Hrun. auto.
Qed.

(** X9.  On a listing without nil entries and nil identifiers, and with a
    configured identifier, the lookup of the create and delete paths does not
    panic and returns the first listed group with that identifier, or no
    group when none has it. *)
Theorem findCache_first_match
    (groups : list elasticache.ReplicationGroup) (want : string) (w : World) :
  Forall (fun g => elasticache.ReplicationGroupId g <> None) groups ->
  findCache (map Some groups) (Some want) w
    = (Normal (List.find (hasIdentifier want) groups), w).
Proof.
  induction groups as [| g rest IH]; intros Hids; [reflexivity |].
  inversion Hids as [| ? ? Hg Hrest]; subst.
  cbn [map findCache List.find]. unfold bind, hasIdentifier. cbn [deref ret].
  destruct (elasticache.ReplicationGroupId g) as [id |]; [| contradiction].
  cbn [deref ret]. destruct (id =? want)%string; [reflexivity |].
  rewrite IH by assumption. reflexivity.
Qed.

(** ** The runs of the tagging subsystem *)

Lemma tagSnapshots_run cacheSvc zone account tags snapshots w res w' :
  tagSnapshots cacheSvc (regionOf zone) account tags snapshots w = (res, w') ->
  exists calls,
    history w' = history w ++ calls /\
    Forall (tagsSnapshot tags zone account) calls /\
    match res with
    | Normal None =>
        exists names,
          mapM snapshotNameOf snapshots = Some names /\
          calls = map (snapshotTagCall tags zone account None) names
    | Normal (Some result) =>
        exists e, result = ("failed to add tags to aws elasticache snapshot", Some e)
    | Panicked _ => True
    end.
Proof.
  revert w. induction snapshots as [| s rest IH]; intros w; cbn [tagSnapshots].
  - finish. exists []. rewrite app_nil_r. repeat split; [constructor |].
    exists []. split; reflexivity.
  - unfold bind at 1 2 3. destruct s as [s |]; cbn [deref ret panic].
    2:{ finish. exists []. rewrite app_nil_r. repeat split. constructor. }
    destruct (elasticache.SnapshotName s) as [name |] eqn:Ename; cbn [deref ret panic].
    2:{ finish. exists []. rewrite app_nil_r. repeat split. constructor. }
    unfold call. cbn [fst snd].
    match goal with
    | |- context [AddTagsToResource cacheSvc ?h ?a tags] =>
        destruct (AddTagsToResource cacheSvc h a tags) as [e |] eqn:Eadd
    end.
    + cbn [ret]. finish. exists [snapshotTagCall tags zone account (Some e) name].
      simpl. repeat split; [| eauto].
      repeat constructor. exists name, (Some e). reflexivity.
    + intros Hrun. destruct (IH _ Hrun) as (calls & Hh & HF & Hres). simpl in Hh.
      exists (snapshotTagCall tags zone account None name :: calls).
      split; [rewrite Hh, <- app_assoc; reflexivity |].
      split; [constructor; [exists name, None; reflexivity | assumption] |].
      destruct res as [[result |] |]; try assumption.
      destruct Hres as (names & Hnames & ->).
      exists (name :: names). split; [| reflexivity].
      cbn [mapM snapshotNameOf]. rewrite Ename. simpl. rewrite Hnames. reflexivity.
Qed.

Lemma nodeTags_eq pkg r clusterID :
  (if negb (String.eqb (default "" (Labels (Meta r) !! "productName")) "") then
     [ {| elasticache.Key := Some (GetOrganizationTag pkg +:+ "clusterID");
          elasticache.Value := Some clusterID |};
       {| elasticache.Key := Some (GetOrganizationTag pkg +:+ "resource-type");
          elasticache.Value := Some (SpecType r) |};
       {| elasticache.Key := Some (GetOrganizationTag pkg +:+ "resource-name");
          elasticache.Value := Some (Name (Meta r)) |} ] ++
     [ {| elasticache.Key := Some (GetOrganizationTag pkg +:+ "product-name");
          elasticache.Value := Some (default "" (Labels (Meta r) !! "productName")) |} ]
   else
     [ {| elasticache.Key := Some (GetOrganizationTag pkg +:+ "clusterID");
          elasticache.Value := Some clusterID |};
       {| elasticache.Key := Some (GetOrganizationTag pkg +:+ "resource-type");
          elasticache.Value := Some (SpecType r) |};
       {| elasticache.Key := Some (GetOrganizationTag pkg +:+ "resource-name");
          elasticache.Value := Some (Name (Meta r)) |} ])
  = nodeTags pkg r clusterID.
Proof.
  unfold nodeTags.
  destruct (Labels (Meta r) !! "productName") as [name |]; cbv [default from_option id].
  - destruct (String.eqb_spec name "") as [-> | Hne]; cbn [negb].
    + rewrite decide_True by reflexivity. reflexivity.
    + rewrite decide_False by assumption. reflexivity.
  - reflexivity.
Qed.

Lemma dropLastByte_run zone w res w' :
  dropLastByte zone w = (res, w') ->
  w' = w /\ (res = Normal (regionOf zone) \/ exists reason, res = Panicked reason).
Proof.
  unfold dropLastByte, regionOf.
  destruct (String.length zone) as [| n]; cbn [ret panic]; finish; split; eauto.
  left. rewrite Nat.sub_succ, Nat.sub_0_r. reflexivity.
Qed.

Ltac no_tags :=
  finish; eexists; split; [history_eq |];
  apply TagNothing; [repeat constructor; simpl; tauto | intros ? ?; discriminate].

Lemma TagElasticacheNode_run pkg cacheSvc stsSvc stratCfg cache w res w' :
  TagElasticacheNode pkg cacheSvc stsSvc stratCfg cache w = (res, w') ->
  exists evs, history w' = history w ++ evs /\ TagRun pkg (redis w) cache res evs.
Proof.
  unfold TagElasticacheNode. unfold bind, getRedis, callGetClusterID, call.
  cbv beta iota.
  destruct cache as [node |]; cbn [deref ret panic fst snd]; [| no_tags].
  destruct (DescribeCacheClusters cacheSvc (history w) (elasticache.CacheClusterId node))
    as [out [e |]] eqn:Edesc; cbn [deref ret panic fst snd]; [no_tags |].
  destruct out as [clusters |]; cbn [deref ret panic fst snd]; [| no_tags].
  destruct clusters as [| [first |] rest]; cbn [index0 deref ret panic fst snd];
    [no_tags | | no_tags].
  destruct (elasticache.CacheClusterStatus first) as [clusterStatus |] eqn:Estatus;
    cbn [deref ret panic fst snd]; [| no_tags].
  destruct (String.eqb_spec clusterStatus "available") as [-> | Hne]; cbn [negb].
  2:{ destruct (elasticache.CacheClusterId node) as [id |] eqn:Eid;
        cbn [deref ret panic fst snd Wrap]; [| no_tags].
      finish. eexists. split; [history_eq |].
      apply TagNothing; [repeat constructor; simpl; tauto |].
      intros msg Hmsg. inversion Hmsg; subst.
      exists node, id, first, rest, clusterStatus. auto 10. }
  match goal with
  | |- context [GetCallerIdentity stsSvc ?h] =>
      destruct (GetCallerIdentity stsSvc h) as [idOut [e |]] eqn:Eident
  end; cbn [deref ret panic fst snd]; [no_tags |].
  destruct (elasticache.PreferredAvailabilityZone node) as [zone |] eqn:Ezone;
    cbn [deref ret panic fst snd]; [| no_tags].
  match goal with
  | |- context [dropLastByte zone ?w0] =>
      destruct (dropLastByte zone w0) as [region w1] eqn:Edrop;
      destruct (dropLastByte_run _ _ _ _ Edrop) as (-> & [-> | (reason & ->)])
  end; cbv beta iota; [| no_tags].
  destruct idOut as [[account |] |]; cbn [deref ret panic fst snd]; [| no_tags | no_tags].
  destruct (elasticache.CacheClusterId node) as [id |] eqn:Eid;
    cbn [deref ret panic fst snd history]; [| no_tags].
  match goal with
  | |- context [GetClusterID pkg ?h] =>
      destruct (GetClusterID pkg h) as [clusterID [e |]] eqn:Ecid
  end; cbn [deref ret panic fst snd history redis]; [no_tags |].
  rewrite (nodeTags_eq pkg (redis w) clusterID).
  assert (Havail : describedAvailable (Some first :: rest)) by (exists first, rest; auto).
  match goal with
  | |- context [AddTagsToResource cacheSvc ?h ?a ?t] =>
      destruct (AddTagsToResource cacheSvc h a t) as [e |] eqn:Eadd
  end; cbn [deref ret panic fst snd history redis].
  { finish. eexists. split; [history_eq |].
    apply (TagNodeFailed pkg (redis w) _ node id zone _ account clusterID e); auto. }
  match goal with
  | |- context [DescribeSnapshots cacheSvc ?h id] =>
      destruct (DescribeSnapshots cacheSvc h id) as [snapOut serr] eqn:Esnap
  end; cbn [deref ret panic fst snd history redis].
  destruct snapOut as [snapshots |]; cbn [deref ret panic fst snd history redis].
  2:{ finish. eexists. split; [history_eq |].
      apply (TagNodeDone pkg (redis w) _ node id zone _ account clusterID None serr []);
        auto.
      intros ? ?; discriminate. }
  match goal with
  | |- context [tagSnapshots ?a ?b ?c ?d ?e ?w0] =>
      destruct (tagSnapshots a b c d e w0) as [early w2] eqn:Etag;
      destruct (tagSnapshots_run _ _ _ _ _ _ _ _ Etag) as (calls & Hh & HF & Hearly)
  end.
  simpl in Hh.
  destruct early as [[result |] | reason]; cbn [ret]; finish;
    (eexists; split; [rewrite Hh, <- !app_assoc; reflexivity |]);
    apply (TagNodeDone pkg (redis w) _ node id zone _ account clusterID
             (Some snapshots) serr calls); auto.
  - intros msg Hmsg. destruct Hearly as (e & ->). discriminate.
  - intros msg Hmsg. inversion Hmsg; subst. split; [reflexivity |].
    destruct Hearly as (names & Hnames & ->). eauto.
  - intros ? ?; discriminate.
Qed.

(** X10.  Every call by which [TagElasticacheNode] adds tags comes after the
    node was described as available and the account and the cluster
    identifier were retrieved; it carries the tags of the resource (cluster
    identifier, resource type, resource name, and the product name exactly
    when the resource has a non-empty productName label), the same for the
    node and for each of its snapshots; and it names the node or one of its
    snapshots, in the region of the node's availability zone and the
    caller's account. *)
Theorem tag_calls_carry_resource_tags
    (pkg : Package) (cacheSvc : ElastiCacheAPI) (stsSvc : STSAPI)
    (stratCfg : StrategyConfig) (cache : ptr elasticache.NodeGroupMember)
    (w w' : World) (res : outcome (StatusMessage * option error)) (evs : list Event)
    (arn : string) (tags : list elasticache.Tag) (err : option error) :
  TagElasticacheNode pkg cacheSvc stsSvc stratCfg cache w = (res, w') ->
  history w' = history w ++ evs ->
  In (AddTagsToResourceCall arn tags err) evs ->
  exists node id zone clusters account clusterID rest,
    cache = Some node /\
    elasticache.CacheClusterId node = Some id /\
    elasticache.PreferredAvailabilityZone node = Some zone /\
    describedAvailable clusters /\
    evs = tagPreamble id clusters account clusterID ++ rest /\
    In (AddTagsToResourceCall arn tags err) rest /\
    tags = nodeTags pkg (redis w) clusterID /\
    (arn = clusterArn zone account id \/ exists name, arn = snapshotArn zone account name).
Proof.
  intros Hrun Hh Hin.
  destruct (TagElasticacheNode_run _ _ _ _ _ _ _ _ Hrun) as (evs0 & Hh0 & Hshape).
  rewrite Hh in Hh0. apply app_inv_head in Hh0. subst evs0.
  destruct Hshape
    as [res evs HF _
       | node id zone clusters account clusterID e Hc Hid Hzone Hav
       | node id zone clusters account clusterID out serr calls res Hc Hid Hzone Hav HF _].
  - exfalso. rewrite Forall_forall in HF. apply list_elem_of_In in Hin.
    apply (HF _ Hin). exact I.
  - exists node, id, zone, clusters, account, clusterID. eexists.
    repeat (split; [eassumption || reflexivity |]).
    simpl in Hin. destruct Hin as [Hin | [Hin | [Hin | [Hin | []]]]]; try discriminate.
    inversion Hin; subst. split; [left; reflexivity |]. split; [reflexivity | auto].
  - exists node, id, zone, clusters, account, clusterID. eexists.
    repeat (split; [eassumption || reflexivity |]).
    simpl in Hin.
    destruct Hin as [Hin | [Hin | [Hin | [Hin | [Hin | Hin]]]]]; try discriminate.
    + inversion Hin; subst. split; [left; reflexivity |]. split; [reflexivity | auto].
    + split; [right; right; assumption |].
      rewrite Forall_forall in HF. pose proof Hin as Hin'.
      apply list_elem_of_In, HF in Hin'. destruct Hin' as (name & err' & Heq).
      inversion Heq; subst. split; [reflexivity | eauto].
Qed.

(** X11.  When [TagElasticacheNode] returns without error, either the node
    was described as not available and nothing was tagged, or the node was
    tagged and, after it, every listed snapshot, in the order of the
    listing, each call succeeding; the message is then "successfully
    created and tagged". *)
Theorem tagging_without_error_tags_everything
    (pkg : Package) (cacheSvc : ElastiCacheAPI) (stsSvc : STSAPI)
    (stratCfg : StrategyConfig) (cache : ptr elasticache.NodeGroupMember)
    (w w' : World) (msg : StatusMessage) (evs : list Event) :
  TagElasticacheNode pkg cacheSvc stsSvc stratCfg cache w = (Normal (msg, None), w') ->
  history w' = history w ++ evs ->
  (exists node id first rest status,
     cache = Some node /\
     elasticache.CacheClusterId node = Some id /\
     evs = [DescribeCacheClustersCall (Some id) (Some (Some first :: rest)) None] /\
     elasticache.CacheClusterStatus first = Some status /\
     status <> "available" /\
     msg = id +:+ " status is " +:+ status +:+ ", skipping adding tags") \/
  (msg = "successfully created and tagged" /\
   exists node id zone clusters account clusterID snapshots serr names,
     cache = Some node /\
     elasticache.CacheClusterId node = Some id /\
     elasticache.PreferredAvailabilityZone node = Some zone /\
     describedAvailable clusters /\
     mapM snapshotNameOf snapshots = Some names /\
     evs = tagPreamble id clusters account clusterID
           ++ AddTagsToResourceCall (clusterArn zone account id)
                (nodeTags pkg (redis w) clusterID) None
              :: DescribeSnapshotsCall id (Some snapshots) serr
              :: map (snapshotTagCall (nodeTags pkg (redis w) clusterID) zone account None)
                   names).
Proof.
  intros Hrun Hh.
  destruct (TagElasticacheNode_run _ _ _ _ _ _ _ _ Hrun) as (evs0 & Hh0 & Hshape).
  rewrite Hh in Hh0. apply app_inv_head in Hh0. subst evs0.
  remember (Normal (msg, None)) as res eqn:Hres.
  destruct Hshape
    as [res evs HF Hskip
       | node id zone clusters account clusterID e Hc Hid Hzone Hav
       | node id zone clusters account clusterID out serr calls res Hc Hid Hzone Hav HF Hok].
  - left. apply Hskip. assumption.
  - discriminate.
  - right. destruct (Hok msg Hres) as (-> & snapshots & names & -> & Hnames & ->).
    split; [reflexivity |].
    exists node, id, zone, clusters, account, clusterID, snapshots, serr, names. auto 10.
Qed.

Lemma TagRun_tags pkg r cache res evs arn tags err :
  TagRun pkg r cache res evs ->
  In (AddTagsToResourceCall arn tags err) evs ->
  exists clusterID, tags = nodeTags pkg r clusterID.
Proof.
  intros Hshape Hin.
  destruct Hshape
    as [res evs HF _
       | node id zone clusters account clusterID e Hc Hid Hzone Hav
       | node id zone clusters account clusterID out serr calls res Hc Hid Hzone Hav HF _].
  - exfalso. rewrite Forall_forall in HF. apply list_elem_of_In in Hin.
    apply (HF _ Hin). exact I.
  - simpl in Hin. destruct Hin as [Hin | [Hin | [Hin | [Hin | []]]]]; try discriminate.
    inversion Hin; subst. eauto.
  - simpl in Hin.
    destruct Hin as [Hin | [Hin | [Hin | [Hin | [Hin | Hin]]]]]; try discriminate.
    + inversion Hin; subst. eauto.
    + rewrite Forall_forall in HF.
      apply list_elem_of_In, HF in Hin. destruct Hin as (name & err' & Heq).
      inversion Heq; subst. eauto.
Qed.

Lemma TagElasticacheNode_nodeTagging pkg cacheSvc stsSvc stratCfg cache w :
  exists evs,
    history (snd (TagElasticacheNode pkg cacheSvc stsSvc stratCfg cache w))
      = history w ++ evs /\
    Forall (nodeTagging pkg (redis w)) evs /\
    redis (snd (TagElasticacheNode pkg cacheSvc stsSvc stratCfg cache w)) = redis w.
Proof.
  destruct (emits_TagElasticacheNode pkg cacheSvc stsSvc stratCfg cache w)
    as (evs & Hh & HF & Hr).
  exists evs. split; [assumption | split; [| assumption]].
  destruct (TagElasticacheNode pkg cacheSvc stsSvc stratCfg cache w) as [res w'] eqn:Hrun.
  simpl in Hh.
  destruct (TagElasticacheNode_run _ _ _ _ _ _ _ _ Hrun) as (evs0 & Hh0 & Hshape).
  rewrite Hh in Hh0. apply app_inv_head in Hh0. subst evs0.
  rewrite Forall_forall in *. intros e He. split; [auto |].
  destruct e; try exact I.
  apply list_elem_of_In in He. eapply TagRun_tags; eassumption.
Qed.

Lemma tagNodeGroupMembers_nodeTagging pkg cacheSvc stsSvc stratCfg members w :
  exists evs,
    history (snd (tagNodeGroupMembers pkg cacheSvc stsSvc stratCfg members w))
      = history w ++ evs /\
    Forall (nodeTagging pkg (redis w)) evs /\
    redis (snd (tagNodeGroupMembers pkg cacheSvc stsSvc stratCfg members w)) = redis w.
Proof.
  revert w. induction members as [| cache rest IH]; intros w; cbn [tagNodeGroupMembers].
  - exists []. simpl. rewrite app_nil_r. auto.
  - unfold bind.
    destruct (TagElasticacheNode_nodeTagging pkg cacheSvc stsSvc stratCfg cache w)
      as (evs1 & Hh1 & HF1 & Hr1).
    destruct (TagElasticacheNode pkg cacheSvc stsSvc stratCfg cache w)
      as [[[msg [e |]] | reason] w1]; simpl in Hh1, Hr1; cbv beta iota.
    + exists evs1. auto.
    + destruct (IH w1) as (evs2 & Hh2 & HF2 & Hr2).
      exists (evs1 ++ evs2). rewrite Hh2, Hh1, Hr2, Hr1, app_assoc.
      split; [reflexivity | split; [| reflexivity]].
      apply Forall_app. rewrite Hr1 in HF2. auto.
    + exists evs1. auto.
Qed.

(** ** The outcomes of a create tick *)

Lemma tagNodeGroupMembers_early pkg cacheSvc stsSvc stratCfg members w result w' :
  tagNodeGroupMembers pkg cacheSvc stsSvc stratCfg members w = (Normal (Some result), w') ->
  fst (fst result) = None.
Proof.
  revert w. induction members as [| cache rest IH]; intros w; cbn [tagNodeGroupMembers].
  - discriminate.
  - unfold bind at 1.
    destruct (TagElasticacheNode pkg cacheSvc stsSvc stratCfg cache w)
      as [[[msg [e |]] | reason] w1]; cbn [ret].
    + intros H. inversion H; subst. reflexivity.
    + apply IH.
    + discriminate.
Qed.

Lemma CreateElastiCacheAvailabilityAlert_result p id clusterID w :
  exists err w',
    CreateElastiCacheAvailabilityAlert p id clusterID w
      = (Normal (alertCreateResult id err), w') /\
    err = Create (Client p) (history w) (availabilityAlertRule (redis w) id clusterID) /\
    history w' =
      history w ++ [ClientCreateCall (availabilityAlertRule (redis w) id clusterID) err] /\
    redis w' = redis w /\ MetricVecs w' = MetricVecs w /\ Registry w' = Registry w.
Proof.
  unfold CreateElastiCacheAvailabilityAlert, bind, getRedis, call. simpl.
  match goal with
  | |- context [Create (Client p) ?h ?r] => destruct (Create (Client p) h r) as [e |] eqn:Ec
  end.
  - unfold alertCreateResult.
    destruct (IsAlreadyExists e) eqn:Ee; eexists (Some e), _; simpl; rewrite ?Ee;
      repeat split; try reflexivity; unfold availabilityAlertRule; simpl; rewrite Ec;
      reflexivity.
  - eexists None, _. simpl. repeat split; try reflexivity.
    unfold availabilityAlertRule; simpl; rewrite Ec; reflexivity.
Qed.

Lemma alertCreateResult_None id err : alertCreateResult id err = None -> alertAccepted err.
Proof.
  destruct err as [e |]; simpl; [| auto]. destruct (IsAlreadyExists e); [auto | discriminate].
Qed.

Ltac quiet_outcome :=
  finish; eexists; split;
  [history_eq | apply CreateQuiet; [rewrite ?Forall_app; auto | exact I]].

Ltac alerted found cfg' w2 id clusterID pre aerr :=
  finish; (eexists; split; [history_eq |]);
  eapply (CreateAlerted _ _ _ _ found cfg' w2 clusterID id pre aerr);
  [assumption | assumption | assumption | exact I].

Ltac tagged found cfg' w2 id clusterID pre aerr w6 ng ngs :=
  finish; (eexists; split; [history_eq |]);
  eapply (CreateTagged _ _ _ _ found cfg' w2 clusterID id pre aerr w6 ng ngs);
  try assumption;
  try match goal with
      | H : redis _ = redis _ |- Forall _ _ => rewrite <- H; assumption
      end;
  left; exact I.

Lemma createElasticacheCluster_outcome pkg p cacheSvc stsSvc cfg stratCfg w res w' :
  createElasticacheCluster pkg p cacheSvc stsSvc cfg stratCfg w = (res, w') ->
  exists evs, history w' = history w ++ evs /\ CreateTick pkg cacheSvc cfg w res evs.
Proof.
  unfold createElasticacheCluster, bind.
  run_sub (emits_getReplicationGroups pkg cacheSvc) w a w1 E1; [| quiet_outcome].
  destruct a as [rgs [e |]]; [quiet_outcome |].
  run_sub (emits_buildElasticacheCreateStrategy pkg cfg) w1 a w2 E2; [| quiet_outcome].
  destruct a as [cfg' [e |]]; [quiet_outcome |].
  pose proof (findCache_world rgs (CreateReplicationGroupInput.ReplicationGroupId cfg') w2)
    as Hfw.
  destruct (findCache rgs (CreateReplicationGroupInput.ReplicationGroupId cfg') w2)
    as [[[found |] | reason] w2'] eqn:E3; simpl in Hfw; subst w2'; [| | quiet_outcome].
  2:{ unfold call. cbn [fst snd].
      assert (Hobs : observedOnCreate pkg cacheSvc cfg w None cfg' w2)
        by (exists rgs, w1; auto).
      destruct (CreateReplicationGroup cacheSvc (history w2) cfg') as [e |] eqn:Ec;
        cbn [ret]; finish; (eexists; split; [history_eq |]); rewrite app_assoc;
        [apply (CreateIssued _ _ _ _ cfg' w2 _ (Some e))
        | apply (CreateIssued _ _ _ _ cfg' w2 _ None)];
        auto; rewrite ?Forall_app; auto. }
  destruct (findCache_found _ _ _ _ _ E3) as (Hid & id & Hwanted).
  rewrite Hwanted in Hid.
  run_sub (emits_setRedisServiceMaintenanceMetric pkg cacheSvc found) w2 a w3 E4;
    [| quiet_outcome].
  destruct a as [e |]; [quiet_outcome |].
  run_sub (emits_exposeRedisMetrics pkg found) w3 a w4 E5; [| quiet_outcome].
  destruct a as [e |]; [quiet_outcome |].
  destruct (elasticache.Status found) as [status |] eqn:Estatus; cbn [deref ret panic];
    [| quiet_outcome].
  destruct (String.eqb_spec status "available") as [-> | Hne]; cbn [negb];
    [| quiet_outcome].
  run_sub (emits_callGetClusterID pkg) w4 a w5 E6; [| quiet_outcome].
  destruct a as [clusterID [e |]]; [quiet_outcome |].
  rewrite Hid. cbn [deref ret].
  assert (Hobs : reachesAlertOnCreate pkg cacheSvc cfg w found cfg' w2 clusterID)
    by (split; [exists rgs, w1; auto | split; [assumption | eauto 10]]).
  assert (Hpre : exists pre, history w5 = history w ++ pre /\ Forall quiet pre)
    by (eexists; split; [history_eq | rewrite ?Forall_app; auto 10]).
  destruct Hpre as (pre & Hpre & HFpre).
  assert (Hredis : redis w5 = redis w) by congruence.
  clear Hh Hh0 Hh1 Hh2 Hh3 Hr Hr0 Hr1 Hr2 Hr3.
  destruct (CreateElastiCacheAvailabilityAlert_result p id clusterID w5)
    as (aerr & w6 & E7 & _ & Hh7 & Hr7 & _).
  rewrite E7. cbv beta iota. rewrite Hredis in Hh7.
  destruct (alertCreateResult id aerr) as [e |] eqn:Eares; cbn [ret];
    [alerted found cfg' w2 id clusterID pre aerr |].
  apply alertCreateResult_None in Eares.
  pose proof (buildElasticacheUpdateStrategy_world cfg' found w6) as Hbw.
  destruct (buildElasticacheUpdateStrategy cfg' found w6) as [[[ec |] | reason] w6'] eqn:E8;
    simpl in Hbw; subst w6'.
  - unfold call. cbn [fst snd].
    match goal with
    | |- context [ModifyReplicationGroup cacheSvc ?h ec] =>
        destruct (ModifyReplicationGroup cacheSvc h ec) as [e |] eqn:Em
    end; cbn [ret]; finish; (eexists; split; [history_eq |]); cbn [app];
      [eapply (CreateModified _ _ _ _ found cfg' w2 clusterID id pre aerr ec w6 (Some e))
      | eapply (CreateModified _ _ _ _ found cfg' w2 clusterID id pre aerr ec w6 None)];
      assumption.
  - destruct (elasticache.NodeGroups found) as [| [ng |] ngs] eqn:Engs;
      cbn [index0 deref ret panic];
      [alerted found cfg' w2 id clusterID pre aerr
      | | alerted found cfg' w2 id clusterID pre aerr].
    destruct (elasticache.NodeGroupStatus ng) as [nodeStatus |] eqn:Ens;
      cbn [index0 deref ret panic]; [| alerted found cfg' w2 id clusterID pre aerr].
    destruct (String.eqb_spec nodeStatus "available") as [-> | Hnode]; cbn [negb];
      [| alerted found cfg' w2 id clusterID pre aerr].
    assert (Hr6 : redis w6 = redis w) by congruence.
    clear Hr7 Hredis.
    run_sub (tagNodeGroupMembers_nodeTagging pkg cacheSvc stsSvc stratCfg
               (elasticache.NodeGroupMembers ng)) w6 a w7 E9;
      [| tagged found cfg' w2 id clusterID pre aerr w6 ng ngs].
    destruct a as [result |].
    { pose proof (tagNodeGroupMembers_early _ _ _ _ _ _ _ _ E9) as Hnone.
      destruct result as [[cluster msg] err]. simpl in Hnone. subst cluster.
      cbn [ret]. tagged found cfg' w2 id clusterID pre aerr w6 ng ngs. }
    destruct (elasticache.PrimaryEndpoint ng) as [endpoint |] eqn:Eep;
      cbn [index0 deref ret panic]; [| tagged found cfg' w2 id clusterID pre aerr w6 ng ngs].
    destruct (elasticache.Address endpoint) as [address |] eqn:Eaddr;
      cbn [index0 deref ret panic]; [| tagged found cfg' w2 id clusterID pre aerr w6 ng ngs].
    destruct (elasticache.Port endpoint) as [port |] eqn:Eport;
      cbn [index0 deref ret panic]; [| tagged found cfg' w2 id clusterID pre aerr w6 ng ngs].
    finish. eexists. split; [history_eq |].
    eapply (CreateTagged _ _ _ _ found cfg' w2 clusterID id pre aerr w6 ng ngs); eauto.
    + rewrite <- Hr6. assumption.
    + right. exists endpoint, address, port. auto.
  - alerted found cfg' w2 id clusterID pre aerr.
Qed.

Lemma observedOnCreate_history pkg cacheSvc cfg w found cfg' w2 :
  observedOnCreate pkg cacheSvc cfg w found cfg' w2 ->
  exists pre, history w2 = history w ++ pre /\ Forall quiet pre /\ redis w2 = redis w.
Proof.
  intros (rgs & w1 & E1 & E2 & _).
  destruct (emits_getReplicationGroups pkg cacheSvc w) as (evs1 & H1 & F1 & R1).
  destruct (emits_buildElasticacheCreateStrategy pkg cfg w1) as (evs2 & H2 & F2 & R2).
  rewrite E1 in H1, R1. rewrite E2 in H2, R2. simpl in *.
  exists (evs1 ++ evs2). rewrite H2, H1, R2, R1, app_assoc.
  split; [reflexivity | split; [apply Forall_app; auto | reflexivity]].
Qed.

Lemma createElasticacheCluster_absent pkg p cacheSvc stsSvc cfg stratCfg w cfg' w2 :
  observedOnCreate pkg cacheSvc cfg w None cfg' w2 ->
  let err := CreateReplicationGroup cacheSvc (history w2) cfg' in
  createElasticacheCluster pkg p cacheSvc stsSvc cfg stratCfg w =
    (Normal (afterRemoteCreate err),
     {| history := history w2 ++ [CreateReplicationGroupCall cfg' err];
        MetricVecs := MetricVecs w2; Registry := Registry w2; redis := redis w2 |}).
Proof.
  intros (rgs & w1 & E1 & E2 & E3).
  unfold createElasticacheCluster, bind. rewrite E1. cbv beta iota. rewrite E2.
  cbv beta iota. rewrite E3. cbv beta iota. unfold call. cbn [fst snd].
  destruct (CreateReplicationGroup cacheSvc (history w2) cfg'); reflexivity.
Qed.

Lemma quiet_not_remote_change (pre : list Event) :
  Forall quiet pre -> Forall (fun e => ~ isRemoteChange e) pre.
Proof.
  intros HF. eapply Forall_impl; [exact HF |]. intros [] Hq; simpl in *; tauto.
Qed.

Lemma tagging_not_remote_change (l : list Event) :
  Forall tagging l -> Forall (fun e => ~ isRemoteChange e) l.
Proof.
  intros HF. eapply Forall_impl; [exact HF |]. intros [] Hq; simpl in *; tauto.
Qed.

Lemma nodeTagging_tagging pkg r (l : list Event) :
  Forall (nodeTagging pkg r) l -> Forall tagging l.
Proof.
  intros HF. eapply Forall_impl; [exact HF |]. intros e [He _]. exact He.
Qed.

Lemma quiet_createEvent (l : list Event) : Forall quiet l -> Forall createEvent l.
Proof.
  intros HF. eapply Forall_impl; [exact HF |]. intros [] Hq; simpl in *; tauto.
Qed.

Lemma tagging_createEvent (l : list Event) : Forall tagging l -> Forall createEvent l.
Proof.
  intros HF. eapply Forall_impl; [exact HF |]. intros [] Hq; simpl in *; tauto.
Qed.

(** The events of a tick, by shape. *)
Ltac tick_events Hrun Hh Hshape :=
  let evs0 := fresh "evs" in
  let Hh0 := fresh "Hh" in
  destruct (createElasticacheCluster_outcome _ _ _ _ _ _ _ _ _ Hrun)
    as (evs0 & Hh0 & Hshape);
  rewrite Hh in Hh0; apply app_inv_head in Hh0; subst evs0.

(** An event that is neither quiet nor a tagging call is not in a list of
    such events. *)
Ltac not_among H :=
  exfalso;
  match goal with
  | HF : Forall _ ?l |- _ =>
      match type of H with
      | In _ l =>
          rewrite Forall_forall in HF; apply list_elem_of_In, HF in H;
          first [exact H | destruct H as [H _]; exact H]
      end
  end.

Lemma observedOnCreate_absent pkg cacheSvc cfg w cfg' w2 pre tail :
  observedOnCreate pkg cacheSvc cfg w None cfg' w2 ->
  history w2 = history w ++ pre ->
  absentFromListing cacheSvc w (CreateReplicationGroupInput.ReplicationGroupId cfg')
    (pre ++ tail).
Proof.
  intros (rgs & w1 & E1 & E2 & E3) Hpre.
  destruct (getReplicationGroups_listing _ _ _ _ _ E1) as (failures & Hh1 & HF & Hanswer).
  destruct (emits_buildElasticacheCreateStrategy pkg cfg w1) as (evs2 & H2 & _ & _).
  rewrite E2 in H2. simpl in H2.
  rewrite H2, Hh1, <- !app_assoc in Hpre. apply app_inv_head in Hpre. subst pre.
  exists failures, rgs, (evs2 ++ tail). rewrite <- !app_assoc. simpl.
  split; [reflexivity |]. split; [assumption |]. split; [assumption |].
  eapply findCache_none. exact E3.
Qed.

(** X12.  A create tick issues a CreateReplicationGroup call exactly when it
    observes the configured replication group absent from the listing: the
    tick has then listed the groups, and the listing the remote answered
    holds no group with the configured identifier; the call carries the
    completed config, it is the last event of the tick after the discovery
    and naming calls, and the tick returns no cluster, with "started
    elasticache provision" and no error when the call succeeded and the
    wrapped failure otherwise. *)
Theorem create_call_iff_absent
    (pkg : Package) (p : RedisProvider) (cacheSvc : ElastiCacheAPI) (stsSvc : STSAPI)
    (cfg : CreateReplicationGroupInput.t) (stratCfg : StrategyConfig)
    (w w' : World) (res : outcome (ptr RedisCluster * StatusMessage * option error))
    (evs : list Event) :
  createElasticacheCluster pkg p cacheSvc stsSvc cfg stratCfg w = (res, w') ->
  history w' = history w ++ evs ->
  (forall cfg' w2,
     observedOnCreate pkg cacheSvc cfg w None cfg' w2 ->
     absentFromListing cacheSvc w
       (CreateReplicationGroupInput.ReplicationGroupId cfg') evs /\
     exists pre,
       Forall quiet pre /\
       history w2 = history w ++ pre /\
       evs = pre ++ [CreateReplicationGroupCall cfg'
                       (CreateReplicationGroup cacheSvc (history w2) cfg')] /\
       res = Normal (afterRemoteCreate (CreateReplicationGroup cacheSvc (history w2) cfg'))) /\
  (forall input err,
     In (CreateReplicationGroupCall input err) evs ->
     absentFromListing cacheSvc w
       (CreateReplicationGroupInput.ReplicationGroupId input) evs /\
     exists w2 pre,
       observedOnCreate pkg cacheSvc cfg w None input w2 /\
       Forall quiet pre /\
       evs = pre ++ [CreateReplicationGroupCall input err] /\
       res = Normal (afterRemoteCreate err)).
Proof.
  intros Hrun Hh.
  assert (Hforward : forall cfg' w2,
             observedOnCreate pkg cacheSvc cfg w None cfg' w2 ->
             absentFromListing cacheSvc w
               (CreateReplicationGroupInput.ReplicationGroupId cfg') evs /\
             exists pre,
               Forall quiet pre /\
               history w2 = history w ++ pre /\
               evs = pre ++ [CreateReplicationGroupCall cfg'
                               (CreateReplicationGroup cacheSvc (history w2) cfg')] /\
               res = Normal (afterRemoteCreate
                               (CreateReplicationGroup cacheSvc (history w2) cfg'))).
  { intros cfg' w2 Hobs.
    destruct (observedOnCreate_history _ _ _ _ _ _ _ Hobs) as (pre & Hpre & HF & _).
    pose proof (createElasticacheCluster_absent pkg p cacheSvc stsSvc cfg stratCfg w cfg' w2
                  Hobs) as Hrun'.
    cbv zeta in Hrun'. rewrite Hrun in Hrun'. inversion Hrun'; subst. clear Hrun'.
    simpl in Hh.
    assert (Hevs : evs = pre ++ [CreateReplicationGroupCall cfg'
                                   (CreateReplicationGroup cacheSvc (history w2) cfg')]).
    { apply (app_inv_head (history w)). rewrite app_assoc, <- Hpre. symmetry. exact Hh. }
    split.
    - rewrite Hevs. eapply observedOnCreate_absent; eassumption.
    - exists pre. repeat split; assumption. }
  split; [exact Hforward |].
  intros input err Hin. tick_events Hrun Hh Hshape.
  inversion Hshape; subst; clear Hshape.
  - not_among Hin.
  - apply quiet_prefix_In in Hin; [| assumption | simpl; tauto].
    destruct Hin as [Hin | []]. inversion Hin; subst.
    match goal with
    | Hobs : observedOnCreate _ _ _ _ None _ _ |- _ =>
        destruct (Hforward _ _ Hobs) as (Habsent & _); split; [exact Habsent | eauto 10]
    end.
  - apply quiet_prefix_In in Hin; [| assumption | simpl; tauto].
    destruct Hin as [Hin | []]. discriminate.
  - apply quiet_prefix_In in Hin; [| assumption | simpl; tauto].
    destruct Hin as [Hin | [Hin | []]]; discriminate.
  - apply quiet_prefix_In in Hin; [| assumption | simpl; tauto].
    destruct Hin as [Hin | Hin]; [discriminate |]. not_among Hin.
Qed.

(** X13.  A create tick returns a cluster only with a nil error and the
    success message, and only when it observed the group available, the
    call that creates the alert rule was issued and succeeded or answered
    that the rule exists already, the drift detector found nothing to modify
    and the first node group is available; the cluster is the address and
    port of the primary endpoint of that node group, and the tick issued no
    create or modify call: after the call for the alert rule it made only
    calls of the tagging subsystem. *)
Theorem returned_cluster_means_ready
    (pkg : Package) (p : RedisProvider) (cacheSvc : ElastiCacheAPI) (stsSvc : STSAPI)
    (cfg : CreateReplicationGroupInput.t) (stratCfg : StrategyConfig)
    (w w' : World) (cluster : RedisCluster) (msg : StatusMessage) (err : option error)
    (evs : list Event) :
  createElasticacheCluster pkg p cacheSvc stsSvc cfg stratCfg w
    = (Normal (Some cluster, msg, err), w') ->
  history w' = history w ++ evs ->
  err = None /\
  msg = "successfully created and tagged, aws elasticache status is available" /\
  Forall (fun e => ~ isRemoteChange e) evs /\
  exists found cfg' w2 clusterID ng ngs endpoint,
    reachesAlertOnCreate pkg cacheSvc cfg w found cfg' w2 clusterID /\
    (exists id pre aerr tags,
       elasticache.ReplicationGroupId found = Some id /\
       Forall quiet pre /\
       evs = pre ++ ClientCreateCall (availabilityAlertRule (redis w) id clusterID) aerr
                    :: tags /\
       alertAccepted aerr /\
       Forall (nodeTagging pkg (redis w)) tags) /\
    (exists w6, buildElasticacheUpdateStrategy cfg' found w6 = (Normal None, w6)) /\
    elasticache.NodeGroups found = Some ng :: ngs /\
    elasticache.NodeGroupStatus ng = Some "available" /\
    elasticache.PrimaryEndpoint ng = Some endpoint /\
    elasticache.Address endpoint = Some (URI cluster) /\
    elasticache.Port endpoint = Some (DeploymentPort cluster).
Proof.
  intros Hrun Hh. tick_events Hrun Hh Hshape.
  remember (Normal (Some cluster, msg, err)) as r eqn:Hr.
  destruct Hshape
    as [res pre HF Hno | cfg' w2 pre e Hobs HF
       | found cfg' w2 clusterID id pre aerr res Hreach Hid HF Hno
       | found cfg' w2 clusterID id pre aerr ec w6 e Hreach Hid HF Hacc Hupd
       | found cfg' w2 clusterID id pre aerr w6 ng ngs tags res
           Hreach Hid HF Hacc Hupd Hngs Hns HFt Hres]; subst.
  - destruct Hno.
  - destruct e; discriminate.
  - destruct Hno.
  - destruct e; discriminate.
  - destruct Hres as [[] | (endpoint & address & port & Hep & Haddr & Hport & Hres)].
    inversion Hres; subst. split; [reflexivity | split; [reflexivity |]].
    split.
    + rewrite Forall_app. split; [apply quiet_not_remote_change; assumption |].
      constructor; [simpl; tauto |].
      eapply tagging_not_remote_change, nodeTagging_tagging; eassumption.
    + exists found, cfg', w2, clusterID, ng, ngs, endpoint. simpl.
      split; [assumption |]. split; [exists id, pre, aerr, tags; auto |]. eauto 10.
Qed.

(** X14.  A ModifyReplicationGroup call of a create tick is its last event
    and comes right after the call that creates the alert rule, which
    succeeded or found the rule existing; the request names the observed
    group and changes something; the tick returns no cluster, with the
    in-progress message when the call succeeded and the wrapped failure
    otherwise. *)
Theorem modify_call_ends_tick
    (pkg : Package) (p : RedisProvider) (cacheSvc : ElastiCacheAPI) (stsSvc : STSAPI)
    (cfg : CreateReplicationGroupInput.t) (stratCfg : StrategyConfig)
    (w w' : World) (res : outcome (ptr RedisCluster * StatusMessage * option error))
    (evs : list Event) (ec : ModifyReplicationGroupInput.t) (err : option error) :
  createElasticacheCluster pkg p cacheSvc stsSvc cfg stratCfg w = (res, w') ->
  history w' = history w ++ evs ->
  In (ModifyReplicationGroupCall ec err) evs ->
  exists found cfg' w2 clusterID id pre aerr,
    reachesAlertOnCreate pkg cacheSvc cfg w found cfg' w2 clusterID /\
    elasticache.ReplicationGroupId found = Some id /\
    ModifyReplicationGroupInput.ReplicationGroupId ec = Some id /\
    changesSomething ec /\
    alertAccepted aerr /\
    Forall quiet pre /\
    evs = pre ++ [ClientCreateCall (availabilityAlertRule (redis w) id clusterID) aerr;
                  ModifyReplicationGroupCall ec err] /\
    res = Normal (afterRemoteModify err).
Proof.
  intros Hrun Hh Hin. tick_events Hrun Hh Hshape.
  inversion Hshape; subst; clear Hshape.
  - not_among Hin.
  - apply quiet_prefix_In in Hin; [| assumption | simpl; tauto].
    destruct Hin as [Hin | []]. discriminate.
  - apply quiet_prefix_In in Hin; [| assumption | simpl; tauto].
    destruct Hin as [Hin | []]. discriminate.
  - apply quiet_prefix_In in Hin; [| assumption | simpl; tauto].
    destruct Hin as [Hin | [Hin | []]]; [discriminate |]. inversion Hin; subst.
    match goal with
    | H : buildElasticacheUpdateStrategy _ _ _ = _ |- _ =>
        destruct (buildElasticacheUpdateStrategy_Some _ _ _ _ _ H) as (Hchg & Hecid)
    end.
    exists found, cfg', w2, clusterID, id, pre, aerr.
    repeat (split; [assumption || congruence || reflexivity |]). reflexivity.
  - apply quiet_prefix_In in Hin; [| assumption | simpl; tauto].
    destruct Hin as [Hin | Hin]; [discriminate |]. not_among Hin.
Qed.

(** X15.  A create tick adds tags only after it observed the group
    available, the alert rule was created or existed already, the drift
    detector found nothing to modify and the first node group is available;
    the tags it adds are those of the resource, and a tick that adds tags
    issues no create or modify call. *)
Theorem tags_added_only_when_ready
    (pkg : Package) (p : RedisProvider) (cacheSvc : ElastiCacheAPI) (stsSvc : STSAPI)
    (cfg : CreateReplicationGroupInput.t) (stratCfg : StrategyConfig)
    (w w' : World) (res : outcome (ptr RedisCluster * StatusMessage * option error))
    (evs : list Event) (arn : string) (tags : list elasticache.Tag) (err : option error) :
  createElasticacheCluster pkg p cacheSvc stsSvc cfg stratCfg w = (res, w') ->
  history w' = history w ++ evs ->
  In (AddTagsToResourceCall arn tags err) evs ->
  (exists tagClusterID, tags = nodeTags pkg (redis w) tagClusterID) /\
  Forall (fun e => ~ isRemoteChange e) evs /\
  exists found cfg' w2 clusterID id ng ngs pre aerr rest,
    reachesAlertOnCreate pkg cacheSvc cfg w found cfg' w2 clusterID /\
    elasticache.ReplicationGroupId found = Some id /\
    (exists w6, buildElasticacheUpdateStrategy cfg' found w6 = (Normal None, w6)) /\
    elasticache.NodeGroups found = Some ng :: ngs /\
    elasticache.NodeGroupStatus ng = Some "available" /\
    alertAccepted aerr /\
    Forall quiet pre /\
    evs = pre ++ ClientCreateCall (availabilityAlertRule (redis w) id clusterID) aerr
                 :: rest /\
    In (AddTagsToResourceCall arn tags err) rest.
Proof.
  intros Hrun Hh Hin. tick_events Hrun Hh Hshape.
  inversion Hshape; subst; clear Hshape.
  - not_among Hin.
  - apply quiet_prefix_In in Hin; [| assumption | simpl; tauto].
    destruct Hin as [Hin | []]. discriminate.
  - apply quiet_prefix_In in Hin; [| assumption | simpl; tauto].
    destruct Hin as [Hin | []]. discriminate.
  - apply quiet_prefix_In in Hin; [| assumption | simpl; tauto].
    destruct Hin as [Hin | [Hin | []]]; discriminate.
  - apply quiet_prefix_In in Hin; [| assumption | simpl; tauto].
    destruct Hin as [Hin | Hin]; [discriminate |].
    split; [| split].
    + match goal with
      | HF : Forall (nodeTagging _ _) _ |- _ =>
          rewrite Forall_forall in HF;
          destruct (HF _ (proj2 (list_elem_of_In _ _) Hin)) as [_ Htags]
      end.
      exact Htags.
    + rewrite Forall_app. split; [apply quiet_not_remote_change; assumption |].
      constructor; [simpl; tauto |].
      eapply tagging_not_remote_change, nodeTagging_tagging; eassumption.
    + exists found, cfg', w2, clusterID, id, ng, ngs, pre, aerr, tags0. eauto 12.
Qed.

(** X16.  A create tick never deletes anything and never touches the custom
    resource: its events are discovery, naming, metric and tagging calls,
    the call creating the alert rule, and create or modify calls; a create
    or modify call is the last event of its tick, so a tick changes the
    replication group at most once; the desired resource is left as it
    was. *)
Theorem create_tick_changes_at_most_once
    (pkg : Package) (p : RedisProvider) (cacheSvc : ElastiCacheAPI) (stsSvc : STSAPI)
    (cfg : CreateReplicationGroupInput.t) (stratCfg : StrategyConfig)
    (w w' : World) (res : outcome (ptr RedisCluster * StatusMessage * option error))
    (evs : list Event) :
  createElasticacheCluster pkg p cacheSvc stsSvc cfg stratCfg w = (res, w') ->
  history w' = history w ++ evs ->
  Forall createEvent evs /\
  redis w' = redis w /\
  (Forall (fun e => ~ isRemoteChange e) evs \/
   exists before change,
     evs = before ++ [change] /\ isRemoteChange change /\
     Forall (fun e => ~ isRemoteChange e) before).
Proof.
  intros Hrun Hh.
  destruct (emits_createElasticacheCluster pkg p cacheSvc stsSvc cfg stratCfg w)
    as (evs' & _ & _ & Hr).
  rewrite Hrun in Hr. simpl in Hr.
  tick_events Hrun Hh Hshape.
  inversion Hshape; subst; clear Hshape; (split; [| split; [assumption |]]).
  - apply quiet_createEvent; assumption.
  - left. apply quiet_not_remote_change; assumption.
  - rewrite Forall_app. split; [apply quiet_createEvent; assumption |].
    repeat constructor.
  - right. eexists pre, _. split; [reflexivity |].
    split; [exact I | apply quiet_not_remote_change; assumption].
  - rewrite Forall_app. split; [apply quiet_createEvent; assumption |].
    repeat constructor.
  - left. rewrite Forall_app. split; [apply quiet_not_remote_change; assumption |].
    repeat constructor. simpl. tauto.
  - rewrite Forall_app. split; [apply quiet_createEvent; assumption |].
    repeat constructor.
  - right. eexists (pre ++ [_]), _. rewrite <- app_assoc. split; [reflexivity |].
    split; [exact I |].
    rewrite Forall_app. split; [apply quiet_not_remote_change; assumption |].
    repeat constructor. simpl. tauto.
  - rewrite Forall_app. split; [apply quiet_createEvent; assumption |].
    constructor; [exact I | eapply tagging_createEvent, nodeTagging_tagging; eassumption].
  - left. rewrite Forall_app. split; [apply quiet_not_remote_change; assumption |].
    constructor; [simpl; tauto | eapply tagging_not_remote_change, nodeTagging_tagging; eassumption].
Qed.

Lemma buildElasticacheUpdateStrategy_pure cfg found w w0 :
  fst (buildElasticacheUpdateStrategy cfg found w)
  = fst (buildElasticacheUpdateStrategy cfg found w0).
Proof.
  unfold buildElasticacheUpdateStrategy, bind.
  destruct (CreateReplicationGroupInput.CacheNodeType cfg); simpl; [| reflexivity].
  destruct (elasticache.CacheNodeType found); simpl; [| reflexivity].
  destruct (negb _); simpl;
    (destruct (CreateReplicationGroupInput.SnapshotRetentionLimit cfg); simpl;
     [| reflexivity]);
    (destruct (elasticache.SnapshotRetentionLimit found); simpl; [| reflexivity]);
    destruct (negb _); reflexivity.
Qed.

Lemma buildElasticacheUpdateStrategy_at cfg found w w0 r :
  fst (buildElasticacheUpdateStrategy cfg found w) = r ->
  buildElasticacheUpdateStrategy cfg found w0 = (r, w0).
Proof.
  intros <-. rewrite (buildElasticacheUpdateStrategy_pure cfg found w w0).
  rewrite <- (buildElasticacheUpdateStrategy_world cfg found w0) at 3.
  apply surjective_pairing.
Qed.

Lemma reachesAlertOnCreate_history pkg cacheSvc cfg w found cfg' w2 clusterID :
  reachesAlertOnCreate pkg cacheSvc cfg w found cfg' w2 clusterID ->
  exists w3 w4 w5 pre,
    setRedisServiceMaintenanceMetric pkg cacheSvc found w2 = (Normal None, w3) /\
    exposeRedisMetrics pkg found w3 = (Normal None, w4) /\
    callGetClusterID pkg w4 = (Normal (clusterID, None), w5) /\
    history w5 = history w ++ pre /\ Forall quiet pre /\ redis w5 = redis w.
Proof.
  intros (Hobs & _ & w3 & w4 & w5 & E4 & E5 & E6).
  destruct (observedOnCreate_history _ _ _ _ _ _ _ Hobs) as (pre & Hpre & HF & Hr).
  destruct (emits_setRedisServiceMaintenanceMetric pkg cacheSvc found w2)
    as (evs4 & H4 & F4 & R4).
  destruct (emits_exposeRedisMetrics pkg found w3) as (evs5 & H5 & F5 & R5).
  destruct (emits_callGetClusterID pkg w4) as (evs6 & H6 & F6 & R6).
  rewrite E4 in H4, R4. rewrite E5 in H5, R5. rewrite E6 in H6, R6. simpl in *.
  exists w3, w4, w5, (pre ++ evs4 ++ evs5 ++ evs6).
  repeat (split; [assumption |]).
  split; [| split].
  - rewrite H6, H5, H4, Hpre, <- !app_assoc. reflexivity.
  - rewrite !Forall_app. auto.
  - congruence.
Qed.

(** X17.  When the create path has created the alert rule, finds nothing to
    modify and the first node group is not available, it adds no tags: the
    call creating the alert rule is the last event of the tick, and the tick
    returns no cluster and no error.  Its message reports the status of the
    replication group, which is "available" here, not the status of the node
    group. *)
Theorem unavailable_node_group_adds_no_tags
    (pkg : Package) (p : RedisProvider) (cacheSvc : ElastiCacheAPI) (stsSvc : STSAPI)
    (cfg : CreateReplicationGroupInput.t) (stratCfg : StrategyConfig)
    (w w' : World) (res : outcome (ptr RedisCluster * StatusMessage * option error))
    (evs : list Event)
    (found : elasticache.ReplicationGroup) (cfg' : CreateReplicationGroupInput.t)
    (w2 : World) (clusterID : string)
    (ng : elasticache.NodeGroup) (ngs : list (ptr elasticache.NodeGroup))
    (nodeStatus : string) :
  reachesAlertOnCreate pkg cacheSvc cfg w found cfg' w2 clusterID ->
  fst (buildElasticacheUpdateStrategy cfg' found w2) = Normal None ->
  elasticache.NodeGroups found = Some ng :: ngs ->
  elasticache.NodeGroupStatus ng = Some nodeStatus ->
  nodeStatus <> "available" ->
  createElasticacheCluster pkg p cacheSvc stsSvc cfg stratCfg w = (res, w') ->
  history w' = history w ++ evs ->
  exists pre id aerr,
    elasticache.ReplicationGroupId found = Some id /\
    Forall quiet pre /\
    evs = pre ++ [ClientCreateCall (availabilityAlertRule (redis w) id clusterID) aerr] /\
    (alertAccepted aerr ->
     res = Normal (None, "cache node status not available, current status:  available",
                   None)).
Proof.
  intros Hreach Hupd Hngs Hns Hne Hrun Hh.
  destruct (reachesAlertOnCreate_history _ _ _ _ _ _ _ _ Hreach)
    as (w3 & w4 & w5 & pre & E4 & E5 & E6 & Hpre & HF & Hredis).
  destruct Hreach as ((rgs & w1 & E1 & E2 & E3) & Hstatus & _).
  destruct (findCache_found _ _ _ _ _ E3) as (Hid & id & Hwanted).
  rewrite Hwanted in Hid.
  destruct (CreateElastiCacheAvailabilityAlert_result p id clusterID w5)
    as (aerr & w6 & E7 & _ & Hh7 & _).
  rewrite Hredis in Hh7.
  exists pre, id, aerr. split; [assumption | split; [assumption |]].
  revert Hrun. unfold createElasticacheCluster, bind.
  rewrite E1. cbv beta iota. rewrite E2. cbv beta iota. rewrite E3. cbv beta iota.
  rewrite E4. cbv beta iota. rewrite E5. cbv beta iota. rewrite Hstatus.
  cbn [deref ret negb String.eqb Ascii.eqb Bool.eqb andb]. cbv beta iota.
  rewrite E6. cbv beta iota. rewrite Hid. cbn [deref ret]. rewrite E7. cbv beta iota.
  destruct (alertCreateResult id aerr) as [e |] eqn:Eres; cbn [ret].
  - intros Hrun. inversion Hrun; subst. split.
    + apply (app_inv_head (history w)). rewrite <- Hh, Hh7, Hpre, <- app_assoc. reflexivity.
    + intros Hacc. destruct aerr as [e0 |]; simpl in *; [| discriminate].
      rewrite Hacc in Eres. discriminate.
  - rewrite (buildElasticacheUpdateStrategy_at cfg' found w2 w6 _ Hupd). cbv beta iota.
    rewrite Hngs. cbn [index0 deref ret]. rewrite Hns. cbn [deref ret].
    destruct (String.eqb_spec nodeStatus "available") as [-> | _]; [contradiction |].
    cbn [negb ret]. intros Hrun. inversion Hrun; subst. split.
    + apply (app_inv_head (history w)). rewrite <- Hh, Hh7, Hpre, <- app_assoc. reflexivity.
    + intros _. reflexivity.
Qed.

(** ** The alert rule *)

Lemma DeleteElastiCacheAvailabilityAlert_run p namespace id w res w' :
  DeleteElastiCacheAvailabilityAlert p namespace id w = (res, w') ->
  exists obj gerr rest,
    history w' = history w ++ ClientGetCall namespace (alertRuleNameOf id) obj gerr :: rest /\
    (obj, gerr) = Get (Client p) (history w) namespace (alertRuleNameOf id) /\
    match gerr with
    | Some e => rest = [] /\ res = Normal (alertDeleteResult id (Some e))
    | None =>
        exists derr,
          rest = [ClientDeleteCall obj derr] /\ res = Normal (alertDeleteResult id derr)
    end.
Proof.
  unfold DeleteElastiCacheAvailabilityAlert, bind, call. cbn [fst snd].
  destruct (Get (Client p) (history w) namespace (alertRuleNameOf id)) as [obj [e |]] eqn:Eget;
    cbn [fst snd ret Wrap history].
  - finish. exists obj, (Some e), []. auto.
  - match goal with
    | |- context [Delete (Client p) ?h obj] => destruct (Delete (Client p) h obj) as [e |]
    end; cbn [ret Wrap]; finish; exists obj, None; eexists; simpl;
      (split; [rewrite <- app_assoc; reflexivity |]); (split; [reflexivity |]); eauto.
Qed.

(** X18.  The alert rule is created and deleted under the same key: the
    rule the create path sends to the Kubernetes API is named
    "cro-aws-elasticache-" followed by the group's identifier, lies in the
    namespace of the resource and has one group with one alert; the delete
    path looks up that namespace and name, deletes the object the lookup
    returned, and returns the failure of either call wrapped.  Creating the
    rule counts as done when the API answers that it exists already. *)
Theorem alert_rule_lookup_matches_creation
    (p : RedisProvider) (id clusterID : string) (w wd wd' : World)
    (res : outcome (option error)) (evs : list Event) :
  DeleteElastiCacheAvailabilityAlert p (Namespace (Meta (redis w))) id wd = (res, wd') ->
  history wd' = history wd ++ evs ->
  exists rule,
    RuleName rule = "cro-aws-elasticache-" +:+ id /\
    RuleNamespace rule = Namespace (Meta (redis w)) /\
    (exists expr,
       Groups rule = [ {| GroupName := RuleName rule +:+ "Group";
                          Rules := [ {| Alert := RuleName rule +:+ "Alert";
                                        Expr := expr |} ] |} ]) /\
    (exists err w',
       CreateElastiCacheAvailabilityAlert p id clusterID w
         = (Normal (alertCreateResult id err), w') /\
       history w' = history w ++ [ClientCreateCall rule err]) /\
    exists obj gerr rest,
      evs = ClientGetCall (RuleNamespace rule) (RuleName rule) obj gerr :: rest /\
      match gerr with
      | Some e => rest = [] /\ res = Normal (alertDeleteResult id (Some e))
      | None =>
          exists derr,
            rest = [ClientDeleteCall obj derr] /\ res = Normal (alertDeleteResult id derr)
      end.
Proof.
  intros Hrun Hh. exists (availabilityAlertRule (redis w) id clusterID).
  split; [reflexivity | split; [reflexivity | split; [eexists; reflexivity |]]].
  split.
  - destruct (CreateElastiCacheAvailabilityAlert_result p id clusterID w)
      as (err & w' & Hc & _ & Hhc & _).
    eauto.
  - destruct (DeleteElastiCacheAvailabilityAlert_run _ _ _ _ _ _ Hrun)
      as (obj & gerr & rest & Hhd & _ & Hres).
    rewrite Hh in Hhd. apply app_inv_head in Hhd. subst evs.
    exists obj, gerr, rest. split; [reflexivity | exact Hres].
Qed.

(** ** The outcomes of a delete tick *)

Lemma buildElasticacheDeleteConfig_ids pkg r c d w c' d' w' :
  buildElasticacheDeleteConfig pkg r c d w = (Normal (c', d', None), w') ->
  DeleteReplicationGroupInput.RetainPrimaryCluster d' <> None /\
  DeleteReplicationGroupInput.ReplicationGroupId d' =
    match DeleteReplicationGroupInput.ReplicationGroupId d with
    | Some own => Some own
    | None => CreateReplicationGroupInput.ReplicationGroupId c'
    end /\
  (DeleteReplicationGroupInput.ReplicationGroupId d = None ->
   CreateReplicationGroupInput.ReplicationGroupId c' <> None) /\
  DeleteReplicationGroupInput.ReplicationGroupId d' <> None.
Proof.
  unfold buildElasticacheDeleteConfig, bind, callBuildInfraName, call. cbn [fst snd].
  destruct (BuildInfraNameFromObject pkg (history w) (Meta r) (DefaultAwsIdentifierLength pkg))
    as [cacheName [e |]]; cbn [fst snd ret Wrap]; [discriminate |].
  destruct d as [did retain final].
  destruct c as [afe eng nt descr ev ncc srl cid sub pmw sw port enc].
  destruct did as [own |]; destruct cid as [cid |]; destruct retain as [retain |];
    cbn;
    match goal with
    | |- context [buildTimestampedInfraNameFromObject pkg ?h ?m ?n] =>
        destruct (buildTimestampedInfraNameFromObject pkg h m n) as [snapshotId [e |]]
    end; cbn; try discriminate;
    destruct final as [s |]; cbn; try destruct (s =? "")%string; cbn;
    intros H; inversion H; subst; cbn; repeat split; congruence.
Qed.

(** The events of a delete tick, by shape. *)
Ltac delete_events Hrun Hh Hshape :=
  let evs0 := fresh "evs" in
  let Hh0 := fresh "Hh" in
  destruct (deleteElasticacheCluster_tick _ _ _ _ _ _ _ _ Hrun) as (evs0 & Hh0 & Hshape);
  rewrite Hh in Hh0; apply app_inv_head in Hh0; subst evs0.

(** X19.  A delete tick calls DeleteReplicationGroup only for a group it
    observed with status "available".  The request it sends has
    RetainPrimaryCluster set and names a group: the one the delete strategy
    names, and the observed group when the delete strategy names none. *)
Theorem remote_delete_names_observed_group
    (pkg : Package) (p : RedisProvider) (cacheSvc : ElastiCacheAPI)
    (c : CreateReplicationGroupInput.t) (d : DeleteReplicationGroupInput.t)
    (w w' : World) (res : outcome (StatusMessage * option error)) (evs : list Event)
    (input : DeleteReplicationGroupInput.t) (err : option error) :
  deleteElasticacheCluster pkg p cacheSvc c d w = (res, w') ->
  history w' = history w ++ evs ->
  In (DeleteReplicationGroupCall input err) evs ->
  exists found c' w2 id,
    observedOnDelete pkg cacheSvc c d w (Some found) c' input w2 /\
    elasticache.Status found = Some "available" /\
    elasticache.ReplicationGroupId found = Some id /\
    DeleteReplicationGroupInput.RetainPrimaryCluster input <> None /\
    DeleteReplicationGroupInput.ReplicationGroupId input =
      match DeleteReplicationGroupInput.ReplicationGroupId d with
      | Some own => Some own
      | None => Some id
      end.
Proof.
  intros Hrun Hh Hin. delete_events Hrun Hh Hshape.
  inversion Hshape as
    [res0 pre HF
    | c' d' w2 pre uerr Hobs HF
    | found c' d' w2 id pre rule e Hobs Hstatus Hid HF
    | found c' d' w2 id pre rule e Hobs Hstatus Hid HF
    | found c' d' w2 id pre rule derr Hobs Hstatus Hid HF]; subst; clear Hshape.
  - exfalso. rewrite Forall_forall in HF. apply list_elem_of_In in Hin.
    apply (HF _ Hin).
  - suffix_event Hin.
  - suffix_event Hin.
  - suffix_event Hin.
  - suffix_event Hin. inversion Hin; subst.
    exists found, c', w2, id. repeat (split; [assumption |]).
    destruct Hobs as (rgs & w1 & _ & E2 & E3).
    destruct (buildElasticacheDeleteConfig_ids _ _ _ _ _ _ _ _ E2)
      as (Hretain & Hdid & _ & _).
    destruct (findCache_found _ _ _ _ _ E3) as (Hfid & _).
    split; [assumption |]. rewrite Hdid.
    destruct (DeleteReplicationGroupInput.ReplicationGroupId d); congruence.
Qed.


Lemma quiet_deleteEvent (l : list Event) : Forall quiet l -> Forall deleteEvent l.
Proof.
  intros HF. eapply Forall_impl; [exact HF |]. intros [] Hq; simpl in *; tauto.
Qed.

Lemma quiet_not_removal (l : list Event) :
  Forall quiet l -> Forall (fun e => ~ isRemoval e) l.
Proof.
  intros HF. eapply Forall_impl; [exact HF |]. intros [] Hq; simpl in *; tauto.
Qed.

(** X21.  A delete tick never creates, modifies or tags anything: its events
    are discovery, naming and metric calls, the lookup and the deletion of
    the alert rule, the update of the resource and the remote delete.  It
    gives up at most one thing: the update that removes the finalizer or
    the remote delete, never both, and that call is the last event of the
    tick; the resource changes only by losing the finalizer. *)
Theorem delete_tick_removes_at_most_once
    (pkg : Package) (p : RedisProvider) (cacheSvc : ElastiCacheAPI)
    (c : CreateReplicationGroupInput.t) (d : DeleteReplicationGroupInput.t)
    (w w' : World) (res : outcome (StatusMessage * option error)) (evs : list Event) :
  deleteElasticacheCluster pkg p cacheSvc c d w = (res, w') ->
  history w' = history w ++ evs ->
  Forall deleteEvent evs /\
  (redis w' = redis w \/ redis w' = withoutFinalizer pkg (redis w)) /\
  (Forall (fun e => ~ isRemoval e) evs \/
   exists before removal,
     evs = before ++ [removal] /\ isRemoval removal /\
     Forall (fun e => ~ isRemoval e) before).
Proof.
  intros Hrun Hh. delete_events Hrun Hh Hshape.
  inversion Hshape as
    [res0 pre HF
    | c' d' w2 pre uerr Hobs HF
    | found c' d' w2 id pre rule e Hobs Hstatus Hid HF
    | found c' d' w2 id pre rule e Hobs Hstatus Hid HF
    | found c' d' w2 id pre rule derr Hobs Hstatus Hid HF]; subst; clear Hshape;
    (split; [| split; [auto |]]).
  - apply quiet_deleteEvent; assumption.
  - left. apply quiet_not_removal; assumption.
  - rewrite Forall_app. split; [apply quiet_deleteEvent; assumption |].
    repeat constructor.
  - right. exists pre. eexists. split; [reflexivity |].
    split; [exact I | apply quiet_not_removal; assumption].
  - rewrite Forall_app. split; [apply quiet_deleteEvent; assumption |].
    repeat constructor.
  - left. rewrite Forall_app. split; [apply quiet_not_removal; assumption |].
    repeat constructor. simpl. tauto.
  - rewrite Forall_app. split; [apply quiet_deleteEvent; assumption |].
    repeat constructor.
  - left. rewrite Forall_app. split; [apply quiet_not_removal; assumption |].
    repeat constructor; simpl; tauto.
  - rewrite Forall_app. split; [apply quiet_deleteEvent; assumption |].
    repeat constructor.
  - right. eexists (pre ++ [_; _]), _. rewrite <- app_assoc. split; [reflexivity |].
    split; [exact I |].
    rewrite Forall_app. split; [apply quiet_not_removal; assumption |].
    repeat constructor; simpl; tauto.
Qed.

(** ** The create strategy and the maintenance metric *)

(** X22.  A config completed by [buildElasticacheCreateStrategy] is a fixed
    point: building again from it, in any world and with any collaborators,
    returns the same config, whatever name the second lookup of the
    infrastructure name answers and even when that lookup fails. *)
Theorem buildElasticacheCreateStrategy_idempotent
    (pkg pkg0 : Package) (cfg c' : CreateReplicationGroupInput.t) (w w' w0 : World) :
  buildElasticacheCreateStrategy pkg cfg w = (Normal (c', None), w') ->
  exists err w1, buildElasticacheCreateStrategy pkg0 c' w0 = (Normal (c', err), w1).
Proof.
  destruct cfg as [afe eng nt descr ev ncc srl rid sub pmw sw port enc].
  rewrite buildElasticacheCreateStrategy_run. cbv zeta.
  destruct (BuildInfraNameFromObject pkg (history w) (Meta (redis w))
              (DefaultAwsIdentifierLength pkg)) as [cacheName [e |]];
    cbn [fst snd Wrap]; intros H; [discriminate H |].
  injection H as Hc Hw. subst c' w'.
  rewrite buildElasticacheCreateStrategy_run. cbv zeta.
  destruct (BuildInfraNameFromObject pkg0 (history w0) (Meta (redis w0))
              (DefaultAwsIdentifierLength pkg0)) as [cacheName0 [e |]];
    cbn [fst snd Wrap default from_option id]; eexists _, _; reflexivity.
Qed.

Lemma serviceUpdateMetrics_no_error pkg clusterID updates w r w' :
  serviceUpdateMetrics pkg clusterID updates w = (Normal r, w') ->
  r = None /\ history w' = history w.
Proof.
  revert w. induction updates as [| su rest IH]; intros w; cbn [serviceUpdateMetrics].
  - finish. auto.
  - unfold bind.
    destruct su as [su |]; cbn [deref ret panic]; [| discriminate].
    repeat match goal with
           | |- context [deref ?x] =>
               destruct x; cbn [deref ret panic]; [| discriminate]
           end.
    match goal with
    | |- context [SetMetric pkg ?n ?l ?v w] =>
        destruct (SetMetric pkg n l v w) as [[r0 |] w1] eqn:H1; [| discriminate]
    end.
    destruct (SetMetric_no_error _ _ _ _ _ _ _ H1) as (-> & Hh1 & _).
    intros Hrun. destruct (IH _ Hrun) as (-> & Hh). split; [reflexivity | congruence].
Qed.

(** X23.  [setRedisServiceMaintenanceMetric] returns an error only when the
    cluster identifier cannot be retrieved or the listing of the service
    updates fails; the error is that failure, wrapped, and no metric has
    been touched.  The error branch after [SetMetric] is never taken. *)
Theorem setRedisServiceMaintenanceMetric_only_errors
    (pkg : Package) (cacheSvc : ElastiCacheAPI) (instance : elasticache.ReplicationGroup)
    (w w' : World) (e : error) :
  setRedisServiceMaintenanceMetric pkg cacheSvc instance w = (Normal (Some e), w') ->
  MetricVecs w' = MetricVecs w /\ Registry w' = Registry w /\
  ((exists clusterID cause,
      GetClusterID pkg (history w) = (clusterID, Some cause) /\
      e = WithMessage cause "failed to get cluster id" /\
      history w' = history w ++ [GetClusterIDCall clusterID (Some cause)]) \/
   (exists clusterID out cause,
      GetClusterID pkg (history w) = (clusterID, None) /\
      e = WithMessage cause "elasticache serviceupdates error" /\
      history w' =
        history w ++ [GetClusterIDCall clusterID None;
                      DescribeServiceUpdatesCall out (Some cause)])).
Proof.
  unfold setRedisServiceMaintenanceMetric, bind, callGetClusterID, call. cbn [fst snd].
  destruct (GetClusterID pkg (history w)) as [clusterID [cause |]] eqn:Hid;
    cbn [fst snd ret Wrap history].
  { finish. simpl. split; [reflexivity | split; [reflexivity |]]. left. eauto. }
  match goal with
  | |- context [DescribeServiceUpdates cacheSvc ?h] =>
      destruct (DescribeServiceUpdates cacheSvc h) as [out [cause |]] eqn:Hsu
  end; cbn [fst snd ret Wrap history].
  { finish. simpl. split; [reflexivity | split; [reflexivity |]]. right.
    exists clusterID, out, cause. rewrite <- app_assoc. auto. }
  destruct out as [updates |]; cbn [deref ret panic]; [| discriminate].
  intros Hrun. apply serviceUpdateMetrics_no_error in Hrun. destruct Hrun. discriminate.
Qed.

(** ** The theorems on concrete scenarios *)

Lemma SetMetric_upsert_frame_witness :
  exists w',
    SetMetric Fixture.pkg "cro_aws_elasticache_available"
      (genericLabelsOf Fixture.cr "cluster1-ns-redis" "cluster-1") 0%float
      Scenario.metricsWorld = (Normal None, w') /\
    gaugeValue w' "cro_aws_elasticache_available"
      (labelValues (genericLabelsOf Fixture.cr "cluster1-ns-redis" "cluster-1"))
    = Some 0%float.
Proof.
  destruct (SetMetric_upsert_frame Fixture.pkg "cro_aws_elasticache_available"
              (genericLabelsOf Fixture.cr "cluster1-ns-redis" "cluster-1") 0%float
              Scenario.metricsWorld
              (NewGaugeVec "cro_aws_elasticache_available"
                 (map fst (map_to_list
                             (genericLabelsOf Fixture.cr "cluster1-ns-redis" "cluster-1"))))
              (labelValues (genericLabelsOf Fixture.cr "cluster1-ns-redis" "cluster-1")))
    as (w' & Hrun & Hvalue & _).
  - vm_compute. reflexivity.
  - vm_compute. reflexivity.
  - exists w'. split; assumption.
Defined.

Lemma SetMetric_twice_witness :
  exists w1 w2,
    SetMetric Fixture.pkg "cro_aws_elasticache_available" Fixture.labels 1%float
      Fixture.world = (Normal None, w1) /\
    gaugeValue w1 "cro_aws_elasticache_available" (labelValues Fixture.labels) = None /\
    SetMetric Fixture.pkg "cro_aws_elasticache_available" Fixture.labels 0%float w1
      = (Normal None, w2) /\
    gaugeValue w2 "cro_aws_elasticache_available" (labelValues Fixture.labels)
    = Some 0%float.
Proof.
  destruct (SetMetric_twice Fixture.pkg "cro_aws_elasticache_available" Fixture.labels
              1%float 0%float Fixture.world)
    as (w1 & w2 & Hrun1 & Hnone & Hrun2 & Hvalue & _).
  - reflexivity.
  - reflexivity.
  - vm_compute. intros H. inversion H.
  - reflexivity.
  - exists w1, w2. auto.
Defined.

Lemma SetMetric_label_keys_fixed_witness :
  exists w1 reason,
    SetMetric Fixture.pkg "cro_aws_elasticache_available" Fixture.labels 1%float
      Fixture.world = (Normal None, w1) /\
    SetMetric Fixture.pkg "cro_aws_elasticache_available" Scenario.fewerLabels 1%float w1
    = (Panicked reason, w1).
Proof.
  destruct (SetMetric_label_keys_fixed Fixture.pkg "cro_aws_elasticache_available"
              Fixture.labels Scenario.fewerLabels 1%float 1%float Fixture.world)
    as (w1 & Hrun1 & reason & Hrun2).
  - reflexivity.
  - reflexivity.
  - vm_compute. intros H. inversion H.
  - intros H.
    apply (f_equal (fun s : gset string => bool_decide ("instanceID" ∈ s))) in H.
    vm_compute in H. discriminate H.
  - exists w1, reason. auto.
Defined.

Lemma SetMetric_after_StartGaugeVector_witness :
  exists w',
    StartGaugeVector Scenario.registeredWorld = (Normal tt, w') /\
    SetMetric Fixture.pkg "cro_aws_elasticache_available" Fixture.labels 1%float w'
    = (Panicked "duplicate metrics collector registration attempted", w').
Proof.
  destruct (SetMetric_after_StartGaugeVector Fixture.pkg "cro_aws_elasticache_available"
              Fixture.labels 1%float Scenario.registeredWorld)
    as (w' & Hstart & _ & Hrun).
  - unfold Scenario.registeredWorld. simpl. apply elem_of_singleton. reflexivity.
  - reflexivity.
  - exists w'. auto.
Defined.

Lemma exposeRedisMetrics_only_error_witness :
  exists w',
    exposeRedisMetrics Scenario.noClusterIdPkg
      (Fixture.group "available" [Some Fixture.nodeGroup]) Fixture.world
    = (Normal (Some (WithMessage (ErrorString "infrastructure not found")
                       "failed to get cluster id")), w') /\
    MetricVecs w' = ∅.
Proof.
  evaluate (exposeRedisMetrics Scenario.noClusterIdPkg
              (Fixture.group "available" [Some Fixture.nodeGroup]) Fixture.world) Hrun.
  destruct (exposeRedisMetrics_only_error _ _ _ _ _ Hrun)
    as (clusterID & cause & _ & _ & Hvecs & _).
  eexists. split; [exact Hrun | exact Hvecs].
Defined.

Lemma exposeRedisMetrics_sets_gauges_witness :
  exists w',
    exposeRedisMetrics Fixture.pkg (Fixture.group "creating" [Some Fixture.nodeGroup])
      Scenario.metricsWorld = (Normal None, w') /\
    gaugeValue w' defaultRedisAvailMetricName
      (labelValues (genericLabelsOf Fixture.cr "cluster1-ns-redis" "cluster-1"))
    = Some 0%float.
Proof.
  destruct (exposeRedisMetrics_sets_gauges Fixture.pkg
              (Fixture.group "creating" [Some Fixture.nodeGroup]) Scenario.metricsWorld
              "cluster1-ns-redis" "creating" "cluster-1"
              (NewGaugeVec defaultRedisInfoMetricName
                 (map fst (map_to_list
                             (infoLabelsOf Fixture.cr "cluster1-ns-redis" "cluster-1"
                                "available"))))
              (NewGaugeVec defaultRedisAvailMetricName
                 (map fst (map_to_list
                             (genericLabelsOf Fixture.cr "cluster1-ns-redis" "cluster-1"))))
              (labelValues (infoLabelsOf Fixture.cr "cluster1-ns-redis" "cluster-1"
                              "creating"))
              (labelValues (genericLabelsOf Fixture.cr "cluster1-ns-redis" "cluster-1")))
    as (w' & Hrun & _ & Havail & _).
  - reflexivity.
  - reflexivity.
  - reflexivity.
  - vm_compute. reflexivity.
  - vm_compute. reflexivity.
  - vm_compute. reflexivity.
  - vm_compute. reflexivity.
  - exists w'. split; [exact Hrun |]. exact Havail.
Defined.

Lemma getReplicationGroups_result_witness :
  exists w',
    getReplicationGroups Fixture.pkg Fixture.absentSvc Fixture.world
    = (Normal ([], None), w') /\
    history w' = [DescribeReplicationGroupsCall (Some []) None].
Proof.
  evaluate (getReplicationGroups Fixture.pkg Fixture.absentSvc Fixture.world) Hrun.
  destruct (getReplicationGroups_result _ _ _ _ _ _ Hrun) as (evs & Hh & _).
  eexists. split; [exact Hrun | reflexivity].
Defined.

Lemma getReplicationGroups_timeout_witness :
  exists w',
    getReplicationGroups Fixture.pkg Scenario.unreachableSvc Fixture.world
    = (Normal ([], Some ErrWaitTimeout), w') /\
    length (history w') = 61.
Proof.
  destruct (getReplicationGroups_timeout Fixture.pkg Scenario.unreachableSvc Fixture.world)
    as (w' & evs & Hrun & Hh & _ & Hlen).
  - intros h. eexists _, _. reflexivity.
  - exists w'. split; [exact Hrun |]. rewrite Hh. exact Hlen.
Defined.

Lemma findCache_first_match_witness :
  findCache
    [Some Scenario.otherGroup; Some (Fixture.group "available" [])]
    (Some "cluster1-ns-redis") Fixture.world
  = (Normal (Some (Fixture.group "available" [])), Fixture.world).
Proof.
  apply (findCache_first_match [Scenario.otherGroup; Fixture.group "available" []]
           "cluster1-ns-redis" Fixture.world).
  repeat constructor; discriminate.
Defined.

Lemma create_call_iff_absent_witness :
  absentFromListing Scenario.otherListedSvc Fixture.world (Some "cluster1-ns-redis")
    (history
       (snd (createElasticacheCluster Fixture.pkg (Fixture.provider None)
               Scenario.otherListedSvc Fixture.stsSvc Fixture.createConfig
               Fixture.stratCfg Fixture.world))) /\
  fst (createElasticacheCluster Fixture.pkg (Fixture.provider None)
         Scenario.otherListedSvc Fixture.stsSvc Fixture.createConfig Fixture.stratCfg
         Fixture.world)
  = Normal (None, "started elasticache provision", None).
Proof.
  evaluate (createElasticacheCluster Fixture.pkg (Fixture.provider None)
              Scenario.otherListedSvc Fixture.stsSvc Fixture.createConfig
              Fixture.stratCfg Fixture.world) Hrun.
  destruct (create_call_iff_absent _ _ _ _ _ _ _ _ _ _ Hrun eq_refl) as [_ Hback].
  edestruct Hback as (Habsent & w2 & pre & _ & _ & _ & Hres).
  { simpl. right. right. left. reflexivity. }
  rewrite Hrun. split; [exact Habsent | exact Hres].
Defined.

Lemma returned_cluster_means_ready_witness :
  exists pre rule aerr tags,
    history (snd (createElasticacheCluster Fixture.pkg (Fixture.provider None)
                    (Fixture.availableSvc None) Fixture.stsSvc Fixture.createConfig
                    Fixture.stratCfg Fixture.world))
    = pre ++ ClientCreateCall rule aerr :: tags /\
    alertAccepted aerr /\
    Forall (fun e => ~ isRemoteChange e) (pre ++ ClientCreateCall rule aerr :: tags).
Proof.
  evaluate (createElasticacheCluster Fixture.pkg (Fixture.provider None)
              (Fixture.availableSvc None) Fixture.stsSvc Fixture.createConfig
              Fixture.stratCfg Fixture.world) Hrun.
  destruct (returned_cluster_means_ready _ _ _ _ _ _ _ _ _ _ _ _ Hrun eq_refl)
    as (_ & _ & HF & found & cfg' & w2 & clusterID & ng & ngs & endpoint & _
        & (id & pre & aerr & tags & _ & _ & Hevs & Hacc & _) & _).
  rewrite Hrun.
  exists pre, (availabilityAlertRule (redis Fixture.world) id clusterID), aerr, tags.
  rewrite <- Hevs. split; [reflexivity | split; [exact Hacc | exact HF]].
Defined.

Lemma modify_call_ends_tick_witness :
  fst (createElasticacheCluster Fixture.pkg (Fixture.provider None)
         (Fixture.availableSvc None) Fixture.stsSvc Fixture.largerConfig
         Fixture.stratCfg Fixture.world)
  = Normal (afterRemoteModify None).
Proof.
  evaluate (createElasticacheCluster Fixture.pkg (Fixture.provider None)
              (Fixture.availableSvc None) Fixture.stsSvc Fixture.largerConfig
              Fixture.stratCfg Fixture.world) Hrun.
  pose proof (fun ec err =>
                modify_call_ends_tick _ _ _ _ _ _ _ _ _ _ ec err Hrun eq_refl) as Hmodify.
  edestruct Hmodify
    as (found & cfg' & w2 & clusterID & id & pre & aerr & _ & _ & _ & _ & _ & _ & _ & Hres).
  { simpl. do 7 right. left. reflexivity. }
  rewrite Hrun. exact Hres.
Defined.

Lemma tags_added_only_when_ready_witness :
  Forall (fun e => ~ isRemoteChange e)
    (history (snd (createElasticacheCluster Fixture.pkg (Fixture.provider None)
                     Scenario.snapshotsSvc Fixture.stsSvc Fixture.createConfig
                     Fixture.stratCfg Scenario.productWorld))).
Proof.
  evaluate (createElasticacheCluster Fixture.pkg (Fixture.provider None)
              Scenario.snapshotsSvc Fixture.stsSvc Fixture.createConfig
              Fixture.stratCfg Scenario.productWorld) Hrun.
  pose proof (fun arn tags err =>
                tags_added_only_when_ready _ _ _ _ _ _ _ _ _ _ arn tags err Hrun eq_refl)
    as Htags.
  edestruct Htags as (_ & HF & _).
  { simpl. do 10 right. left. reflexivity. }
  rewrite Hrun. exact HF.
Defined.

Lemma create_tick_changes_at_most_once_witness :
  Forall createEvent
    (history (snd (createElasticacheCluster Fixture.pkg (Fixture.provider None)
                     (Fixture.availableSvc None) Fixture.stsSvc Fixture.largerConfig
                     Fixture.stratCfg Fixture.world))).
Proof.
  evaluate (createElasticacheCluster Fixture.pkg (Fixture.provider None)
              (Fixture.availableSvc None) Fixture.stsSvc Fixture.largerConfig
              Fixture.stratCfg Fixture.world) Hrun.
  destruct (create_tick_changes_at_most_once _ _ _ _ _ _ _ _ _ _ Hrun eq_refl)
    as (HF & _).
  rewrite Hrun. exact HF.
Defined.

Lemma unavailable_node_group_adds_no_tags_witness :
  exists pre rule aerr,
    Forall quiet pre /\
    history (snd (createElasticacheCluster Fixture.pkg (Fixture.provider None)
                    Scenario.nodeGroupCreatingSvc Fixture.stsSvc Fixture.createConfig
                    Fixture.stratCfg Fixture.world))
    = pre ++ [ClientCreateCall rule aerr].
Proof.
  evaluate (createElasticacheCluster Fixture.pkg (Fixture.provider None)
              Scenario.nodeGroupCreatingSvc Fixture.stsSvc Fixture.createConfig
              Fixture.stratCfg Fixture.world) Hrun.
  edestruct (unavailable_node_group_adds_no_tags Fixture.pkg (Fixture.provider None)
               Scenario.nodeGroupCreatingSvc Fixture.stsSvc Fixture.createConfig
               Fixture.stratCfg Fixture.world)
    as (pre & id & aerr & _ & HF & Hevs & _).
  - split; [| split].
    + eexists _, _. split; [vm_compute; reflexivity |].
      split; vm_compute; reflexivity.
    + reflexivity.
    + eexists _, _, _. split; [vm_compute; reflexivity |].
      split; vm_compute; reflexivity.
  - vm_compute. reflexivity.
  - reflexivity.
  - reflexivity.
  - discriminate.
  - exact Hrun.
  - reflexivity.
  - rewrite Hrun. eexists pre, _, aerr. split; [exact HF | exact Hevs].
Defined.

Lemma tag_calls_carry_resource_tags_witness :
  exists clusterID,
    In (AddTagsToResourceCall "arn:aws:elasticache:eu-west-1:123456789012:snapshot:snap-2"
          (nodeTags Fixture.pkg Scenario.productCr clusterID) None)
       (history (snd (TagElasticacheNode Fixture.pkg Scenario.snapshotsSvc Fixture.stsSvc
                        Fixture.stratCfg (Some (Fixture.member "node-1"))
                        Scenario.productWorld))).
Proof.
  evaluate (TagElasticacheNode Fixture.pkg Scenario.snapshotsSvc Fixture.stsSvc
              Fixture.stratCfg (Some (Fixture.member "node-1")) Scenario.productWorld) Hrun.
  pose proof (fun arn tags err =>
                tag_calls_carry_resource_tags _ _ _ _ _ _ _ _ _ arn tags err Hrun eq_refl)
    as Htags.
  edestruct Htags
    as (node & id & zone & clusters & account & clusterID & rest & _ & _ & _ & _ & _ & _
        & Heq & _).
  { simpl. do 6 right. left. reflexivity. }
  change (redis Scenario.productWorld) with Scenario.productCr in Heq.
  exists clusterID. rewrite Hrun, <- Heq. simpl. do 6 right. left. reflexivity.
Defined.

Lemma tagging_without_error_tags_everything_witness :
  exists id clusters account clusterID zone snapshots serr names,
    history (snd (TagElasticacheNode Fixture.pkg Scenario.snapshotsSvc Fixture.stsSvc
                    Fixture.stratCfg (Some (Fixture.member "node-1"))
                    Scenario.productWorld))
    = tagPreamble id clusters account clusterID
      ++ AddTagsToResourceCall (clusterArn zone account id)
           (nodeTags Fixture.pkg Scenario.productCr clusterID) None
         :: DescribeSnapshotsCall id (Some snapshots) serr
         :: map (snapshotTagCall (nodeTags Fixture.pkg Scenario.productCr clusterID)
                   zone account None) names.
Proof.
  evaluate (TagElasticacheNode Fixture.pkg Scenario.snapshotsSvc Fixture.stsSvc
              Fixture.stratCfg (Some (Fixture.member "node-1")) Scenario.productWorld) Hrun.
  destruct (tagging_without_error_tags_everything _ _ _ _ _ _ _ _ _ Hrun eq_refl)
    as [(node & id & first & rest & status & _ & _ & Hevs & _)
       | (_ & node & id & zone & clusters & account & clusterID & snapshots & serr & names
          & _ & _ & _ & _ & _ & Hevs)].
  - inversion Hevs.
  - rewrite Hrun. exists id, clusters, account, clusterID, zone, snapshots, serr, names.
    exact Hevs.
Defined.

Lemma alert_rule_lookup_matches_creation_witness :
  exists rule obj gerr rest,
    RuleName rule = "cro-aws-elasticache-cluster1-ns-redis" /\
    history (snd (DeleteElastiCacheAvailabilityAlert (Fixture.provider None) "ns"
                    "cluster1-ns-redis" Fixture.world))
    = ClientGetCall (RuleNamespace rule) (RuleName rule) obj gerr :: rest.
Proof.
  evaluate (DeleteElastiCacheAvailabilityAlert (Fixture.provider None) "ns"
              "cluster1-ns-redis" Fixture.world) Hrun.
  destruct (alert_rule_lookup_matches_creation (Fixture.provider None)
              "cluster1-ns-redis" "cluster-1" Fixture.world Fixture.world _ _ _
              Hrun eq_refl)
    as (rule & Hname & _ & _ & _ & obj & gerr & rest & Hevs & _).
  rewrite Hrun. exists rule, obj, gerr, rest. split; [exact Hname | exact Hevs].
Defined.

Lemma remote_delete_names_observed_group_witness :
  exists input err,
    In (DeleteReplicationGroupCall input err)
       (history (snd (deleteElasticacheCluster Fixture.pkg (Fixture.provider None)
                        (Fixture.availableSvc None) Fixture.createConfig
                        (Fixture.deleteConfig None) Fixture.world))) /\
    DeleteReplicationGroupInput.RetainPrimaryCluster input <> None.
Proof.
  evaluate (deleteElasticacheCluster Fixture.pkg (Fixture.provider None)
              (Fixture.availableSvc None) Fixture.createConfig
              (Fixture.deleteConfig None) Fixture.world) Hrun.
  pose proof (fun input err =>
                remote_delete_names_observed_group _ _ _ _ _ _ _ _ _ input err Hrun eq_refl)
    as Hdelete.
  rewrite Hrun. eexists _, _. split.
  - simpl. do 6 right. left. reflexivity.
  - edestruct Hdelete as (found & c' & w2 & id & _ & _ & _ & Hretain & _).
    { simpl. do 6 right. left. reflexivity. }
    exact Hretain.
Defined.


Lemma delete_tick_removes_at_most_once_witness :
  Forall deleteEvent
    (history (snd (deleteElasticacheCluster Fixture.pkg (Fixture.provider None)
                     (Fixture.availableSvc None) Fixture.createConfig
                     (Fixture.deleteConfig None) Fixture.world))).
Proof.
  evaluate (deleteElasticacheCluster Fixture.pkg (Fixture.provider None)
              (Fixture.availableSvc None) Fixture.createConfig
              (Fixture.deleteConfig None) Fixture.world) Hrun.
  destruct (delete_tick_removes_at_most_once _ _ _ _ _ _ _ _ _ Hrun eq_refl) as (HF & _).
  rewrite Hrun. exact HF.
Defined.

Lemma buildElasticacheCreateStrategy_idempotent_witness :
  exists c' err w1,
    fst (buildElasticacheCreateStrategy Fixture.pkg Fixture.createConfig Fixture.world)
    = Normal (c', None) /\
    buildElasticacheCreateStrategy Scenario.noInfraNamePkg c' Scenario.productWorld
    = (Normal (c', err), w1).
Proof.
  evaluate (buildElasticacheCreateStrategy Fixture.pkg Fixture.createConfig Fixture.world)
    Hrun.
  destruct (buildElasticacheCreateStrategy_idempotent Fixture.pkg Scenario.noInfraNamePkg
              _ _ _ _ Scenario.productWorld Hrun)
    as (err & w1 & Hagain).
  rewrite Hrun. eexists _, err, w1. split; [reflexivity |].
  exact Hagain.
Defined.

Lemma setRedisServiceMaintenanceMetric_only_errors_witness :
  MetricVecs
    (snd (setRedisServiceMaintenanceMetric Fixture.pkg Scenario.updatesFailSvc
            (Fixture.group "available" [Some Fixture.nodeGroup]) Scenario.metricsWorld))
  = MetricVecs Scenario.metricsWorld.
Proof.
  evaluate (setRedisServiceMaintenanceMetric Fixture.pkg Scenario.updatesFailSvc
              (Fixture.group "available" [Some Fixture.nodeGroup]) Scenario.metricsWorld)
    Hrun.
  destruct (setRedisServiceMaintenanceMetric_only_errors _ _ _ _ _ _ Hrun) as (Hvecs & _).
  rewrite Hrun. exact Hvecs.
Defined.
